(** * ConvertMaps webhook worker: normalization and attribution pipeline

    A shallow embedding of [src/index.ts]: the JSON payload as the worker sees
    it after [JSON.parse], the JavaScript coercions the code relies on
    ([||], [Number], [Math.round], [Number.isInteger], ...), the provider
    detector, the five normalizers, the validation steps of [fetch] and the
    attribution matcher [mapItemsToProducts]; then the rest of the handler:
    the route, the two rate limiters, the checks against the store and the
    writes [fetch] makes to it.

    JavaScript numbers are IEEE 754 binary64 values; they are modelled by
    Rocq's primitive [float], which is the same format, so every arithmetic
    step below rounds exactly as the worker's does. *)

From Stdlib Require Import ZArith List String Ascii Bool Lia.
From Stdlib Require Import Floats DecimalString.
Import ListNotations.

Set Warnings "-inexact-float,-register-all".
Local Open Scope string_scope.

(* ------------------------------------------------------------------ *)
(** * JavaScript numbers *)

Module JS.

(** The float of an integer of magnitude at most 2^53 (exact). *)
Definition of_Z (z : Z) : float :=
  match z with
  | Z0 => PrimFloat.zero
  | Zpos _ => PrimFloat.of_uint63 (Uint63.of_Z z)
  | Zneg p => PrimFloat.opp (PrimFloat.of_uint63 (Uint63.of_Z (Zpos p)))
  end.

(** [Number.isNaN] on a number. *)
Definition isNaN (x : float) : bool := PrimFloat.is_nan x.

(** [x > y] is [y < x]; both are false when either side is NaN. *)
Definition gtb (x y : float) : bool := PrimFloat.ltb y x.

(** ToBoolean on a number: false for +0, -0 and NaN. *)
Definition truthy_num (x : float) : bool :=
  negb (PrimFloat.is_zero x || PrimFloat.is_nan x).

(** [x || d] on numbers. *)
Definition num_or (x d : float) : float := if truthy_num x then x else d.

(** [Number.isInteger]: finite with no fractional part. *)
Definition Number_isInteger (x : float) : bool :=
  match Prim2SF x with
  | S754_zero _ => true
  | S754_finite _ m e =>
      (0 <=? e)%Z || (Z.land (Zpos m) (Z.ones (- e)) =? 0)%Z
  | S754_infinity _ | S754_nan => false
  end.

(** [Math.round]: the nearest integer, a tie going towards +infinity; an
    argument in [-0.5, -0] gives -0; NaN and the infinities are unchanged. *)
Definition Math_round (x : float) : float :=
  match Prim2SF x with
  | S754_finite s m e =>
      if (0 <=? e)%Z then x
      else
        let d := (- e)%Z in
        let q := Z.shiftr (Zpos m) d in
        let r := Z.land (Zpos m) (Z.ones d) in
        let half := Z.shiftl 1 (d - 1) in
        if s then
          PrimFloat.opp (of_Z (if (half <? r)%Z then q + 1 else q)%Z)
        else of_Z (if (half <=? r)%Z then q + 1 else q)%Z
  | _ => x
  end.

(** [Math.abs]. *)
Definition Math_abs (x : float) : float := PrimFloat.abs x.

(** [Math.max] of two numbers: NaN if either is, and +0 above -0. *)
Definition Math_max (x y : float) : float :=
  if PrimFloat.is_nan x || PrimFloat.is_nan y then PrimFloat.nan
  else if PrimFloat.ltb x y then y
  else if PrimFloat.ltb y x then x
  else if PrimFloat.get_sign x then y else x.

(** TimeClip of a time value in milliseconds: NaN unless finite and within
    8.64e15 of the epoch, else truncated towards zero (and -0 becomes +0). *)
Definition TimeClip (t : float) : float :=
  match Prim2SF t with
  | S754_zero _ => PrimFloat.zero
  | S754_finite s m e =>
      if gtb (PrimFloat.abs t) 8.64e15%float then PrimFloat.nan
      else if (0 <=? e)%Z then t
      else
        let q := Z.shiftr (Zpos m) (- e) in
        if (q =? 0)%Z then PrimFloat.zero
        else if s then PrimFloat.opp (of_Z q) else of_Z q
  | S754_infinity _ | S754_nan => PrimFloat.nan
  end.

End JS.

Local Open Scope float_scope.

(* ------------------------------------------------------------------ *)
(** * JSON values and coercions *)

(** A JavaScript value as the worker handles it: what [JSON.parse] returns
    (null, booleans, numbers, strings, arrays, objects), and [undefined], the
    result of reading a property that is not there.  An object is the list of
    its own properties; a key is looked up from the head. *)
Inductive value : Type :=
| VUndefined
| VNull
| VBool (b : bool)
| VNum (n : float)
| VStr (s : string)
| VArr (xs : list value)
| VObj (fields : list (string * value)).

(** What the platform computes and the worker only calls: the clock, the date
    parser and printer, the string/number conversions, upper-casing and the
    random identifier.  One [Host] is one request's view of them. *)
Record Host : Type := {
  Date_now : float;                    (* Date.now(), in milliseconds *)
  Date_parse : string -> float;        (* Date.parse: a time value or NaN *)
  Date_toISOString : float -> string;  (* toISOString of a valid time value *)
  StringToNumber : string -> float;    (* Number(s) for a string s *)
  NumberToString : float -> string;    (* String(n) for a number n *)
  toUpperCase : string -> string;      (* String.prototype.toUpperCase *)
  cryptoRandomId : string              (* 16 random bytes in hexadecimal *)
}.

(** Exceptions the code can raise, and the result of a computation that can. *)
Inductive exn : Type := TypeError | RangeError.

Inductive result (A : Type) : Type :=
| Ok (a : A)
| Throw (e : exn).
Arguments Ok {A} a.
Arguments Throw {A} e.

Definition bind {A B : Type} (r : result A) (k : A -> result B) : result B :=
  match r with
  | Ok a => k a
  | Throw e => Throw e
  end.

Notation "x <- r ;; k" := (bind r (fun x => k))
  (at level 61, r at next level, right associativity).

Fixpoint mapM {A B : Type} (f : A -> result B) (l : list A) : result (list B) :=
  match l with
  | [] => Ok []
  | a :: l' => b <- f a ;; bs <- mapM f l' ;; Ok (b :: bs)
  end.

Fixpoint assoc (k : string) (fields : list (string * value)) : option value :=
  match fields with
  | [] => None
  | (k', v) :: rest => if String.eqb k k' then Some v else assoc k rest
  end.

(** [o?.k]: the own property [k] of an object, [undefined] otherwise.  None of
    the names this program reads is a property of an array, a string, a number
    or a boolean, so those give [undefined] as well; so do [null] and
    [undefined] under the optional chain. *)
Definition get (o : value) (k : string) : value :=
  match o with
  | VObj fields =>
      match assoc k fields with
      | Some v => v
      | None => VUndefined
      end
  | _ => VUndefined
  end.

(** [o.k] without the optional chain: a TypeError on [null] and [undefined]. *)
Definition get_strict (o : value) (k : string) : result value :=
  match o with
  | VUndefined | VNull => Throw TypeError
  | _ => Ok (get o k)
  end.

(** ToBoolean. *)
Definition truthy (v : value) : bool :=
  match v with
  | VUndefined | VNull => false
  | VBool b => b
  | VNum n => JS.truthy_num n
  | VStr s => negb (String.eqb s "")
  | VArr _ | VObj _ => true
  end.

(** [a || b]. *)
Definition or_else (a b : value) : value := if truthy a then a else b.
Infix "|||" := or_else (at level 50, left associativity).

(** [v != null]: false exactly for [null] and [undefined]. *)
Definition not_nullish (v : value) : bool :=
  match v with
  | VUndefined | VNull => false
  | _ => true
  end.

Definition Array_isArray (v : value) : bool :=
  match v with
  | VArr _ => true
  | _ => false
  end.

(** The string of an object, as [String(v)], [Number(v)], [Date.parse(v)]
    and [new Date(v)] obtain it.  The conversion calls the object's
    [toString] and [valueOf]; an object made by [JSON.parse] inherits both,
    and then prints as [[object Object]], unless it has an own property
    [toString]: that one is no function, the inherited [valueOf] returns the
    object itself, and the conversion throws a TypeError.  (An own [valueOf]
    alone is passed over.) *)
Definition object_string (fields : list (string * value)) : result string :=
  match assoc "toString" fields with
  | Some _ => Throw TypeError
  | None => Ok "[object Object]"
  end.

(** [String(v)]: an array joins the strings of its elements with commas,
    [null] and [undefined] elements printing as nothing, and throws when one
    of them does. *)
Fixpoint ToString (h : Host) (v : value) : result string :=
  match v with
  | VUndefined => Ok "undefined"
  | VNull => Ok "null"
  | VBool true => Ok "true"
  | VBool false => Ok "false"
  | VNum n => Ok (NumberToString h n)
  | VStr s => Ok s
  | VArr xs =>
      parts <- mapM (fun x => match x with
                              | VUndefined | VNull => Ok ""
                              | _ => ToString h x
                              end) xs ;;
      Ok (String.concat "," parts)
  | VObj fields => object_string fields
  end.

(** [Number(v)]: an array or an object goes through its string; the string
    of an object is never a numeric literal. *)
Definition ToNumber (h : Host) (v : value) : result float :=
  match v with
  | VUndefined => Ok nan
  | VNull => Ok 0
  | VBool true => Ok 1
  | VBool false => Ok 0
  | VNum n => Ok n
  | VStr s => Ok (StringToNumber h s)
  | VArr _ => s <- ToString h v ;; Ok (StringToNumber h s)
  | VObj fields => _ <- object_string fields ;; Ok nan
  end.

(** [s.includes(".")]. *)
Fixpoint includes_dot (s : string) : bool :=
  match s with
  | EmptyString => false
  | String c rest => Ascii.eqb c "."%char || includes_dot rest
  end.

(** [(v || "USD").toUpperCase()]: the method exists on strings only. *)
Definition upper_or_USD (h : Host) (v : value) : result string :=
  match v ||| VStr "USD" with
  | VStr s => Ok (toUpperCase h s)
  | _ => Throw TypeError
  end.

(** [new Date().toISOString()]. *)
Definition now_iso (h : Host) : string := Date_toISOString h (Date_now h).

(** The time value of [new Date(v)] for one argument: a string is parsed, an
    array or object is parsed through its string, anything else is taken as a
    number of milliseconds. *)
Definition new_Date (h : Host) (v : value) : result float :=
  match v with
  | VStr s => Ok (Date_parse h s)
  | VArr _ | VObj _ => s <- ToString h v ;; Ok (Date_parse h s)
  | _ => n <- ToNumber h v ;; Ok (JS.TimeClip n)
  end.

(** [d.toISOString()]: a RangeError on an invalid date. *)
Definition toISOString (h : Host) (tv : float) : result string :=
  if JS.isNaN tv then Throw RangeError else Ok (Date_toISOString h tv).

(* ------------------------------------------------------------------ *)
(** * Data model *)

(** [NormalizedItem].  [name] is whatever the payload carried (or
    [undefined]); [currency] and [is_bump] are optional. *)
Record NormalizedItem : Type := {
  name : value;
  quantity : float;
  unit_amount_cents : float;
  currency : option string;
  is_bump : option bool
}.

(** [NormalizedEvent].  The loosely typed fields keep the payload's value. *)
Record NormalizedEvent : Type := {
  provider : value;
  provider_event_id : value;
  provider_customer_id : value;
  type : value;
  ev_currency : string;
  subtotal_cents : option float;
  discount_cents : option float;
  tax_cents : option float;
  total_cents : float;
  items_count : nat;
  session_id : value;
  visitor_id : value;
  event_time : value;
  data : value;
  items : list NormalizedItem
}.

(** A row of [node_products]. *)
Record Mapping : Type := {
  product_id : string;
  is_primary : bool;
  price_points_cents : option (list float)
}.

(** [NormalizedItem & { product_id?: string }]. *)
Record MappedItem : Type := {
  item : NormalizedItem;
  item_product_id : option string
}.

(** Limits. *)
Definition MAX_ITEMS : nat := 100.
Definition MAX_CENTS : float := 100000000.
Definition MAX_EVENT_AGE_DAYS : float := 7.

(* ------------------------------------------------------------------ *)
(** * Normalization *)

Section Normalization.

Variable h : Host.

Definition normalizeStripeLoose (evt : value) : result NormalizedEvent :=
  createdISO <-
    (if truthy (get evt "created")
     then created <- ToNumber h (get evt "created") ;;
          toISOString h (JS.TimeClip (created * 1000))
     else Ok (now_iso h)) ;;
  let id := get evt "id" ||| VStr (cryptoRandomId h) in
  let o := get (get evt "data") "object" ||| VObj [] in
  let amount :=
    match get evt "type" with
    | VStr "checkout.session.completed" => get o "amount_total" ||| VNum 0
    | VStr "payment_intent.succeeded" => get o "amount" ||| VNum 0
    | VStr "invoice.payment_succeeded" => get o "total" ||| VNum 0
    | _ => get o "amount_total" ||| get o "amount" ||| VNum 0
    end in
  totalCents <- ToNumber h amount ;;
  currency <- upper_or_USD h (get o "currency") ;;
  let customer := get o "customer" ||| VUndefined in
  Ok {| provider := VStr "stripe";
        provider_event_id := id;
        provider_customer_id := customer;
        type := VStr "purchase";
        ev_currency := currency;
        subtotal_cents := None;
        discount_cents := None;
        tax_cents := None;
        total_cents := totalCents;
        items_count := 0;
        session_id := VUndefined;
        visitor_id := VUndefined;
        event_time := VStr createdISO;
        data := VUndefined;
        items := [] |}.

(** [Array.isArray(p?.items) ? p.items.length : 0]. *)
Definition items_length (p : value) : nat :=
  match get p "items" with
  | VArr xs => List.length xs
  | _ => 0%nat
  end.

Definition normalizePaddleLoose (p : value) : result NormalizedEvent :=
  currency <- upper_or_USD h (get p "currency") ;;
  rawTotal <-
    ToNumber h (get p "sale_gross" ||| get p "total" ||| get p "amount" ||| VNum 0) ;;
  let total_cents := JS.Math_round (rawTotal * (if rawTotal <? 1000 then 100 else 1)) in
  id <- ToString h (get p "event_id" ||| get p "alert_id" ||| VStr (cryptoRandomId h)) ;;
  Ok {| provider := VStr "paddle";
        provider_event_id := VStr id;
        provider_customer_id := VUndefined;
        type := VStr "purchase";
        ev_currency := currency;
        subtotal_cents := None;
        discount_cents := None;
        tax_cents := None;
        total_cents := total_cents;
        items_count := items_length p;
        session_id := VUndefined;
        visitor_id := VUndefined;
        event_time := get p "event_time" ||| VStr (now_iso h);
        data := VUndefined;
        items := [] |}.

Definition normalizeLemonLoose (p : value) : result NormalizedEvent :=
  let attributes := get (get p "data") "attributes" in
  currency <- upper_or_USD h (get attributes "currency") ;;
  total <- ToNumber h (get attributes "total" ||| VNum 0) ;;
  Ok {| provider := VStr "lemonsqueezy";
        provider_event_id := get (get p "meta") "event_id" ||| VStr (cryptoRandomId h);
        provider_customer_id := VUndefined;
        type := VStr "purchase";
        ev_currency := currency;
        subtotal_cents := None;
        discount_cents := None;
        tax_cents := None;
        total_cents := total;
        items_count := 0;
        session_id := VUndefined;
        visitor_id := VUndefined;
        event_time := get attributes "created_at" ||| VStr (now_iso h);
        data := VUndefined;
        items := [] |}.

(** One element of [line_items] under the [map] callback. *)
Definition shopify_item (currency : string) (li : value) : result NormalizedItem :=
  title <- get_strict li "title" ;;
  qty <- ToNumber h (get li "quantity" ||| VNum 1) ;;
  price <- ToNumber h (get li "price") ;;
  Ok {| name := title;
        quantity := qty;
        unit_amount_cents := JS.num_or (JS.Math_round (price * 100)) 0;
        currency := Some currency;
        is_bump := None |}.

Definition normalizeShopifyLoose (p : value) : result NormalizedEvent :=
  currency <- upper_or_USD h (get p "currency") ;;
  total <- ToNumber h (get p "total_price" ||| get p "subtotal_price" ||| VNum 0) ;;
  let total_cents := JS.Math_round (total * 100) in
  items <-
    match get p "line_items" with
    | VArr lis => mapM (shopify_item currency) lis
    | _ => Ok []
    end ;;
  id <- ToString h (get p "id" ||| VStr (cryptoRandomId h)) ;;
  Ok {| provider := VStr "shopify";
        provider_event_id := VStr id;
        provider_customer_id := VUndefined;
        type := VStr "purchase";
        ev_currency := currency;
        subtotal_cents := None;
        discount_cents := None;
        tax_cents := None;
        total_cents := total_cents;
        items_count := List.length items;
        session_id := VUndefined;
        visitor_id := VUndefined;
        event_time := get p "created_at" ||| VStr (now_iso h);
        data := VUndefined;
        items := items |}.

(** One element of [items] under the [map] callback of [normalizeCustom]. *)
Definition custom_item (payload i : value) : result NormalizedItem :=
  nm <- get_strict i "name" ;;
  qty <- ToNumber h (get i "quantity" ||| VNum 1) ;;
  amount <- ToNumber h (get i "unit_amount_cents" ||| VNum 0) ;;
  cur <- upper_or_USD h (get i "currency" ||| get payload "currency") ;;
  Ok {| name := nm;
        quantity := qty;
        unit_amount_cents := amount;
        currency := Some cur;
        is_bump := Some (truthy (get i "is_bump")) |}.

Definition normalizeCustom (payload : value) : result NormalizedEvent :=
  currency <- upper_or_USD h (get payload "currency") ;;
  subtotal <- ToNumber h (get payload "subtotal_cents" ||| VNum 0) ;;
  discount <- ToNumber h (get payload "discount_cents" ||| VNum 0) ;;
  tax <- ToNumber h (get payload "tax_cents" ||| VNum 0) ;;
  total <- ToNumber h (get payload "total_cents" ||| VNum 0) ;;
  items <-
    match get payload "items" ||| VArr [] with
    | VArr xs => mapM (custom_item payload) xs
    | _ => Throw TypeError
    end ;;
  Ok {| provider := get payload "provider" ||| VStr "custom";
        provider_event_id :=
          get payload "provider_event_id" ||| get payload "id" ||| VStr (cryptoRandomId h);
        provider_customer_id := VUndefined;
        type := get payload "type" ||| VStr "purchase";
        ev_currency := currency;
        subtotal_cents := Some subtotal;
        discount_cents := Some discount;
        tax_cents := Some tax;
        total_cents := total;
        items_count := items_length payload;
        session_id := get payload "session_id";
        visitor_id := get payload "visitor_id";
        event_time := get payload "event_time" ||| VStr (now_iso h);
        data := get payload "data" ||| VObj [];
        items := items |}.

(** [p?.object === "event" || (typeof p?.type === "string" && p.type.includes("."))]. *)
Definition stripe_signal (p : value) : bool :=
  match get p "object" with
  | VStr "event" => true
  | _ => false
  end
  || match get p "type" with
     | VStr s => includes_dot s
     | _ => false
     end.

Definition paddle_signal (p : value) : bool :=
  truthy (get p "alert_id" ||| get p "event_time" ||| get p "order_id").

Definition lemon_signal (p : value) : bool :=
  truthy (get (get p "meta") "event_name"
          ||| get (get (get p "data") "attributes") "total").

Definition shopify_signal (p : value) : bool :=
  truthy (get p "line_items")
  && truthy (get p "total_price" ||| get p "subtotal_price").

Definition custom_signal (p : value) : bool :=
  truthy (get p "total_cents" ||| get p "items").

(** [null] is the [None] result. *)
Definition detectAndNormalize (p : value) : result (option NormalizedEvent) :=
  if stripe_signal p then e <- normalizeStripeLoose p ;; Ok (Some e)
  else if paddle_signal p then e <- normalizePaddleLoose p ;; Ok (Some e)
  else if lemon_signal p then e <- normalizeLemonLoose p ;; Ok (Some e)
  else if shopify_signal p then e <- normalizeShopifyLoose p ;; Ok (Some e)
  else if custom_signal p then e <- normalizeCustom p ;; Ok (Some e)
  else Ok None.

End Normalization.

(* ------------------------------------------------------------------ *)
(** * Product mapping *)

Definition tolerance : float := 0.05.

(** [Math.abs(p - u) <= Math.max(1, p * tolerance)]. *)
Definition within_tolerance (u p : float) : bool :=
  JS.Math_abs (p - u) <=? JS.Math_max 1 (p * tolerance).

(** The callback of [mappings.find] for the item priced [u]. *)
Definition price_match (u : float) (m : Mapping) : bool :=
  match price_points_cents m with
  | None => false
  | Some pts =>
      if negb (JS.truthy_num u) then false
      else existsb (within_tolerance u) pts
  end.

(** [a || b || "USD"] on strings. *)
Definition first_nonempty (a b : string) : string :=
  if negb (String.eqb a "") then a
  else if negb (String.eqb b "") then b
  else "USD".

Definition mapItem (mappings : list Mapping) (defaultCurrency : string)
    (it : NormalizedItem) : MappedItem :=
  let primary := find is_primary mappings in
  let product :=
    match find (price_match (unit_amount_cents it)) mappings with
    | Some m => Some (product_id m)
    | None =>
        match primary with
        | Some m => Some (product_id m)
        | None => None
        end
    end in
  {| item :=
       {| name := name it;
          quantity := quantity it;
          unit_amount_cents := unit_amount_cents it;
          currency :=
            Some (first_nonempty
                    (match currency it with Some c => c | None => "" end)
                    defaultCurrency);
          is_bump := is_bump it |};
     item_product_id := product |}.

Definition mapItemsToProducts (items : list NormalizedItem)
    (mappings : list Mapping) (defaultCurrency : string) : list MappedItem :=
  match items with
  | [] => []
  | _ => map (mapItem mappings defaultCurrency) items
  end.

(** [norm.currency || "USD"]. *)
Definition currency_or_USD (c : string) : string :=
  if negb (String.eqb c "") then c else "USD".

(** Lines 235-251 of [fetch]: the mapped items, or the one item that
    attributes the event's total to the primary product. *)
Definition attributed_items (norm : NormalizedEvent) (mappings : list Mapping)
    : list MappedItem :=
  let mappedItems :=
    mapItemsToProducts (items norm) mappings (currency_or_USD (ev_currency norm)) in
  match mappedItems, mappings with
  | [], _ :: _ =>
      match find is_primary mappings with
      | Some primary =>
          [ {| item :=
                 {| name := VStr "Order";
                    quantity := 1;
                    unit_amount_cents := total_cents norm;
                    currency := Some (currency_or_USD (ev_currency norm));
                    is_bump := Some false |};
               item_product_id := Some (product_id primary) |} ]
      | None => mappedItems
      end
  | _, _ => mappedItems
  end.

(* ------------------------------------------------------------------ *)
(** * The request handler, from the parsed payload on *)

(** The arguments of the [upsert_conversion] call. *)
Record Conversion : Type := {
  p_type : value;
  p_provider : value;
  p_provider_event_id : value;
  p_total_cents : float;
  p_event_time : string;
  p_provider_customer_id : value;
  p_session_id : value;
  p_visitor_id : value;
  p_currency : value;
  p_subtotal_cents : float;
  p_discount_cents : float;
  p_tax_cents : float;
  p_items_count : nat;
  p_data : value
}.

(** A row of the [conversion_items] insert. *)
Record ItemRow : Type := {
  row_product_id : option string;
  row_name : value;
  row_quantity : float;
  row_unit_amount_cents : float;
  row_currency : string;
  row_is_bump : bool
}.

(** How [fetch] ends once the body is parsed: [json({ error }, status)], an
    exception caught by the outer [try] (a 500 carrying its message), or the
    upsert and item rows handed to the store, answered by 200 when the store
    accepts them. *)
Inductive Response : Type :=
| json (error : string) (status : nat)
| uncaught (e : exn)
| stored (conv : Conversion) (rows : list ItemRow).

Definition centsKeys : list string :=
  ["subtotal_cents"; "discount_cents"; "tax_cents"; "total_cents"].

Section Fetch.

Variable h : Host.

(** [!Number.isInteger(v) || Math.abs(v) > MAX_CENTS]. *)
Definition bad_cents (v : float) : bool :=
  negb (JS.Number_isInteger v) || JS.gtb (JS.Math_abs v) MAX_CENTS.

(** The loop over [centsKeys]: the first key whose value fails, a key
    without a value being passed over.  [Number] can throw. *)
Fixpoint check_cents (payload : value) (keys : list string)
    : result (option Response) :=
  match keys with
  | [] => Ok None
  | k :: rest =>
      if not_nullish (get payload k)
      then
        v <- ToNumber h (get payload k) ;;
        if bad_cents v then Ok (Some (json ("Invalid value for " ++ k) 400))
        else check_cents payload rest
      else check_cents payload rest
  end.

(** Lines 141-157: basic validation and caps on the raw payload. *)
Definition basic_validation (payload : value) : result (option Response) :=
  match payload with
  | VObj _ | VArr _ =>
      if truthy (get payload "items") && negb (Array_isArray (get payload "items"))
      then Ok (Some (json "items must be an array" 400))
      else if truthy (get payload "items")
              && (MAX_ITEMS <? items_length payload)%nat
      then Ok (Some (json "Too many items" 400))
      else check_cents payload centsKeys
  | _ => Ok (Some (json "Invalid JSON object" 400))
  end.

(** [Date.parse(norm.event_time || "")]: the argument is turned into a
    string first. *)
Definition evtMs (norm : NormalizedEvent) : result float :=
  s <- ToString h (event_time norm ||| VStr "") ;; Ok (Date_parse h s).

(** [(Date.now() - evtMs) / (1000 * 60 * 60 * 24)]. *)
Definition ageDays (t : float) : float := (Date_now h - t) / 86400000.

(** Lines 163-170: the event is too old. *)
Definition too_old (norm : NormalizedEvent) : result bool :=
  t <- evtMs norm ;;
  Ok (negb (JS.isNaN t) && JS.gtb (ageDays t) MAX_EVENT_AGE_DAYS).

(** The two tests on one item, in the order of the loop body. *)
Definition check_item (it : NormalizedItem) : option Response :=
  if negb (JS.Number_isInteger (JS.num_or (unit_amount_cents it) 0))
     || JS.gtb (JS.Math_abs (unit_amount_cents it)) MAX_CENTS
  then Some (json "Invalid unit_amount_cents" 400)
  else if negb (JS.Number_isInteger (JS.num_or (quantity it) 0))
          || (quantity it <? 1) || JS.gtb (quantity it) 1000
  then Some (json "Invalid quantity" 400)
  else None.

Fixpoint check_items (its : list NormalizedItem) : option Response :=
  match its with
  | [] => None
  | it :: rest =>
      match check_item it with
      | Some r => Some r
      | None => check_items rest
      end
  end.

(** Lines 172-183: deep validation of the items. *)
Definition validate_items (norm : NormalizedEvent) : option Response :=
  match items norm with
  | [] => None
  | its =>
      if (MAX_ITEMS <? List.length its)%nat then Some (json "Too many items" 400)
      else check_items its
  end.

(** Lines 184-186. *)
Definition validate_total (norm : NormalizedEvent) : option Response :=
  if bad_cents (total_cents norm) then Some (json "Invalid total_cents" 400)
  else None.

Definition option_float_or_0 (o : option float) : float :=
  match o with
  | Some v => v
  | None => 0
  end.

Definition conversion_of (norm : NormalizedEvent) (eventTimeISO : string) : Conversion :=
  {| p_type := type norm ||| VStr "purchase";
     p_provider := provider norm;
     p_provider_event_id := provider_event_id norm ||| VStr (cryptoRandomId h);
     p_total_cents := total_cents norm;
     p_event_time := eventTimeISO;
     p_provider_customer_id := provider_customer_id norm ||| VNull;
     p_session_id := session_id norm ||| VNull;
     p_visitor_id := visitor_id norm ||| VNull;
     p_currency := VStr (ev_currency norm) ||| VNull;
     p_subtotal_cents := option_float_or_0 (subtotal_cents norm);
     p_discount_cents := option_float_or_0 (discount_cents norm);
     p_tax_cents := option_float_or_0 (tax_cents norm);
     p_items_count := items_count norm;
     p_data := data norm ||| VObj [] |}.

Definition row_of (norm : NormalizedEvent) (mi : MappedItem) : ItemRow :=
  {| row_product_id :=
       match item_product_id mi with
       | Some pid => if String.eqb pid "" then None else Some pid
       | None => None
       end;
     row_name := name (item mi) ||| VNull;
     row_quantity := quantity (item mi);
     row_unit_amount_cents := unit_amount_cents (item mi);
     row_currency :=
       first_nonempty
         (match currency (item mi) with Some c => c | None => "" end)
         (ev_currency norm);
     row_is_bump :=
       match is_bump (item mi) with
       | Some b => b
       | None => false
       end |}.

(** [fetch] from line 141 on, for the product mappings the store returns. *)
Definition fetch (mappings : list Mapping) (payload : value) : Response :=
  match basic_validation payload with
  | Throw e => uncaught e
  | Ok (Some r) => r
  | Ok None =>
  match detectAndNormalize h payload with
  | Throw e => uncaught e
  | Ok None => json "Unsupported payload" 400
  | Ok (Some norm) =>
  match too_old norm with
  | Throw e => uncaught e
  | Ok true => json "Event too old" 422
  | Ok false =>
  match validate_items norm with
  | Some r => r
  | None =>
  match validate_total norm with
  | Some r => r
  | None =>
  match (tv <- new_Date h (event_time norm ||| VStr (now_iso h)) ;; toISOString h tv) with
  | Throw e => uncaught e
  | Ok eventTimeISO =>
      stored (conversion_of norm eventTimeISO)
             (map (row_of norm) (attributed_items norm mappings))
  end end end end end end.

End Fetch.

(* ------------------------------------------------------------------ *)
(** * A host for the worked examples *)

Module Example.

Fixpoint digits_value (acc : Z) (s : string) : option Z :=
  match s with
  | EmptyString => Some acc
  | String c rest =>
      let n := Z.of_nat (nat_of_ascii c) in
      if ((48 <=? n) && (n <=? 57))%Z
      then digits_value (10 * acc + (n - 48)) rest
      else None
  end.

(** [Number(s)] on the empty string and on short strings of decimal digits;
    NaN for the words the examples use. *)
Definition string_to_number (s : string) : float :=
  match digits_value 0 s with
  | Some n => if (n <? 2 ^ 53)%Z then JS.of_Z n else nan
  | None => nan
  end.

Definition upper_ascii (c : ascii) : ascii :=
  let n := nat_of_ascii c in
  if ((97 <=? n) && (n <=? 122))%nat then ascii_of_nat (n - 32) else c.

Fixpoint upper (s : string) : string :=
  match s with
  | EmptyString => EmptyString
  | String c rest => String (upper_ascii c) (upper rest)
  end.

(** The integer a number is, when it is one. *)
Definition integer_value (x : float) : option Z :=
  match Prim2SF x with
  | S754_zero _ => Some 0%Z
  | S754_finite s m e =>
      if (0 <=? e)%Z then Some (cond_Zopp s (Z.shiftl (Zpos m) e))
      else if (Z.land (Zpos m) (Z.ones (- e)) =? 0)%Z
      then Some (cond_Zopp s (Z.shiftr (Zpos m) (- e)))
      else None
  | S754_infinity _ | S754_nan => None
  end.

(** [String(n)] on the integers of magnitude below 10^21, and on NaN. *)
Definition number_to_string (x : float) : string :=
  match integer_value x with
  | Some z =>
      if (Z.abs z <? 10 ^ 21)%Z then NilZero.string_of_int (Z.to_int z) else "NaN"
  | None => "NaN"
  end.

(** Three instants, with their ISO 8601 prints. *)
Definition t_now : float := 1700000000000.
Definition t_6_days_ago : float := 1699481600000.
Definition t_8_days_ago : float := 1699308800000.
Definition iso_now : string := "2023-11-14T22:13:20.000Z".
Definition iso_6_days_ago : string := "2023-11-08T22:13:20.000Z".
Definition iso_8_days_ago : string := "2023-11-06T22:13:20.000Z".

(** A host whose clock reads [t_now].  It parses and prints the three
    instants above as any engine does, and is used on no other date; its
    number and case conversions are the real ones on the strings and numbers
    described above. *)
Definition host : Host :=
  {| Date_now := t_now;
     Date_parse := fun s =>
       if String.eqb s iso_now then t_now
       else if String.eqb s iso_6_days_ago then t_6_days_ago
       else if String.eqb s iso_8_days_ago then t_8_days_ago
       else nan;
     Date_toISOString := fun t =>
       if PrimFloat.eqb t t_6_days_ago then iso_6_days_ago
       else if PrimFloat.eqb t t_8_days_ago then iso_8_days_ago
       else iso_now;
     StringToNumber := string_to_number;
     NumberToString := number_to_string;
     toUpperCase := upper;
     cryptoRandomId := "000102030405060708090a0b0c0d0e0f" |}.

End Example.

(* ------------------------------------------------------------------ *)
(** * Vocabulary of the properties *)

(** ** The attribution matcher *)

(** The mapping [m] has a price point within tolerance of the amount [u]. *)
Definition has_price_within (u : float) (m : Mapping) : Prop :=
  exists pts p,
    price_points_cents m = Some pts /\ In p pts /\ within_tolerance u p = true.

Module Samples.

Definition priced (u : float) : NormalizedItem :=
  {| name := VStr "Pro"; quantity := 1; unit_amount_cents := u;
     currency := Some "USD"; is_bump := Some false |}.

Definition product_A (pts : list float) : Mapping :=
  {| product_id := "A"; is_primary := false; price_points_cents := Some pts |}.

Definition primary_B : Mapping :=
  {| product_id := "B"; is_primary := true; price_points_cents := None |}.

(** [{"total_cents": 500,
      "items": [{"name": "Gift", "quantity": 1, "unit_amount_cents": 0}]}] *)
Definition free_item_payload : value :=
  VObj [("total_cents", VNum 500);
        ("items", VArr [VObj [("name", VStr "Gift"); ("quantity", VNum 1);
                              ("unit_amount_cents", VNum 0)]])].

End Samples.

(** ** The provider detector *)

Inductive Shape : Type :=
| StripeLike | PaddleLike | LemonLike | ShopifyLike | CustomShape | Unsupported.

(** The branch [detectAndNormalize] takes. *)
Definition detect (p : value) : Shape :=
  if stripe_signal p then StripeLike
  else if paddle_signal p then PaddleLike
  else if lemon_signal p then LemonLike
  else if shopify_signal p then ShopifyLike
  else if custom_signal p then CustomShape
  else Unsupported.

Definition normalizer (h : Host) (s : Shape) (p : value)
    : result (option NormalizedEvent) :=
  match s with
  | StripeLike => e <- normalizeStripeLoose h p ;; Ok (Some e)
  | PaddleLike => e <- normalizePaddleLoose h p ;; Ok (Some e)
  | LemonLike => e <- normalizeLemonLoose h p ;; Ok (Some e)
  | ShopifyLike => e <- normalizeShopifyLoose h p ;; Ok (Some e)
  | CustomShape => e <- normalizeCustom h p ;; Ok (Some e)
  | Unsupported => Ok None
  end.

(** The signals, field by field. *)
Definition is_string_event (v : value) : Prop := v = VStr "event".
Definition is_dotted_string (v : value) : Prop :=
  exists s, v = VStr s /\ includes_dot s = true.

Definition StripeSignal (p : value) : Prop :=
  is_string_event (get p "object") \/ is_dotted_string (get p "type").

Definition PaddleSignal (p : value) : Prop :=
  truthy (get p "alert_id") = true \/ truthy (get p "event_time") = true
  \/ truthy (get p "order_id") = true.

Definition LemonSignal (p : value) : Prop :=
  truthy (get (get p "meta") "event_name") = true
  \/ truthy (get (get (get p "data") "attributes") "total") = true.

Definition ShopifySignal (p : value) : Prop :=
  truthy (get p "line_items") = true
  /\ (truthy (get p "total_price") = true \/ truthy (get p "subtotal_price") = true).

Definition CustomSignal (p : value) : Prop :=
  truthy (get p "total_cents") = true \/ truthy (get p "items") = true.

(** The detector as the specification words it: a signal field counts as soon
    as it is present, and [line_items] has to be an array. *)
Definition present (v : value) : bool :=
  match v with
  | VUndefined => false
  | _ => true
  end.

Definition detect_as_specified (p : value) : Shape :=
  if stripe_signal p then StripeLike
  else if present (get p "alert_id") || present (get p "event_time")
          || present (get p "order_id") then PaddleLike
  else if present (get (get p "meta") "event_name")
          || present (get (get (get p "data") "attributes") "total") then LemonLike
  else if Array_isArray (get p "line_items")
          && (present (get p "total_price") || present (get p "subtotal_price"))
       then ShopifyLike
  else if present (get p "total_cents") || present (get p "items") then CustomShape
  else Unsupported.

Module DetectorSamples.

(** [{"line_items": "none", "total_price": 5}] *)
Definition line_items_not_array : value :=
  VObj [("line_items", VStr "none"); ("total_price", VNum 5)].

(** [{"alert_id": 0, "total_cents": 5}] *)
Definition alert_id_zero : value :=
  VObj [("alert_id", VNum 0); ("total_cents", VNum 5)].

(** [{"object": "event", "alert_id": 1, "line_items": [], "total_price": 1}] *)
Definition all_three_signals : value :=
  VObj [("object", VStr "event"); ("alert_id", VNum 1);
        ("line_items", VArr []); ("total_price", VNum 1)].

(** [{"alert_id": 1, "line_items": [], "total_price": 1}] *)
Definition paddle_and_shopify : value :=
  VObj [("alert_id", VNum 1); ("line_items", VArr []); ("total_price", VNum 1)].

(** [{"tax_cents": {"toString": 1}}] *)
Definition toString_in_cents : value :=
  VObj [("tax_cents", VObj [("toString", VNum 1)])].

End DetectorSamples.

(** ** The normalizers *)

Module NormalizerSamples.

(** [{"object": "event", "data": {"object": {"amount_total": 1000, "currency": 840}}}] *)
Definition numeric_currency : value :=
  VObj [("object", VStr "event");
        ("data", VObj [("object", VObj [("amount_total", VNum 1000);
                                        ("currency", VNum 840)])])].

(** [{"object": "event", "created": 1e18}] *)
Definition created_out_of_range : value :=
  VObj [("object", VStr "event"); ("created", VNum 1e18)].

(** [{"line_items": [null], "total_price": 1}] *)
Definition null_line_item : value :=
  VObj [("line_items", VArr [VNull]); ("total_price", VNum 1)].

(** [{"line_items": [], "total_price": 0, "subtotal_price": 5}] *)
Definition zero_total_price : value :=
  VObj [("line_items", VArr []); ("total_price", VNum 0); ("subtotal_price", VNum 5)].

(** [{"line_items": [{"title": "T", "quantity": {"n": 2}, "price": 1}], "total_price": 1}] *)
Definition object_quantity : value :=
  VObj [("line_items",
         VArr [VObj [("title", VStr "T"); ("quantity", VObj [("n", VNum 2)]);
                     ("price", VNum 1)]]);
        ("total_price", VNum 1)].

(** [{"line_items": [{"title": "T", "price": 19.99}], "total_price": 19.99}] *)
Definition one_line_item : value :=
  VObj [("line_items", VArr [VObj [("title", VStr "T"); ("price", VNum 19.99)]]);
        ("total_price", VNum 19.99)].

(** [{"object": "event", "id": "evt_1", "type": "checkout.session.completed",
      "data": {"object": {"amount_total": 4900, "currency": "usd"}}}] *)
Definition checkout_completed : value :=
  VObj [("object", VStr "event"); ("id", VStr "evt_1");
        ("type", VStr "checkout.session.completed");
        ("data", VObj [("object", VObj [("amount_total", VNum 4900);
                                        ("currency", VStr "usd")])])].

(** [{"alert_id": 1, "sale_gross": 0, "total": 50}] *)
Definition zero_sale_gross : value :=
  VObj [("alert_id", VNum 1); ("sale_gross", VNum 0); ("total", VNum 50)].

(** [{"alert_id": 1, "sale_gross": 12.5}] *)
Definition sale_gross_12_50 : value :=
  VObj [("alert_id", VNum 1); ("sale_gross", VNum 12.5)].

End NormalizerSamples.

(** ** Validation in [fetch] *)

Module FetchSamples.

(** [{"line_items": [{"title": "T", "quantity": 1001, "price": 1}],
      "total_price": 1, "created_at": "2023-11-06T22:13:20.000Z"}] *)
Definition stale_with_bad_quantity : value :=
  VObj [("line_items",
         VArr [VObj [("title", VStr "T"); ("quantity", VNum 1001); ("price", VNum 1)]]);
        ("total_price", VNum 1);
        ("created_at", VStr Example.iso_8_days_ago)].

(** [{"alert_id": 7, "event_time": t, "sale_gross": 12.5}] *)
Definition paddle_at (t : string) : value :=
  VObj [("alert_id", VNum 7); ("event_time", VStr t); ("sale_gross", VNum 12.5)].

(** [{"total_cents": 100,
      "items": [{"name": "x", "quantity": {}, "unit_amount_cents": 100}]}] *)
Definition object_quantity : value :=
  VObj [("total_cents", VNum 100);
        ("items", VArr [VObj [("name", VStr "x"); ("quantity", VObj []);
                              ("unit_amount_cents", VNum 100)]])].

(** [{"total_cents": 100,
      "items": [{"name": "x", "quantity": "two", "unit_amount_cents": "free"}]}] *)
Definition worded_amounts : value :=
  VObj [("total_cents", VNum 100);
        ("items", VArr [VObj [("name", VStr "x"); ("quantity", VStr "two");
                              ("unit_amount_cents", VStr "free")]])].

End FetchSamples.

(** What [fetch] does once the raw payload passed the basic validation and
    was normalized to [norm]. *)
Definition after_normalize (h : Host) (mappings : list Mapping)
    (norm : NormalizedEvent) : Response :=
  match too_old h norm with
  | Throw e => uncaught e
  | Ok true => json "Event too old" 422
  | Ok false =>
  match validate_items norm with
  | Some r => r
  | None =>
  match validate_total norm with
  | Some r => r
  | None =>
  match (tv <- new_Date h (event_time norm ||| VStr (now_iso h)) ;; toISOString h tv) with
  | Throw e => uncaught e
  | Ok eventTimeISO =>
      stored (conversion_of h norm eventTimeISO)
             (map (row_of norm) (attributed_items norm mappings))
  end end end end.

(** The checks of [fetch], each as the rejection it yields, if any; the
    checks that convert a value of the payload can throw. *)
Definition object_check (payload : value) : option Response :=
  match payload with
  | VObj _ | VArr _ => None
  | _ => Some (json "Invalid JSON object" 400)
  end.

Definition items_ceiling (payload : value) : option Response :=
  if truthy (get payload "items") && negb (Array_isArray (get payload "items"))
  then Some (json "items must be an array" 400)
  else if truthy (get payload "items") && (MAX_ITEMS <? items_length payload)%nat
  then Some (json "Too many items" 400)
  else None.

Definition stale_check (h : Host) (norm : NormalizedEvent)
    : result (option Response) :=
  old <- too_old h norm ;;
  Ok (if old then Some (json "Event too old" 422) else None).

(** The outcome of the first check that does not pass: a rejection or an
    exception. *)
Fixpoint first_failure (checks : list (result (option Response)))
    : result (option Response) :=
  match checks with
  | [] => Ok None
  | Ok None :: rest => first_failure rest
  | c :: _ => c
  end.

(** An integer number of cents within the cap. *)
Definition cents_ok (v : float) : Prop :=
  JS.Number_isInteger v = true /\ (JS.Math_abs v <=? MAX_CENTS) = true.

(** An integer quantity between 1 and 1000. *)
Definition quantity_ok (q : float) : Prop :=
  JS.Number_isInteger q = true /\ (1 <=? q) = true /\ (q <=? 1000) = true.

(** The payload of the README's test request:
    [{"provider": "custom", "type": "purchase", "provider_event_id": "order_123",
      "currency": "USD", "total_cents": 9900,
      "items": [{"name": "Pro", "quantity": 1, "unit_amount_cents": 9900}]}] *)
Definition readme_payload : value :=
  VObj [("provider", VStr "custom"); ("type", VStr "purchase");
        ("provider_event_id", VStr "order_123"); ("currency", VStr "USD");
        ("total_cents", VNum 9900);
        ("items", VArr [VObj [("name", VStr "Pro"); ("quantity", VNum 1);
                              ("unit_amount_cents", VNum 9900)]])].
(* ------------------------------------------------------------------ *)
(** * Utilities *)

(** A hexadecimal digit, in lower case. *)
Definition hex_digit (n : N) : ascii :=
  if (n <? 10)%N then ascii_of_N (48 + n) else ascii_of_N (87 + n).

(** [b.toString(16)] for a byte: one or two digits, no leading zero. *)
Definition toString16 (b : Byte.byte) : string :=
  let n := Byte.to_N b in
  if (n <? 16)%N then String (hex_digit n) ""
  else String (hex_digit (n / 16)) (String (hex_digit (n mod 16)) "").

(** [s.padStart(2, "0")]. *)
Definition padStart2 (s : string) : string :=
  match s with
  | "" => "00"
  | String c "" => String "0" (String c "")
  | _ => s
  end.

(** [cryptoRandomId], as a function of the bytes [crypto.getRandomValues]
    wrote into the array:
    [Array.from(arr, b => b.toString(16).padStart(2, "0")).join("")]. *)
Definition cryptoRandomId_of (arr : list Byte.byte) : string :=
  String.concat "" (map (fun b => padStart2 (toString16 b)) arr).

(** [s.split("/")]. *)
Fixpoint split_slash (s : string) : list string :=
  match s with
  | "" => [""]
  | String c rest =>
      if Ascii.eqb c "/" then "" :: split_slash rest
      else
        match split_slash rest with
        | x :: xs => String c x :: xs
        | [] => [String c ""]
        end
  end.

(** [.filter(Boolean)] on strings: the empty ones go. *)
Definition filter_Boolean (l : list string) : list string :=
  filter (fun s => negb (String.eqb s "")) l.

(** Lines 93-97 of [fetch]: the workspace, node and token of the pathname
    [/webhook/{workspace_id}/{node_id}/{token}], or [None] for the 404.  The
    argument is [new URL(req.url).pathname], the path after the URL parser
    has resolved it. *)
Definition route (pathname : string) : option (string * string * string) :=
  match filter_Boolean (split_slash pathname) with
  | [w; workspaceId; nodeId; token] =>
      if String.eqb w "webhook" then Some (workspaceId, nodeId, token) else None
  | _ => None
  end.

(** [toLowerCase] on the letters A-Z.  Strings hold UTF-8 bytes; no character
    outside ASCII lower-cases to text that completes a match of an ASCII
    word, so tests of the form [s.toLowerCase().includes(word)] are exact. *)
Definition lower_ascii (c : ascii) : ascii :=
  let n := nat_of_ascii c in
  if ((65 <=? n) && (n <=? 90))%nat then ascii_of_nat (n + 32) else c.

Fixpoint toLowerCase (s : string) : string :=
  match s with
  | "" => ""
  | String c rest => String (lower_ascii c) (toLowerCase rest)
  end.

(** [s.includes(word)]. *)
Definition includes (word s : string) : bool :=
  match String.index 0 word s with
  | Some _ => true
  | None => false
  end.

(* ------------------------------------------------------------------ *)
(** * Rate limits *)

Definition MAX_BODY_BYTES : N := 64 * 1024.
Definition MAX_EVENTS_PER_MIN : nat := 300.
Definition MAX_EVENTS_PER_MIN_PER_IP : nat := 120.

(** [Math.floor]. *)
Definition Math_floor (x : float) : float :=
  match Prim2SF x with
  | S754_finite s m e =>
      if (0 <=? e)%Z then x
      else
        let q := Z.shiftr (Zpos m) (- e) in
        let r := Z.land (Zpos m) (Z.ones (- e)) in
        if s then PrimFloat.opp (JS.of_Z (if (r =? 0)%Z then q else q + 1)%Z)
        else JS.of_Z q
  | _ => x
  end.

(** A bucket [{ ts, count }].  The count starts at 1 and grows by 1: it is a
    natural number (as a JavaScript number it is exact below 2^53). *)
Record Bucket : Type := {
  ts : float;
  count : nat
}.

(** A [Map<string, Bucket>]: the entries in insertion order, one per key. *)
Definition Buckets : Type := list (string * Bucket).

Fixpoint Map_get (key : string) (m : Buckets) : option Bucket :=
  match m with
  | [] => None
  | (k, v) :: rest => if String.eqb key k then Some v else Map_get key rest
  end.

(** [Map.prototype.set]: the value of an existing key is replaced in place,
    a new key is appended. *)
Fixpoint Map_set (key : string) (v : Bucket) (m : Buckets) : Buckets :=
  match m with
  | [] => [(key, v)]
  | (k, v') :: rest =>
      if String.eqb key k then (k, v) :: rest else (k, v') :: Map_set key v rest
  end.

(** [Math.floor(Date.now() / 60000)]. *)
Definition current_minute (h : Host) : float := Math_floor (Date_now h / 60000).

(** The key [`${id}:${minute}`]. *)
Definition bucket_key (h : Host) (id : string) : string :=
  id ++ ":" ++ NumberToString h (current_minute h).

(** [(prev?.count || 0) + 1]. *)
Definition next_count (prev : option Bucket) : nat :=
  match prev with
  | Some b => count b + 1
  | None => 0 + 1
  end.

(** [allowToken]: the verdict and the [tokenBuckets] it leaves. *)
Definition allowToken (h : Host) (token : string) (tokenBuckets : Buckets)
    : bool * Buckets :=
  let minute := current_minute h in
  let key := bucket_key h token in
  let prev := Map_get key tokenBuckets in
  let count := next_count prev in
  (count <=? MAX_EVENTS_PER_MIN,
   Map_set key {| ts := minute; count := count |} tokenBuckets)%nat.

(** [allowIp]: the verdict and the [ipBuckets] it leaves. *)
Definition allowIp (h : Host) (ip : string) (ipBuckets : Buckets)
    : bool * Buckets :=
  let minute := current_minute h in
  let key := bucket_key h ip in
  let prev := Map_get key ipBuckets in
  let count := next_count prev in
  (count <=? MAX_EVENTS_PER_MIN_PER_IP,
   Map_set key {| ts := minute; count := count |} ipBuckets)%nat.

(** The two module-level maps. *)
Record Limiter : Type := {
  tokenBuckets : Buckets;
  ipBuckets : Buckets
}.

(* ------------------------------------------------------------------ *)
(** * The whole request handler *)

(** What [fetch] reads of a [Request]: the method, the headers (names in
    lower case and one entry a name, as [Headers] keeps them), the pathname
    of the parsed URL and the body text (its UTF-8 bytes). *)
Record Request : Type := {
  method : string;
  req_headers : list (string * string);
  pathname : string;
  body_text : string
}.

(** [req.headers.get(name)]: [None] for [null]. *)
Fixpoint headers_get (name : string) (hs : list (string * string)) : option string :=
  match hs with
  | [] => None
  | (k, v) :: rest => if String.eqb name k then Some v else headers_get name rest
  end.

(** [a || b] where [a] is a string or [null]. *)
Definition string_or (a : option string) (b : string) : string :=
  match a with
  | Some (String c s) => String c s
  | Some "" | None => b
  end.

Definition getClientIp (req : Request) : string :=
  string_or (headers_get "cf-connecting-ip" (req_headers req))
    (string_or (headers_get "x-forwarded-for" (req_headers req)) "0.0.0.0").

Definition corsHeaders : list (string * string) :=
  [("Access-Control-Allow-Origin", "*");
   ("Access-Control-Allow-Methods", "POST,OPTIONS");
   ("Access-Control-Allow-Headers", "Content-Type")].

(** The body of a response: none, the text "ok", [{ error }] with a message
    (one of the handler's, or one the store returned), or [{ error }] with
    the message of a caught exception. *)
Inductive Body : Type :=
| body_null
| body_ok
| body_error (error : string)
| body_exception (e : exn).

Record HttpResponse : Type := {
  status : nat;
  resp_headers : list (string * string);
  body : Body
}.

(** [json({ error }, status)]. *)
Definition json_response (error : string) (status : nat) : HttpResponse :=
  {| status := status;
     resp_headers := ("Content-Type", "application/json") :: corsHeaders;
     body := body_error error |}.

(** The answer of the outer [catch]: [json({ error: err.message }, 500)]. *)
Definition caught (e : exn) : HttpResponse :=
  {| status := 500;
     resp_headers := ("Content-Type", "application/json") :: corsHeaders;
     body := body_exception e |}.

(** [new Response("ok", { status: 200, headers: corsHeaders() })]. *)
Definition ok_response : HttpResponse :=
  {| status := 200; resp_headers := corsHeaders; body := body_ok |}.

(** [new Response(null, { status: 204, headers: corsHeaders() })]. *)
Definition preflight_response : HttpResponse :=
  {| status := 204; resp_headers := corsHeaders; body := body_null |}.

(** Rows of the store, as the queries select them. *)
Record NodeRow : Type := {
  node_funnel_id : string;
  webhook_token : option string
}.

Record FunnelRow : Type := {
  funnel_workspace_id : string
}.

(** The [id] and [event_time] of a conversion. *)
Record ConversionRef : Type := {
  conversion_id : string;
  conversion_event_time : string
}.

(** The call [supabase.rpc("upsert_conversion", ...)]. *)
Record UpsertCall : Type := {
  p_workspace : string;
  p_funnel : string;
  p_node : string;
  p_conversion : Conversion
}.

(** A row of [supabase.from("conversion_items").insert(rows)]. *)
Record InsertRow : Type := {
  ins_workspace_id : string;
  ins_conversion_id : string;
  ins_conversion_event_time : string;
  ins_item : ItemRow
}.

(** What a query answers: an error with its message, or data. *)
Inductive answer (A : Type) : Type :=
| failed (message : string)
| data_of (a : A).
Arguments failed {A} message.
Arguments data_of {A} a.

(** The collaborators of one request: [JSON.parse] ([None] when it throws)
    and the answers of the store to each query the handler can make.  The
    answers are those of one snapshot; [None] data stands for [null].  A
    query resolves to [{ data, error }], as the client's do; it does not
    throw. *)
Record Services : Type := {
  JSON_parse : string -> option value;
  select_node : string -> answer (option NodeRow);
  select_funnel : string -> answer (option FunnelRow);
  rpc_upsert_conversion : UpsertCall -> answer (list ConversionRef);
  select_conversion : string -> value -> value -> string -> answer (option ConversionRef);
  select_node_products : string -> string -> answer (option (list Mapping));
  insert_conversion_items : list InsertRow -> option string
}.

(** The writes a request makes to the store, in order. *)
Inductive Write : Type :=
| upsert_conversion (call : UpsertCall)
| insert_items (rows : list InsertRow).

(** [fetchNodeProductMappings]: [[]] on an error or without data. *)
Definition fetchNodeProductMappings (sv : Services) (workspaceId nodeId : string)
    : list Mapping :=
  match select_node_products sv workspaceId nodeId with
  | data_of (Some rows) => rows
  | _ => []
  end.

(** Lines 141-189 of [fetch]: the rejection, or the normalized event with
    its ISO time. *)
Definition validated (h : Host) (payload : value)
    : Response + NormalizedEvent * string :=
  match basic_validation h payload with
  | Throw e => inl (uncaught e)
  | Ok (Some r) => inl r
  | Ok None =>
  match detectAndNormalize h payload with
  | Throw e => inl (uncaught e)
  | Ok None => inl (json "Unsupported payload" 400)
  | Ok (Some norm) =>
  match too_old h norm with
  | Throw e => inl (uncaught e)
  | Ok true => inl (json "Event too old" 422)
  | Ok false =>
  match validate_items norm with
  | Some r => inl r
  | None =>
  match validate_total norm with
  | Some r => inl r
  | None =>
  match (tv <- new_Date h (event_time norm ||| VStr (now_iso h)) ;; toISOString h tv) with
  | Throw e => inl (uncaught e)
  | Ok eventTimeISO => inr (norm, eventTimeISO)
  end end end end end end.

(** Lines 253-268: the insert of the item rows, when there are some and the
    conversion has an id and a time. *)
Definition insert_rows (sv : Services) (workspaceId : string) (ref : ConversionRef)
    (rows : list ItemRow) : HttpResponse * list Write :=
  match rows with
  | [] => (ok_response, [])
  | _ :: _ =>
      if String.eqb (conversion_id ref) "" || String.eqb (conversion_event_time ref) ""
      then (ok_response, [])
      else
        let ins :=
          map (fun r => {| ins_workspace_id := workspaceId;
                           ins_conversion_id := conversion_id ref;
                           ins_conversion_event_time := conversion_event_time ref;
                           ins_item := r |}) rows in
        match insert_conversion_items sv ins with
        | Some message => (json_response message 500, [insert_items ins])
        | None => (ok_response, [insert_items ins])
        end
  end.

(** Lines 188-270: the upsert, the lookup of an existing conversion when the
    upsert returns no row, the product mappings and the item rows. *)
Definition persist (h : Host) (sv : Services) (workspaceId nodeId : string)
    (node : NodeRow) (norm : NormalizedEvent) (eventTimeISO : string)
    : HttpResponse * list Write :=
  let call :=
    {| p_workspace := workspaceId;
       p_funnel := node_funnel_id node;
       p_node := nodeId;
       p_conversion := conversion_of h norm eventTimeISO |} in
  let items_step (ref : ConversionRef) :=
    let mappings := fetchNodeProductMappings sv workspaceId nodeId in
    let '(resp, ws) :=
      insert_rows sv workspaceId ref
        (map (row_of norm) (attributed_items norm mappings)) in
    (resp, upsert_conversion call :: ws) in
  match rpc_upsert_conversion sv call with
  | failed message => (json_response message 500, [upsert_conversion call])
  | data_of (ref :: _) => items_step ref
  | data_of [] =>
      match select_conversion sv workspaceId (provider norm)
              (provider_event_id norm) eventTimeISO with
      | failed message =>
          (json_response (string_or (Some message) "Upsert failed") 500,
           [upsert_conversion call])
      | data_of None => (json_response "Upsert failed" 500, [upsert_conversion call])
      | data_of (Some ref) => items_step ref
      end
  end.

(** The answer to a rejection of the payload stage. *)
Definition respond (r : Response) : HttpResponse :=
  match r with
  | json error status => json_response error status
  | uncaught e => caught e
  | stored _ _ => ok_response
  end.

(** [fetch], whole: the answer, the rate-limit maps it leaves and the writes
    it made to the store. *)
Definition handle_request (h : Host) (sv : Services) (lim : Limiter) (req : Request)
    : HttpResponse * Limiter * list Write :=
  if String.eqb (method req) "OPTIONS" then (preflight_response, lim, []) else
  if negb match headers_get "content-type" (req_headers req) with
          | Some ct => includes "application/json" (toLowerCase ct)
          | None => false
          end
  then (json_response "Content-Type must be application/json" 415, lim, []) else
  if JS.gtb (StringToNumber h (string_or (headers_get "content-length" (req_headers req)) "0"))
       65536
  then (json_response "Payload too large" 413, lim, []) else
  match route (pathname req) with
  | None => (json_response "Not found" 404, lim, [])
  | Some (workspaceId, nodeId, token) =>
  let ip := getClientIp req in
  let '(ip_ok, ipBuckets') := allowIp h ip (ipBuckets lim) in
  if negb ip_ok
  then (json_response "Too many requests (IP)" 429,
        {| tokenBuckets := tokenBuckets lim; ipBuckets := ipBuckets' |}, []) else
  let '(token_ok, tokenBuckets') := allowToken h token (tokenBuckets lim) in
  let lim' := {| tokenBuckets := tokenBuckets'; ipBuckets := ipBuckets' |} in
  if negb token_ok then (json_response "Too many requests (token)" 429, lim', []) else
  match select_node sv nodeId with
  | failed _ | data_of None => (json_response "Node not found" 404, lim', [])
  | data_of (Some node) =>
  match select_funnel sv (node_funnel_id node) with
  | failed _ | data_of None => (json_response "Workspace mismatch" 403, lim', [])
  | data_of (Some funnel) =>
  if negb (String.eqb (funnel_workspace_id funnel) workspaceId)
  then (json_response "Workspace mismatch" 403, lim', []) else
  if negb match webhook_token node with
          | Some t => negb (String.eqb t "") && String.eqb token t
          | None => false
          end
  then (json_response "Invalid token" 403, lim', []) else
  if (MAX_BODY_BYTES <? N.of_nat (String.length (body_text req)))%N
  then (json_response "Payload too large" 413, lim', []) else
  match JSON_parse sv (if String.eqb (body_text req) "" then "{}" else body_text req) with
  | None => (json_response "Invalid JSON" 400, lim', [])
  | Some payload =>
  match validated h payload with
  | inl r => (respond r, lim', [])
  | inr (norm, eventTimeISO) =>
      let '(resp, ws) := persist h sv workspaceId nodeId node norm eventTimeISO in
      (resp, lim', ws)
  end end end end end.

(* ------------------------------------------------------------------ *)
(** * Vocabulary of the further properties *)

(** The value of a lower-case hexadecimal digit. *)
Definition hex_value (c : ascii) : option N :=
  let n := N_of_ascii c in
  if ((48 <=? n) && (n <=? 57))%N then Some (n - 48)%N
  else if ((97 <=? n) && (n <=? 102))%N then Some (n - 87)%N
  else None.

Definition is_lower_hex (c : ascii) : bool :=
  match hex_value c with
  | Some _ => true
  | None => false
  end.

(** Reading an identifier back, two digits a byte. *)
Fixpoint decode_id (s : string) : option (list Byte.byte) :=
  match s with
  | "" => Some []
  | String c1 (String c2 rest) =>
      match hex_value c1, hex_value c2, decode_id rest with
      | Some h1, Some h2, Some bs =>
          match Byte.of_N (16 * h1 + h2) with
          | Some b => Some (b :: bs)
          | None => None
          end
      | _, _, _ => None
      end
  | String _ "" => None
  end.

(** No "/" in the string. *)
Fixpoint no_slash (s : string) : bool :=
  match s with
  | "" => true
  | String c rest => negb (Ascii.eqb c "/") && no_slash rest
  end.

(** A path segment: not empty, no "/". *)
Definition segment (s : string) : Prop := s <> "" /\ no_slash s = true.

(** The buckets after [n] calls of a limiter for the same caller. *)
Fixpoint after_calls (allow : Buckets -> bool * Buckets) (n : nat) (m : Buckets)
    : Buckets :=
  match n with
  | O => m
  | S n' => after_calls allow n' (snd (allow m))
  end.

(** The count recorded for a key, 0 without a bucket. *)
Definition count_of (key : string) (m : Buckets) : nat :=
  match Map_get key m with
  | Some b => count b
  | None => 0
  end.

(** A value [(v || "USD").toUpperCase()] accepts: falsy, or a string. *)
Definition string_or_falsy (v : value) : Prop :=
  truthy v = false \/ exists s, v = VStr s.

(** An array element the [map] callbacks can read: not [null]. *)
Definition readable (v : value) : Prop := v <> VNull /\ v <> VUndefined.

(** No object in the value has an own property [toString]: every part of
    the value has a string and a number. *)
Fixpoint plain (v : value) : bool :=
  match v with
  | VArr xs => forallb plain xs
  | VObj fields =>
      match assoc "toString" fields with
      | Some _ => false
      | None => true
      end
      && forallb (fun '(_, x) => plain x) fields
  | _ => true
  end.

(** A payload whose fields have the types the normalizers rely on: no
    object in it has a property [toString], the currencies the normalizers
    upper-case are strings (or falsy), [created] is falsy or gives a date in
    range, [items] is an array (or falsy), and no element of [line_items] or
    [items] is [null]. *)
Definition benign (h : Host) (p : value) : Prop :=
  plain p = true
  /\ string_or_falsy (get p "currency")
  /\ string_or_falsy (get (get (get p "data") "object" ||| VObj []) "currency")
  /\ string_or_falsy (get (get (get p "data") "attributes") "currency")
  /\ (truthy (get p "created") = true ->
      forall n, ToNumber h (get p "created") = Ok n ->
      JS.isNaN (JS.TimeClip (n * 1000)) = false)
  /\ (forall lis, get p "line_items" = VArr lis -> Forall readable lis)
  /\ (truthy (get p "items") = true -> Array_isArray (get p "items") = true)
  /\ (forall xs, get p "items" = VArr xs ->
      Forall (fun i => readable i /\ string_or_falsy (get i "currency")) xs).

(** The statuses [fetch] answers with. *)
Definition statuses : list nat :=
  [200; 204; 400; 403; 404; 413; 415; 422; 429; 500]%nat.

(** The tests of [fetch] before the route: not a preflight, a JSON content
    type, a declared length within the cap. *)
Definition entry_ok (h : Host) (req : Request) : bool :=
  negb (String.eqb (method req) "OPTIONS")
  && match headers_get "content-type" (req_headers req) with
     | Some ct => includes "application/json" (toLowerCase ct)
     | None => false
     end
  && negb (JS.gtb (StringToNumber h
                     (string_or (headers_get "content-length" (req_headers req)) "0"))
             65536).

(** The upsert [persist] makes. *)
Definition upsert_call (h : Host) (workspaceId nodeId : string) (node : NodeRow)
    (norm : NormalizedEvent) (eventTimeISO : string) : UpsertCall :=
  {| p_workspace := workspaceId;
     p_funnel := node_funnel_id node;
     p_node := nodeId;
     p_conversion := conversion_of h norm eventTimeISO |}.

(** An answer with one of the statuses of [fetch] and the CORS headers. *)
Definition well_formed (resp : HttpResponse) : Prop :=
  In (status resp) statuses /\ incl corsHeaders (resp_headers resp).

Module ServiceSamples.

Definition dq : string := String (ascii_of_nat 34) "".

(** The body [{"total_cents":9900}] and its parse. *)
Definition body_9900 : string := "{" ++ dq ++ "total_cents" ++ dq ++ ":9900}".
Definition payload_9900 : value := VObj [("total_cents", VNum 9900)].

(** The event [normalizeCustom] makes of it on the example host. *)
Definition event_9900 : NormalizedEvent :=
  {| provider := VStr "custom";
     provider_event_id := VStr (cryptoRandomId Example.host);
     provider_customer_id := VUndefined;
     type := VStr "purchase";
     ev_currency := "USD";
     subtotal_cents := Some 0;
     discount_cents := Some 0;
     tax_cents := Some 0;
     total_cents := 9900;
     items_count := 0;
     session_id := VUndefined;
     visitor_id := VUndefined;
     event_time := VStr Example.iso_now;
     data := VObj [];
     items := [] |}.

Definition node_n1 : NodeRow :=
  {| node_funnel_id := "f1"; webhook_token := Some "tok" |}.

Definition conversion_c1 : ConversionRef :=
  {| conversion_id := "c1"; conversion_event_time := Example.iso_now |}.

(** A store with the node [n1] of the funnel [f1] of the workspace [w1],
    token [tok], whose only product is the primary "B".  [fresh] tells
    whether the upsert creates the conversion or finds it stored. *)
Definition services (fresh : bool) : Services :=
  {| JSON_parse := fun s =>
       if String.eqb s body_9900 then Some payload_9900 else None;
     select_node := fun id =>
       if String.eqb id "n1" then data_of (Some node_n1) else failed "no rows";
     select_funnel := fun id =>
       if String.eqb id "f1"
       then data_of (Some {| funnel_workspace_id := "w1" |})
       else failed "no rows";
     rpc_upsert_conversion := fun _ =>
       if fresh then data_of [conversion_c1] else data_of [];
     select_conversion := fun _ _ _ _ =>
       if fresh then failed "no rows" else data_of (Some conversion_c1);
     select_node_products := fun _ _ => data_of (Some [Samples.primary_B]);
     insert_conversion_items := fun _ => None |}.

(** [POST /webhook/w1/n1/tok] with the body above. *)
Definition request : Request :=
  {| method := "POST";
     req_headers := [("content-type", "application/json; charset=utf-8");
                     ("content-length", "20")];
     pathname := "/webhook/w1/n1/tok";
     body_text := body_9900 |}.

Definition no_buckets : Limiter := {| tokenBuckets := []; ipBuckets := [] |}.

(** The address [0.0.0.0] with 120 requests on record in the current minute. *)
Definition ip_exhausted : Limiter :=
  {| tokenBuckets := [];
     ipBuckets :=
       [(bucket_key Example.host "0.0.0.0",
         {| ts := current_minute Example.host; count := 120 |})] |}.

End ServiceSamples.

Module PayloadSamples.

(** The README's payload with an [order_id] added:
    [{"order_id": "order_123", "provider": "custom", "type": "purchase",
      "currency": "USD", "total_cents": 9900,
      "items": [{"name": "Pro", "quantity": 1, "unit_amount_cents": 9900}]}] *)
Definition readme_with_order_id : value :=
  VObj [("order_id", VStr "order_123"); ("provider", VStr "custom");
        ("type", VStr "purchase"); ("currency", VStr "USD");
        ("total_cents", VNum 9900);
        ("items", VArr [VObj [("name", VStr "Pro"); ("quantity", VNum 1);
                              ("unit_amount_cents", VNum 9900)]])].

End PayloadSamples.

(** The [if]/[else if] chain of [normalizeStripeLoose] on the event type,
    written with string equality as the source does. *)
Definition stripe_amount (ty : value) (o : value) : value :=
  match ty with
  | VStr s =>
      if String.eqb s "checkout.session.completed" then get o "amount_total" ||| VNum 0
      else if String.eqb s "payment_intent.succeeded" then get o "amount" ||| VNum 0
      else if String.eqb s "invoice.payment_succeeded" then get o "total" ||| VNum 0
      else get o "amount_total" ||| get o "amount" ||| VNum 0
  | _ => get o "amount_total" ||| get o "amount" ||| VNum 0
  end.

(** The services [sv] with another answer to the lookup of the product
    mappings. *)
Definition with_node_products (sv : Services) (a : answer (option (list Mapping)))
    : Services :=
  {| JSON_parse := JSON_parse sv;
     select_node := select_node sv;
     select_funnel := select_funnel sv;
     rpc_upsert_conversion := rpc_upsert_conversion sv;
     select_conversion := select_conversion sv;
     select_node_products := fun _ _ => a;
     insert_conversion_items := insert_conversion_items sv |}.

(* ================================================================== *)
(** * Properties *)

(** ** Facts about binary64 arithmetic *)

Section FloatFacts.

Lemma digits2_pos_shift52 (m : positive) :
  Zpos (digits2_pos (Pos.iter xO m 52)) = (Zpos (digits2_pos m) + 52)%Z.
Proof. cbn [Pos.iter digits2_pos]. lia. Qed.

(** Multiplying a valid binary64 value by one rounds to the value itself. *)
Lemma SF64mul_one_r (x : spec_float) :
  valid_binary x = true -> SF64mul x (Prim2SF 1) = x.
Proof.
  change (Prim2SF 1) with (S754_finite false 4503599627370496 (-52)).
  destruct x as [s | s | | s m e]; cbn [SF64mul SFmul SpecFloat.valid_binary];
    rewrite ?xorb_false_r; try reflexivity.
  unfold bounded, canonical_mantissa. intros Hv.
  apply andb_prop in Hv. destruct Hv as [Hc Hb].
  apply Z.eqb_eq in Hc.
  rewrite Pos.mul_comm.
  change (4503599627370496 * m)%positive with (Pos.iter xO m 52).
  unfold binary_round_aux, shr_fexp.
  cbn [Zdigits2]. rewrite digits2_pos_shift52.
  replace (Z.pos (digits2_pos m) + 52 + (e + -52))%Z
    with (Z.pos (digits2_pos m) + e)%Z by lia.
  rewrite Hc.
  replace (e - (e + -52))%Z with 52%Z by lia.
  cbn [shr_record_of_loc shr].
  cbn [Pos.iter iter_pos shr_1 orb].
  cbn [shr_m loc_of_shr_record round_nearest_even Zdigits2].
  replace (e + -52 + 52)%Z with e by lia.
  rewrite Hc, Z.sub_diag. cbn [shr shr_m].
  rewrite Hb. reflexivity.
Qed.

Lemma mul_1_r (v : float) : v * 1 = v.
Proof.
  apply Prim2SF_inj. rewrite mul_spec. apply SF64mul_one_r, Prim2SF_valid.
Qed.

End FloatFacts.

(** ** Lists and the error monad *)

Section ListFacts.

Context {A B : Type}.

Lemma find_first (f : A -> bool) (l1 l2 : list A) (a : A) :
  f a = true -> (forall x, In x l1 -> f x = false) ->
  find f (l1 ++ a :: l2) = Some a.
Proof.
  intros Ha. induction l1 as [| x l1 IH]; intros Hl1; cbn.
  - now rewrite Ha.
  - rewrite (Hl1 x (or_introl eq_refl)). apply IH.
    intros y Hy. apply Hl1. now right.
Qed.

Lemma find_all_false (f : A -> bool) (l : list A) :
  (forall x, In x l -> f x = false) -> find f l = None.
Proof.
  induction l as [| x l IH]; intros Hl; cbn; [reflexivity |].
  rewrite (Hl x (or_introl eq_refl)). apply IH.
  intros y Hy. apply Hl. now right.
Qed.

Lemma find_exists (f : A -> bool) (l : list A) (a : A) :
  In a l -> f a = true -> exists b, find f l = Some b /\ In b l /\ f b = true.
Proof.
  intros Hin Ha.
  destruct (find f l) as [b |] eqn:E.
  - exists b. apply find_some in E. tauto.
  - pose proof (find_none _ _ E _ Hin) as Hn. congruence.
Qed.

Lemma mapM_nth (f : A -> result B) (l : list A) (l' : list B) :
  mapM f l = Ok l' ->
  List.length l' = List.length l /\
  forall i a, nth_error l i = Some a ->
    exists b, f a = Ok b /\ nth_error l' i = Some b.
Proof.
  revert l'. induction l as [| x l IH]; intros l' H; cbn in H.
  - inversion H; subst. split; [reflexivity |]. intros [| i] a Hi; discriminate.
  - destruct (f x) as [b | e] eqn:Fx; cbn in H; [| discriminate].
    destruct (mapM f l) as [bs | e] eqn:Ml; cbn in H; [| discriminate].
    inversion H; subst. destruct (IH bs eq_refl) as [Hlen Hnth].
    split; [cbn; now rewrite Hlen |].
    intros [| i] a Hi; cbn in Hi |- *.
    + inversion Hi; subst. now exists b.
    + now apply Hnth.
Qed.

End ListFacts.

Lemma bind_Ok_inv {A B : Type} (r : result A) (k : A -> result B) (b : B) :
  (x <- r ;; k x) = Ok b -> exists a, r = Ok a /\ k a = Ok b.
Proof. destruct r as [a | e]; cbn; [eauto | discriminate]. Qed.

(** From [(x <- r ;; k) = Ok b] in [H]: the value [x] of [r], with [Hx], and
    the rest in [H]. *)
Tactic Notation "bind_inv" hyp(H) ident(x) ident(Hx) :=
  cbv zeta in H; apply bind_Ok_inv in H; destruct H as [x [Hx H]].

(** ** The attribution matcher *)

Lemma price_match_true (u : float) (m : Mapping) :
  price_match u m = true <-> JS.truthy_num u = true /\ has_price_within u m.
Proof.
  unfold price_match, has_price_within.
  destruct (price_points_cents m) as [pts |].
  - destruct (JS.truthy_num u); cbn.
    + rewrite existsb_exists. split.
      * intros [p [Hin Hp]]. split; [reflexivity |]. now exists pts, p.
      * intros [_ [pts' [p [E [Hin Hp]]]]]. inversion E; subst. now exists p.
    + split; [discriminate | intros [H _]; discriminate].
  - split; [discriminate |]. intros [_ [pts [p [E _]]]]. discriminate.
Qed.

Lemma price_match_false (u : float) (m : Mapping) :
  JS.truthy_num u = false \/ ~ has_price_within u m -> price_match u m = false.
Proof.
  intros H. destruct (price_match u m) eqn:E; [| reflexivity].
  apply price_match_true in E. destruct E as [Ht Hw].
  destruct H as [H | H]; [congruence | contradiction].
Qed.

Lemma mapItemsToProducts_map (items : list NormalizedItem)
    (mappings : list Mapping) (dc : string) :
  mapItemsToProducts items mappings dc = map (mapItem mappings dc) items.
Proof. destruct items; reflexivity. Qed.

(** C1, as the spec words it, fails on a free item: the mapping "A" has the
    price point 0, which is within tolerance of the amount 0, yet the item is
    left without a product, because the matcher never price-matches an
    amount of 0.  Such an item passes validation: [fetch] stores its row
    without a product. *)
Lemma C1_free_item_not_matched :
  has_price_within 0 (Samples.product_A [0])
  /\ map item_product_id
       (mapItemsToProducts [Samples.priced 0] [Samples.product_A [0]] "USD")
     = [None]
  /\ exists conv row,
       fetch Example.host [Samples.product_A [0]] Samples.free_item_payload
       = stored conv [row]
       /\ row_unit_amount_cents row = 0
       /\ row_product_id row = None.
Proof.
  split; [| split].
  - exists [0], 0. split; [reflexivity | split; [now left | vm_compute; reflexivity]].
  - vm_compute. reflexivity.
  - eexists. eexists. split; [vm_compute; reflexivity |]. split; reflexivity.
Qed.

(** C1 (amended): every item is kept, at its position.  An item whose amount
    is neither 0 nor NaN gets the product of the first mapping, in mapping
    order, that has a price point [p] with
    [|p - unit_amount_cents| <= max(1, p * 0.05)]; an item with no such
    mapping, or whose amount is 0 or NaN, gets the product of the primary
    mapping when there is one and no product otherwise.  With the price point
    1000, the amount 1049 is within tolerance and 1051 is not. *)
Theorem C1_price_tolerant_matching (items : list NormalizedItem)
    (mappings : list Mapping) (dc : string) (i : nat) (it : NormalizedItem) :
  nth_error items i = Some it ->
  exists out,
    nth_error (mapItemsToProducts items mappings dc) i = Some out
    /\ (forall l1 m l2,
          JS.truthy_num (unit_amount_cents it) = true ->
          mappings = (l1 ++ m :: l2)%list ->
          has_price_within (unit_amount_cents it) m ->
          (forall m', In m' l1 -> ~ has_price_within (unit_amount_cents it) m') ->
          item_product_id out = Some (product_id m))
    /\ (JS.truthy_num (unit_amount_cents it) = false
        \/ (forall m, In m mappings -> ~ has_price_within (unit_amount_cents it) m) ->
        item_product_id out = option_map product_id (find is_primary mappings))
    /\ within_tolerance 1049 1000 = true
    /\ within_tolerance 1051 1000 = false.
Proof.
  intros Hi. exists (mapItem mappings dc it).
  rewrite mapItemsToProducts_map. split; [now apply map_nth_error |].
  split; [| split; [| split; vm_compute; reflexivity]].
  - intros l1 m l2 Hu -> Hm Hl1. unfold mapItem; cbn.
    rewrite (find_first (price_match (unit_amount_cents it)) l1 l2 m);
      [reflexivity | now apply price_match_true |].
    intros m' Hm'. apply price_match_false. right. now apply Hl1.
  - intros H. unfold mapItem; cbn.
    rewrite find_all_false.
    + now destruct (find is_primary mappings).
    + intros m Hm. apply price_match_false.
      destruct H as [H | H]; [now left | right; now apply H].
Qed.

(** An item priced 1049 against the price point 1000, with a primary mapping
    listed first: the price match wins over the primary. *)
Lemma C1_price_tolerant_matching_witness :
  exists out,
    nth_error
      (mapItemsToProducts [Samples.priced 1049]
         [Samples.primary_B; Samples.product_A [1000]] "USD") 0 = Some out
    /\ item_product_id out = Some "A".
Proof.
  destruct (C1_price_tolerant_matching [Samples.priced 1049]
              [Samples.primary_B; Samples.product_A [1000]] "USD" 0
              (Samples.priced 1049) eq_refl) as [out [Hout [Hfirst _]]].
  exists out. split; [exact Hout |].
  apply (Hfirst [Samples.primary_B] (Samples.product_A [1000]) []).
  - vm_compute; reflexivity.
  - reflexivity.
  - exists [1000], 1000.
    split; [reflexivity | split; [now left | vm_compute; reflexivity]].
  - intros m' [<- | []] [pts [p [E _]]]. discriminate.
Defined.

(** C10: the matcher returns one item per input item, in the same order; the
    name, quantity, unit amount and bump flag of each are those of the input.
    It only adds the product and fills the currency: the item's own when it
    has a (non-empty) one, else the default currency, else "USD". *)
Theorem C10_matcher_frame (items : list NormalizedItem)
    (mappings : list Mapping) (defaultCurrency : string) :
  List.length (mapItemsToProducts items mappings defaultCurrency) = List.length items
  /\ forall i it,
       nth_error items i = Some it ->
       exists out,
         nth_error (mapItemsToProducts items mappings defaultCurrency) i = Some out
         /\ name (item out) = name it
         /\ quantity (item out) = quantity it
         /\ unit_amount_cents (item out) = unit_amount_cents it
         /\ is_bump (item out) = is_bump it
         /\ currency (item out) =
              Some match currency it with
                   | Some (String c s) => String c s
                   | Some EmptyString | None => currency_or_USD defaultCurrency
                   end.
Proof.
  rewrite mapItemsToProducts_map. split; [apply length_map |].
  intros i it Hi. exists (mapItem mappings defaultCurrency it).
  split; [now apply map_nth_error |].
  repeat (split; [reflexivity |]).
  unfold mapItem, first_nonempty, currency_or_USD; cbn.
  destruct (currency it) as [[| c s] |]; cbn; reflexivity.
Qed.

(** The event-level fallback synthesizes nothing but the one "Order" item. *)
Lemma attributed_items_nonempty (norm : NormalizedEvent) (mappings : list Mapping) :
  items norm <> [] ->
  attributed_items norm mappings
  = map (mapItem mappings (currency_or_USD (ev_currency norm))) (items norm).
Proof.
  intros Hne. unfold attributed_items. rewrite mapItemsToProducts_map.
  destruct (items norm) as [| it rest]; [contradiction | reflexivity].
Qed.

(** ** The provider detector *)

Lemma detectAndNormalize_detect (h : Host) (p : value) :
  detectAndNormalize h p = normalizer h (detect p) p.
Proof.
  unfold detectAndNormalize, detect.
  destruct (stripe_signal p); [reflexivity |].
  destruct (paddle_signal p); [reflexivity |].
  destruct (lemon_signal p); [reflexivity |].
  destruct (shopify_signal p); [reflexivity |].
  destruct (custom_signal p); reflexivity.
Qed.

Lemma truthy_or_else (a b : value) :
  truthy (a ||| b) = truthy a || truthy b.
Proof. unfold or_else. destruct (truthy a) eqn:E; [exact E | reflexivity]. Qed.

Lemma or_else_truthy (a b : value) : truthy a = true -> a ||| b = a.
Proof. intros H. unfold or_else. now rewrite H. Qed.

Lemma or_else_falsy (a b : value) : truthy a = false -> a ||| b = b.
Proof. intros H. unfold or_else. now rewrite H. Qed.

Lemma string_event_dec (v : value) :
  match v with VStr "event" => true | _ => false end = true <-> is_string_event v.
Proof.
  unfold is_string_event. split.
  - destruct v as [| | b | n | s | xs | fs]; try discriminate.
    destruct (String.eqb s "event") eqn:E.
    + apply String.eqb_eq in E. now subst.
    + intros H. exfalso. revert H E.
      repeat (destruct s as [| [[] [] [] [] [] [] [] []] s]; try discriminate).
  - intros ->. reflexivity.
Qed.

Lemma stripe_signal_iff (p : value) : stripe_signal p = true <-> StripeSignal p.
Proof.
  unfold stripe_signal, StripeSignal. rewrite orb_true_iff, string_event_dec.
  apply or_iff_compat_l. unfold is_dotted_string. split.
  - destruct (get p "type") as [| | b | n | s | xs | fs]; try discriminate.
    intros H. now exists s.
  - intros [s [-> H]]. exact H.
Qed.

Lemma paddle_signal_iff (p : value) : paddle_signal p = true <-> PaddleSignal p.
Proof.
  unfold paddle_signal, PaddleSignal.
  rewrite !truthy_or_else, !orb_true_iff. tauto.
Qed.

Lemma lemon_signal_iff (p : value) : lemon_signal p = true <-> LemonSignal p.
Proof.
  unfold lemon_signal, LemonSignal.
  rewrite !truthy_or_else, !orb_true_iff. tauto.
Qed.

Lemma shopify_signal_iff (p : value) : shopify_signal p = true <-> ShopifySignal p.
Proof.
  unfold shopify_signal, ShopifySignal.
  rewrite andb_true_iff, !truthy_or_else, !orb_true_iff. tauto.
Qed.

Lemma custom_signal_iff (p : value) : custom_signal p = true <-> CustomSignal p.
Proof.
  unfold custom_signal, CustomSignal.
  rewrite !truthy_or_else, !orb_true_iff. tauto.
Qed.

(** C4, as the spec words it, fails: a [line_items] that is not an array still
    makes a payload shopify-like; an [alert_id] that is present but 0 does not
    make it paddle-like; a payload with a paddle-like and a shopify-like
    signal is stripe-like when its [object] is "event"; and an unsupported
    payload whose [tax_cents] is an object with a property [toString] is
    answered 500, not 400: [Number] throws in the check of the cents fields,
    before the detector is called. *)
Lemma C4_detector_differs_from_wording :
  (detect DetectorSamples.line_items_not_array = ShopifyLike
   /\ detect_as_specified DetectorSamples.line_items_not_array = Unsupported)
  /\ (detect DetectorSamples.alert_id_zero = CustomShape
      /\ detect_as_specified DetectorSamples.alert_id_zero = PaddleLike)
  /\ (paddle_signal DetectorSamples.all_three_signals = true
      /\ shopify_signal DetectorSamples.all_three_signals = true
      /\ detect DetectorSamples.all_three_signals = StripeLike)
  /\ (detect DetectorSamples.toString_in_cents = Unsupported
      /\ basic_validation Example.host DetectorSamples.toString_in_cents
         = Throw TypeError
      /\ fetch Example.host [] DetectorSamples.toString_in_cents
         = uncaught TypeError).
Proof. vm_compute. repeat split. Qed.

(** ** The rejections of [fetch] *)

Section FetchFacts.

Variable h : Host.

Lemma check_cents_400 (payload : value) (keys : list string) (r : Response) :
  check_cents h payload keys = Ok (Some r) -> exists msg, r = json msg 400.
Proof.
  induction keys as [| k keys IH]; cbn; [discriminate |].
  destruct (not_nullish (get payload k)); [| exact IH].
  destruct (ToNumber h (get payload k)) as [v | e]; cbn; [| discriminate].
  destruct (bad_cents v); [| exact IH].
  intros H. inversion H. eauto.
Qed.

Lemma basic_validation_400 (payload : value) (r : Response) :
  basic_validation h payload = Ok (Some r) -> exists msg, r = json msg 400.
Proof.
  unfold basic_validation.
  destruct payload;
    try (intros H; inversion H; eauto; fail);
    repeat match goal with
           | |- context [if ?b then _ else _] => destruct b
           end;
    try (intros H; inversion H; eauto; fail);
    apply check_cents_400.
Qed.

Lemma check_items_400 (its : list NormalizedItem) (r : Response) :
  check_items its = Some r -> exists msg, r = json msg 400.
Proof.
  induction its as [| it its IH]; cbn; [discriminate |].
  unfold check_item.
  repeat match goal with
         | |- context [if ?b then _ else _] => destruct b
         end;
    try (intros H; inversion H; eauto; fail); exact IH.
Qed.

Lemma validate_items_400 (norm : NormalizedEvent) (r : Response) :
  validate_items norm = Some r -> exists msg, r = json msg 400.
Proof.
  unfold validate_items. destruct (items norm) as [| it its]; [discriminate |].
  destruct (MAX_ITEMS <? List.length (it :: its))%nat.
  - intros H. inversion H. eauto.
  - apply check_items_400.
Qed.

Lemma validate_total_400 (norm : NormalizedEvent) (r : Response) :
  validate_total norm = Some r -> exists msg, r = json msg 400.
Proof.
  unfold validate_total. destruct (bad_cents (total_cents norm)); [| discriminate].
  intros H. inversion H. eauto.
Qed.

Lemma fetch_normalized (mappings : list Mapping) (payload : value)
    (norm : NormalizedEvent) :
  basic_validation h payload = Ok None ->
  detectAndNormalize h payload = Ok (Some norm) ->
  fetch h mappings payload = after_normalize h mappings norm.
Proof. intros Hb Hn. unfold fetch. now rewrite Hb, Hn. Qed.

Lemma fetch_unsupported (mappings : list Mapping) (payload : value) :
  detect payload = Unsupported ->
  detectAndNormalize h payload = Ok None
  /\ (forall e, basic_validation h payload = Throw e ->
      fetch h mappings payload = uncaught e)
  /\ (forall r, basic_validation h payload = Ok (Some r) ->
      fetch h mappings payload = r /\ exists msg, r = json msg 400)
  /\ (basic_validation h payload = Ok None ->
      fetch h mappings payload = json "Unsupported payload" 400).
Proof.
  intros Hd.
  assert (Hn : detectAndNormalize h payload = Ok None).
  { now rewrite detectAndNormalize_detect, Hd. }
  split; [exact Hn |]. unfold fetch. split; [| split].
  - intros e ->. reflexivity.
  - intros r Hr. rewrite Hr. split; [reflexivity |].
    exact (basic_validation_400 payload r Hr).
  - intros ->. now rewrite Hn.
Qed.

End FetchFacts.

(** C4 (amended): the detector applies its rules in a fixed order, the first
    that holds winning, where a signal field counts when its value is truthy
    (not absent, null, false, 0, NaN or ""): stripe-like ([object] is "event"
    or [type] is a string with a dot), then paddle-like ([alert_id],
    [event_time] or [order_id]), then lemon-like ([meta.event_name] or
    [data.attributes.total]), then shopify-like ([line_items], array or not,
    with [total_price] or [subtotal_price]), then custom ([total_cents] or
    [items]), else unsupported; the normalizer run is the one of that shape.
    For an unsupported payload the detector returns [null], and [fetch]
    answers 400: with "Unsupported payload" when the checks on the raw
    payload pass, with the rejection of those checks otherwise; when one of
    them throws, the answer is the 500 of the outer [catch].  A payload with
    a paddle-like and a shopify-like signal that is not stripe-like is
    paddle-like. *)
Theorem C4_detector_order (p : value) :
  (StripeSignal p -> detect p = StripeLike)
  /\ (~ StripeSignal p -> PaddleSignal p -> detect p = PaddleLike)
  /\ (~ StripeSignal p -> ~ PaddleSignal p -> LemonSignal p -> detect p = LemonLike)
  /\ (~ StripeSignal p -> ~ PaddleSignal p -> ~ LemonSignal p -> ShopifySignal p ->
      detect p = ShopifyLike)
  /\ (~ StripeSignal p -> ~ PaddleSignal p -> ~ LemonSignal p -> ~ ShopifySignal p ->
      CustomSignal p -> detect p = CustomShape)
  /\ (~ StripeSignal p -> ~ PaddleSignal p -> ~ LemonSignal p -> ~ ShopifySignal p ->
      ~ CustomSignal p -> detect p = Unsupported)
  /\ (forall h, detectAndNormalize h p = normalizer h (detect p) p)
  /\ (detect p = Unsupported ->
      forall h mappings,
        detectAndNormalize h p = Ok None
        /\ (basic_validation h p = Ok None ->
            fetch h mappings p = json "Unsupported payload" 400)
        /\ (forall r, basic_validation h p = Ok (Some r) ->
            fetch h mappings p = r /\ exists msg, r = json msg 400)
        /\ (forall e, basic_validation h p = Throw e ->
            fetch h mappings p = uncaught e))
  /\ (PaddleSignal p -> ShopifySignal p -> ~ StripeSignal p -> detect p = PaddleLike).
Proof.
  rewrite <- stripe_signal_iff, <- paddle_signal_iff, <- lemon_signal_iff,
    <- shopify_signal_iff, <- custom_signal_iff.
  repeat apply conj; intros;
    try (apply detectAndNormalize_detect);
    try (match goal with
         | Hd : detect p = Unsupported |- _ =>
             destruct (fetch_unsupported h mappings p Hd) as [Hn [He [Hr Hu]]];
             repeat apply conj; assumption
         end);
    repeat match goal with
           | H : ~ (_ = true) |- _ => apply not_true_is_false in H
           end;
    unfold detect;
    repeat match goal with
           | H : _ = true |- _ => rewrite H
           | H : _ = false |- _ => rewrite H
           end;
    reflexivity.
Qed.

(** The contrived payload with a paddle-like and a shopify-like signal (and
    no stripe-like one) is paddle-like. *)
Lemma C4_detector_order_witness :
  PaddleSignal DetectorSamples.paddle_and_shopify
  /\ ShopifySignal DetectorSamples.paddle_and_shopify
  /\ detect DetectorSamples.paddle_and_shopify = PaddleLike.
Proof.
  assert (Hp : PaddleSignal DetectorSamples.paddle_and_shopify)
    by (left; reflexivity).
  assert (Hs : ShopifySignal DetectorSamples.paddle_and_shopify)
    by (split; [| left]; reflexivity).
  split; [exact Hp |]. split; [exact Hs |].
  apply (C4_detector_order DetectorSamples.paddle_and_shopify); [exact Hp | exact Hs |].
  intros [H | [x [H _]]]; discriminate.
Defined.

(** ** The normalizers *)

(** C3 (the code departs from it): on a stripe-like payload whose
    [data.object.currency] is a number, [normalizeStripeLoose] throws a
    TypeError ([toUpperCase] is not a function of a number) and [fetch]
    answers through its outer [catch]; on a stripe-like payload whose
    [created] is out of the range of dates, it throws the RangeError of
    [toISOString]; on a shopify-like payload whose [line_items] holds [null],
    [normalizeShopifyLoose] throws reading [li.title].  This holds on every
    host. *)
Theorem C3_normalizer_throws (h : Host) (mappings : list Mapping) :
  (detect NormalizerSamples.numeric_currency = StripeLike
   /\ normalizeStripeLoose h NormalizerSamples.numeric_currency = Throw TypeError
   /\ detectAndNormalize h NormalizerSamples.numeric_currency = Throw TypeError
   /\ fetch h mappings NormalizerSamples.numeric_currency = uncaught TypeError)
  /\ (detect NormalizerSamples.created_out_of_range = StripeLike
      /\ normalizeStripeLoose h NormalizerSamples.created_out_of_range = Throw RangeError
      /\ detectAndNormalize h NormalizerSamples.created_out_of_range = Throw RangeError
      /\ fetch h mappings NormalizerSamples.created_out_of_range = uncaught RangeError)
  /\ (detect NormalizerSamples.null_line_item = ShopifyLike
      /\ normalizeShopifyLoose h NormalizerSamples.null_line_item = Throw TypeError
      /\ detectAndNormalize h NormalizerSamples.null_line_item = Throw TypeError
      /\ fetch h mappings NormalizerSamples.null_line_item = uncaught TypeError).
Proof. repeat split; reflexivity. Qed.

(** C5, as the spec words it, fails: with [total_price] present and 0 the
    total is taken from [subtotal_price] (500, not round(100 * 0) = 0); and a
    quantity that is an object, hence not numeric, is normalized to NaN, not
    to 1. *)
Lemma C5_shopify_differs_from_wording :
  (detect NormalizerSamples.zero_total_price = ShopifyLike
   /\ present (get NormalizerSamples.zero_total_price "total_price") = true
   /\ (exists n,
         ToNumber Example.host (get NormalizerSamples.zero_total_price "total_price")
         = Ok n
         /\ JS.Math_round (n * 100) = 0)
   /\ exists ev,
        normalizeShopifyLoose Example.host NormalizerSamples.zero_total_price = Ok ev
        /\ total_cents ev = 500)
  /\ (detect NormalizerSamples.object_quantity = ShopifyLike
      /\ exists ev,
           normalizeShopifyLoose Example.host NormalizerSamples.object_quantity = Ok ev
           /\ map (fun it => JS.isNaN (quantity it)) (items ev) = [true]).
Proof.
  split.
  - repeat (split; [vm_compute; reflexivity |]).
    split; [exists 0; split; reflexivity |].
    eexists. split; [vm_compute; reflexivity | reflexivity].
  - split; [vm_compute; reflexivity |].
    eexists. split; [vm_compute; reflexivity | reflexivity].
Qed.

Lemma normalizer_shopify (h : Host) (p : value) (ev : NormalizedEvent) :
  detect p = ShopifyLike ->
  detectAndNormalize h p = Ok (Some ev) ->
  normalizeShopifyLoose h p = Ok ev.
Proof.
  intros Hd. rewrite detectAndNormalize_detect, Hd. cbn.
  destruct (normalizeShopifyLoose h p); cbn; congruence.
Qed.

Lemma normalizer_paddle (h : Host) (p : value) (ev : NormalizedEvent) :
  detect p = PaddleLike ->
  detectAndNormalize h p = Ok (Some ev) ->
  normalizePaddleLoose h p = Ok ev.
Proof.
  intros Hd. rewrite detectAndNormalize_detect, Hd. cbn.
  destruct (normalizePaddleLoose h p); cbn; congruence.
Qed.

(** C5 (amended): for a shopify-like payload, [total_cents] is
    round(Number(x) * 100) where [x] is [total_price] when that is truthy and
    [subtotal_price] otherwise.  The items are the elements of [line_items],
    in order; each has as [unit_amount_cents] the value
    round(Number(price) * 100), or 0 when that value is NaN or zero, and as
    [quantity] 1 when the source quantity is absent or otherwise falsy, and the
    source quantity itself when that is a non-zero number. *)
Theorem C5_shopify_amounts (h : Host) (p : value) (ev : NormalizedEvent) :
  detect p = ShopifyLike ->
  detectAndNormalize h p = Ok (Some ev) ->
  (truthy (get p "total_price") = true ->
   exists n,
     ToNumber h (get p "total_price") = Ok n
     /\ total_cents ev = JS.Math_round (n * 100))
  /\ (truthy (get p "total_price") = false ->
      exists n,
        ToNumber h (get p "subtotal_price") = Ok n
        /\ total_cents ev = JS.Math_round (n * 100))
  /\ forall lis, get p "line_items" = VArr lis ->
       List.length (items ev) = List.length lis
       /\ forall i li, nth_error lis i = Some li ->
            exists it price,
              nth_error (items ev) i = Some it
              /\ ToNumber h (get li "price") = Ok price
              /\ (let c := JS.Math_round (price * 100) in
                  (JS.truthy_num c = true -> unit_amount_cents it = c)
                  /\ (JS.truthy_num c = false -> unit_amount_cents it = 0))
              /\ (truthy (get li "quantity") = false -> quantity it = 1)
              /\ (forall n, get li "quantity" = VNum n -> JS.truthy_num n = true ->
                  quantity it = n).
Proof.
  intros Hd Hn. pose proof (normalizer_shopify h p ev Hd Hn) as H.
  assert (Hsig : shopify_signal p = true).
  { revert Hd. unfold detect.
    repeat match goal with
           | |- context [if ?b then _ else _] => destruct b
           end; congruence. }
  apply shopify_signal_iff in Hsig. destruct Hsig as [_ Hprice].
  unfold normalizeShopifyLoose in H.
  bind_inv H cur Hcur. bind_inv H total Htotal. bind_inv H its Hits.
  bind_inv H eid Heid.
  inversion H; subst ev; clear H; cbn [total_cents items].
  split; [| split].
  - intros Ht. exists total. split; [| reflexivity].
    now rewrite !(or_else_truthy (get p "total_price")) in Htotal by exact Ht.
  - intros Ht. exists total. split; [| reflexivity].
    rewrite (or_else_falsy (get p "total_price")) in Htotal by exact Ht.
    destruct Hprice as [Hp | Hp]; [congruence |].
    now rewrite or_else_truthy in Htotal by exact Hp.
  - intros lis Hlis. rewrite Hlis in Hits.
    destruct (mapM_nth _ _ _ Hits) as [Hlen Hnth].
    split; [exact Hlen |].
    intros i li Hi. destruct (Hnth i li Hi) as [it [Hit Hout]].
    unfold shopify_item in Hit.
    bind_inv Hit title Htitle. bind_inv Hit qty Hqty. bind_inv Hit price Hprc.
    exists it, price. split; [exact Hout |]. split; [exact Hprc |].
    inversion Hit; subst it; clear Hit; cbn [unit_amount_cents quantity].
    split; [| split].
    + unfold JS.num_or. split; intros Hc; now rewrite Hc.
    + intros Hq. rewrite or_else_falsy in Hqty by exact Hq.
      cbn in Hqty. now inversion Hqty.
    + intros n Hq Hn'. rewrite Hq in Hqty.
      rewrite or_else_truthy in Hqty by exact Hn'.
      cbn in Hqty. now inversion Hqty.
Qed.

(** A shopify-like payload with one line item priced 19.99 and no quantity:
    the total is 1999 and the item is kept. *)
Lemma C5_shopify_amounts_witness :
  exists ev,
    detectAndNormalize Example.host NormalizerSamples.one_line_item = Ok (Some ev)
    /\ total_cents ev = 1999
    /\ List.length (items ev) = 1%nat.
Proof.
  destruct (detectAndNormalize Example.host NormalizerSamples.one_line_item)
    as [[ev |] | e] eqn:E; try (vm_compute in E; discriminate).
  exists ev. split; [reflexivity |].
  destruct (C5_shopify_amounts Example.host NormalizerSamples.one_line_item ev
              eq_refl E) as [Htotal [_ Hitems]].
  split; [| exact (proj1 (Hitems _ eq_refl))].
  destruct (Htotal eq_refl) as [n [Hn Ht]].
  inversion Hn; subst n. exact Ht.
Defined.

(** C9, as the spec words it, fails: with [sale_gross] present and 0 the
    amount is taken from [total], so the stored total is 5000, not
    round(100 * 0) = 0. *)
Lemma C9_zero_sale_gross_skipped :
  detect NormalizerSamples.zero_sale_gross = PaddleLike
  /\ present (get NormalizerSamples.zero_sale_gross "sale_gross") = true
  /\ (exists n,
        ToNumber Example.host (get NormalizerSamples.zero_sale_gross "sale_gross")
        = Ok n
        /\ JS.Math_round (n * 100) = 0)
  /\ exists ev,
       normalizePaddleLoose Example.host NormalizerSamples.zero_sale_gross = Ok ev
       /\ total_cents ev = 5000.
Proof.
  repeat (split; [vm_compute; reflexivity |]).
  split; [exists 0; split; reflexivity |].
  eexists. split; [vm_compute; reflexivity | reflexivity].
Qed.

(** C9 (amended): for a paddle-like payload the raw amount [v] is the number
    of the first truthy one of [sale_gross], [total], [amount], and 0 when
    none is truthy; the stored [total_cents] is round(v * 100) when
    [v < 1000] and round(v) otherwise. *)
Theorem C9_paddle_total (h : Host) (p : value) (ev : NormalizedEvent) :
  detect p = PaddleLike ->
  detectAndNormalize h p = Ok (Some ev) ->
  exists src v,
    (truthy (get p "sale_gross") = true -> src = get p "sale_gross")
    /\ (truthy (get p "sale_gross") = false -> truthy (get p "total") = true ->
        src = get p "total")
    /\ (truthy (get p "sale_gross") = false -> truthy (get p "total") = false ->
        truthy (get p "amount") = true -> src = get p "amount")
    /\ (truthy (get p "sale_gross") = false -> truthy (get p "total") = false ->
        truthy (get p "amount") = false -> src = VNum 0)
    /\ ToNumber h src = Ok v
    /\ ((v <? 1000) = true -> total_cents ev = JS.Math_round (v * 100))
    /\ ((v <? 1000) = false -> total_cents ev = JS.Math_round v).
Proof.
  intros Hd Hn. pose proof (normalizer_paddle h p ev Hd Hn) as H.
  unfold normalizePaddleLoose in H.
  bind_inv H cur Hcur. bind_inv H v Hv. bind_inv H eid Heid.
  inversion H; subst ev; clear H; cbn [total_cents].
  exists (get p "sale_gross" ||| get p "total" ||| get p "amount" ||| VNum 0), v.
  repeat apply conj.
  - intros Hs. now rewrite !(or_else_truthy (get p "sale_gross")) by exact Hs.
  - intros Hs Ht. rewrite (or_else_falsy (get p "sale_gross")) by exact Hs.
    now rewrite !(or_else_truthy (get p "total")) by exact Ht.
  - intros Hs Ht Ha. rewrite (or_else_falsy (get p "sale_gross")) by exact Hs.
    rewrite (or_else_falsy (get p "total")) by exact Ht.
    now rewrite or_else_truthy by exact Ha.
  - intros Hs Ht Ha. rewrite (or_else_falsy (get p "sale_gross")) by exact Hs.
    rewrite (or_else_falsy (get p "total")) by exact Ht.
    now rewrite or_else_falsy by exact Ha.
  - exact Hv.
  - intros Hlt. now rewrite Hlt.
  - intros Hlt. now rewrite Hlt, mul_1_r.
Qed.

(** A paddle-like payload with [sale_gross] 12.5: the stored total is 1250. *)
Lemma C9_paddle_total_witness :
  exists ev,
    detectAndNormalize Example.host NormalizerSamples.sale_gross_12_50 = Ok (Some ev)
    /\ total_cents ev = 1250.
Proof.
  destruct (detectAndNormalize Example.host NormalizerSamples.sale_gross_12_50)
    as [[ev |] | e] eqn:E; try (vm_compute in E; discriminate).
  exists ev. split; [reflexivity |].
  destruct (C9_paddle_total Example.host NormalizerSamples.sale_gross_12_50 ev
              eq_refl E) as [src [v [Hsrc [_ [_ [_ [Hv [Hlt _]]]]]]]].
  rewrite (Hsrc eq_refl) in Hv. inversion Hv; subst v. exact (Hlt eq_refl).
Defined.

(** ** Validation order and staleness *)

Lemma basic_validation_checks (h : Host) (payload : value) :
  basic_validation h payload
  = first_failure [Ok (object_check payload); Ok (items_ceiling payload);
                   check_cents h payload centsKeys].
Proof.
  unfold basic_validation, items_ceiling, object_check.
  destruct payload; try reflexivity;
    repeat match goal with
           | |- context [if ?b then _ else _] => destruct b
           end;
    cbn [first_failure];
    try reflexivity;
    match goal with
    | |- ?c = _ => now destruct c as [[r |] | e]
    end.
Qed.

Lemma after_normalize_checks (h : Host) (mappings : list Mapping)
    (norm : NormalizedEvent) :
  (forall r,
     first_failure [stale_check h norm; Ok (validate_items norm);
                    Ok (validate_total norm)] = Ok (Some r) ->
     after_normalize h mappings norm = r)
  /\ (forall e,
        first_failure [stale_check h norm; Ok (validate_items norm);
                       Ok (validate_total norm)] = Throw e ->
        after_normalize h mappings norm = uncaught e).
Proof.
  unfold after_normalize, stale_check. cbn [first_failure].
  destruct (too_old h norm) as [[|] | e0]; cbn; [split; congruence | | split; congruence].
  destruct (validate_items norm); [split; congruence |].
  destruct (validate_total norm); split; congruence.
Qed.

(** C2, as the spec words it, fails: this shopify-like event has an invalid
    item (quantity 1001) and is 8 days old, and the answer is the stale-event
    rejection, not the item's. *)
Lemma C2_stale_event_wins_over_invalid_item :
  exists norm,
    basic_validation Example.host FetchSamples.stale_with_bad_quantity = Ok None
    /\ detectAndNormalize Example.host FetchSamples.stale_with_bad_quantity
       = Ok (Some norm)
    /\ validate_items norm = Some (json "Invalid quantity" 400)
    /\ too_old Example.host norm = Ok true
    /\ fetch Example.host [] FetchSamples.stale_with_bad_quantity
       = json "Event too old" 422.
Proof.
  eexists. split; [vm_compute; reflexivity |].
  split; [vm_compute; reflexivity |].
  repeat split; vm_compute; reflexivity.
Qed.

(** C2 (amended): [fetch] applies its checks in this order, the first that
    fails giving the answer: on the raw payload, (0) it is an object, (1) the
    item-count ceiling, (2) the bounds of the cents fields; then, on the
    normalized event, (3) staleness, (4) the item-count ceiling and each
    item's [unit_amount_cents] and [quantity], (5) the bound of
    [total_cents].  A check that throws (a conversion of a value of the
    payload) ends the sequence as well, with the answer of the outer
    [catch].  Hence an event that is more than 7 days old is answered with
    the stale-event rejection whatever its items are. *)
Theorem C2_validation_order (h : Host) (mappings : list Mapping) (payload : value) :
  (forall r,
     first_failure [Ok (object_check payload); Ok (items_ceiling payload);
                    check_cents h payload centsKeys] = Ok (Some r) ->
     fetch h mappings payload = r)
  /\ (forall norm,
        detectAndNormalize h payload = Ok (Some norm) ->
        (forall r,
           first_failure
             [Ok (object_check payload); Ok (items_ceiling payload);
              check_cents h payload centsKeys;
              stale_check h norm; Ok (validate_items norm);
              Ok (validate_total norm)] = Ok (Some r) ->
           fetch h mappings payload = r)
        /\ (basic_validation h payload = Ok None ->
            too_old h norm = Ok true ->
            forall r, validate_items norm = Some r ->
            fetch h mappings payload = json "Event too old" 422)
        /\ (forall e,
              first_failure
                [Ok (object_check payload); Ok (items_ceiling payload);
                 check_cents h payload centsKeys;
                 stale_check h norm; Ok (validate_items norm);
                 Ok (validate_total norm)] = Throw e ->
              fetch h mappings payload = uncaught e))
  /\ (forall e,
        first_failure [Ok (object_check payload); Ok (items_ceiling payload);
                       check_cents h payload centsKeys] = Throw e ->
        fetch h mappings payload = uncaught e).
Proof.
  assert (Hraw : forall r,
             first_failure [Ok (object_check payload); Ok (items_ceiling payload);
                            check_cents h payload centsKeys] = Ok (Some r) ->
             fetch h mappings payload = r).
  { intros r Hr. rewrite <- basic_validation_checks in Hr.
    unfold fetch. now rewrite Hr. }
  assert (Hthrow : forall e,
             first_failure [Ok (object_check payload); Ok (items_ceiling payload);
                            check_cents h payload centsKeys] = Throw e ->
             fetch h mappings payload = uncaught e).
  { intros e He. rewrite <- basic_validation_checks in He.
    unfold fetch. now rewrite He. }
  assert (Hsix : forall norm,
             first_failure
               [Ok (object_check payload); Ok (items_ceiling payload);
                check_cents h payload centsKeys;
                stale_check h norm; Ok (validate_items norm);
                Ok (validate_total norm)]
             = match basic_validation h payload with
               | Ok None =>
                   first_failure [stale_check h norm; Ok (validate_items norm);
                                  Ok (validate_total norm)]
               | c => c
               end).
  { intros norm. rewrite basic_validation_checks. cbn [first_failure].
    destruct (object_check payload); [reflexivity |].
    destruct (items_ceiling payload); [reflexivity |].
    now destruct (check_cents h payload centsKeys) as [[r |] | e]. }
  split; [exact Hraw |]. split; [| exact Hthrow].
  intros norm Hn.
  destruct (after_normalize_checks h mappings norm) as [Hafter Hafter_throw].
  split; [| split].
  - intros r Hr. rewrite Hsix in Hr.
    destruct (basic_validation h payload) as [[r0 |] | e0] eqn:Hb.
    + inversion Hr; subst r0. apply Hraw. now rewrite <- basic_validation_checks.
    + rewrite (fetch_normalized h mappings payload norm Hb Hn). now apply Hafter.
    + discriminate.
  - intros Hb Hold r _.
    rewrite (fetch_normalized h mappings payload norm Hb Hn).
    unfold after_normalize. now rewrite Hold.
  - intros e He. rewrite Hsix in He.
    destruct (basic_validation h payload) as [[r0 |] | e0] eqn:Hb.
    + discriminate.
    + rewrite (fetch_normalized h mappings payload norm Hb Hn).
      now apply Hafter_throw.
    + inversion He; subst e0. apply Hthrow. now rewrite <- basic_validation_checks.
Qed.

(** The 8-day-old shopify-like sample with a quantity of 1001: the order of
    the checks gives the stale-event rejection. *)
Lemma C2_validation_order_witness :
  fetch Example.host [] FetchSamples.stale_with_bad_quantity
  = json "Event too old" 422.
Proof.
  destruct (detectAndNormalize Example.host FetchSamples.stale_with_bad_quantity)
    as [[norm |] | e] eqn:E; try (vm_compute in E; discriminate).
  destruct (C2_validation_order Example.host [] FetchSamples.stale_with_bad_quantity)
    as [_ [Hnorm _]].
  destruct (Hnorm norm E) as [Hfirst _].
  apply Hfirst.
  vm_compute in E. inversion E; subst norm. vm_compute. reflexivity.
Defined.

Lemma too_old_iff (h : Host) (norm : NormalizedEvent) :
  too_old h norm = Ok true
  <-> exists t,
        evtMs h norm = Ok t
        /\ JS.isNaN t = false
        /\ JS.gtb (ageDays h t) MAX_EVENT_AGE_DAYS = true.
Proof.
  unfold too_old. destruct (evtMs h norm) as [t | e]; cbn [bind].
  - split.
    + intros H. injection H as Hb. apply andb_true_iff in Hb.
      rewrite negb_true_iff in Hb. exists t. tauto.
    + intros [t' [Ht [Hnan Hage]]]. inversion Ht; subst t'.
      now rewrite Hnan, Hage.
  - split; [discriminate |]. intros [t [Ht _]]. discriminate.
Qed.

Lemma too_old_at (h : Host) (norm : NormalizedEvent) (t : float) :
  evtMs h norm = Ok t ->
  too_old h norm = Ok (negb (JS.isNaN t) && JS.gtb (ageDays h t) MAX_EVENT_AGE_DAYS).
Proof. intros Ht. unfold too_old. now rewrite Ht. Qed.

Lemma fetch_too_old_inv (h : Host) (mappings : list Mapping) (payload : value) :
  fetch h mappings payload = json "Event too old" 422 ->
  exists norm,
    basic_validation h payload = Ok None
    /\ detectAndNormalize h payload = Ok (Some norm)
    /\ too_old h norm = Ok true.
Proof.
  unfold fetch.
  destruct (basic_validation h payload) as [[r |] | e] eqn:Hb; [| | discriminate].
  { destruct (basic_validation_400 h _ _ Hb) as [msg ->]. discriminate. }
  destruct (detectAndNormalize h payload) as [[norm |] | e]; try discriminate.
  destruct (too_old h norm) as [[|] | e] eqn:Hold;
    [intros _; now exists norm | | discriminate].
  destruct (validate_items norm) as [r |] eqn:Hi.
  { destruct (validate_items_400 _ _ Hi) as [msg ->]. discriminate. }
  destruct (validate_total norm) as [r |] eqn:Ht.
  { destruct (validate_total_400 _ _ Ht) as [msg ->]. discriminate. }
  destruct (bind _ _); discriminate.
Qed.

(** C8: [fetch] answers with the stale-event rejection (422, "Event too
    old") exactly when the payload passes the checks on the raw payload, is
    normalized to an event whose time parses (is not NaN) and whose age,
    [(now - time) / 86400000] days, exceeds 7.  An event whose time does not
    parse is never rejected as stale.  An event whose time is 8 days before
    now gets the stale-event rejection; one whose time is 6 days before now
    does not, and the sample paddle-like payload dated 6 days back is
    stored. *)
Theorem C8_staleness (h : Host) (mappings : list Mapping) (payload : value) :
  (fetch h mappings payload = json "Event too old" 422
   <-> exists norm t,
         basic_validation h payload = Ok None
         /\ detectAndNormalize h payload = Ok (Some norm)
         /\ evtMs h norm = Ok t
         /\ JS.isNaN t = false
         /\ JS.gtb (ageDays h t) 7 = true)
  /\ (forall norm t,
        detectAndNormalize h payload = Ok (Some norm) ->
        evtMs h norm = Ok t ->
        JS.isNaN t = true ->
        too_old h norm = Ok false
        /\ fetch h mappings payload <> json "Event too old" 422)
  /\ (forall norm t,
        basic_validation h payload = Ok None ->
        detectAndNormalize h payload = Ok (Some norm) ->
        evtMs h norm = Ok t ->
        JS.isNaN t = false ->
        Date_now h - t = 8 * 86400000 ->
        fetch h mappings payload = json "Event too old" 422)
  /\ (forall norm t,
        detectAndNormalize h payload = Ok (Some norm) ->
        evtMs h norm = Ok t ->
        Date_now h - t = 6 * 86400000 ->
        too_old h norm = Ok false
        /\ fetch h mappings payload <> json "Event too old" 422)
  /\ (fetch Example.host mappings (FetchSamples.paddle_at Example.iso_8_days_ago)
      = json "Event too old" 422
      /\ exists conv rows,
           fetch Example.host mappings (FetchSamples.paddle_at Example.iso_6_days_ago)
           = stored conv rows
           /\ p_total_cents conv = 1250
           /\ p_event_time conv = Example.iso_6_days_ago).
Proof.
  assert (Hnot_stale : forall norm,
             detectAndNormalize h payload = Ok (Some norm) ->
             too_old h norm = Ok false ->
             fetch h mappings payload <> json "Event too old" 422).
  { intros norm Hn Hold Hf.
    destruct (fetch_too_old_inv _ _ _ Hf) as [norm' [_ [Hn' Hold']]].
    congruence. }
  split; [split |].
  { intros Hf. destruct (fetch_too_old_inv _ _ _ Hf) as [norm [Hb [Hn Hold]]].
    apply too_old_iff in Hold. destruct Hold as [t Hold].
    exists norm, t. tauto. }
  { intros [norm [t [Hb [Hn [Ht [Hnan Hage]]]]]].
    rewrite (fetch_normalized h mappings payload norm Hb Hn).
    unfold after_normalize.
    rewrite (proj2 (too_old_iff h norm)); [reflexivity |].
    exists t. auto. }
  split.
  { intros norm t Hn Ht Hnan.
    assert (Hold : too_old h norm = Ok false)
      by (rewrite (too_old_at h norm t Ht); now rewrite Hnan).
    split; [exact Hold | now apply (Hnot_stale norm)]. }
  split.
  { intros norm t Hb Hn Ht Hnan Hdiff.
    rewrite (fetch_normalized h mappings payload norm Hb Hn).
    unfold after_normalize. rewrite (too_old_at h norm t Ht).
    unfold ageDays. rewrite Hnan, Hdiff. reflexivity. }
  split.
  { intros norm t Hn Ht Hdiff.
    assert (Hold : too_old h norm = Ok false).
    { rewrite (too_old_at h norm t Ht). unfold ageDays. rewrite Hdiff.
      f_equal. apply andb_false_r. }
    split; [exact Hold | now apply (Hnot_stale norm)]. }
  split; [reflexivity |].
  eexists. eexists. split; [vm_compute; reflexivity |]. split; reflexivity.
Qed.

(** C7 (the code departs from it): a custom payload whose item has an object
    for [quantity] is normalized to an item of quantity NaN; the item check
    tests [Number.isInteger(it.quantity || 0)], which NaN passes, and neither
    [NaN < 1] nor [NaN > 1000] holds, so the event is stored with a quantity
    that is not an integer.  Likewise with the words "two" and "free" for
    [quantity] and [unit_amount_cents]: both NaN, both stored. *)
Theorem C7_nan_amounts_are_stored (mappings : list Mapping) :
  (exists conv row,
     fetch Example.host mappings FetchSamples.object_quantity = stored conv [row]
     /\ JS.isNaN (row_quantity row) = true
     /\ JS.Number_isInteger (row_quantity row) = false)
  /\ (exists conv row,
        fetch Example.host mappings FetchSamples.worded_amounts = stored conv [row]
        /\ JS.isNaN (row_quantity row) = true
        /\ JS.isNaN (row_unit_amount_cents row) = true
        /\ JS.Number_isInteger (row_unit_amount_cents row) = false).
Proof.
  split.
  - eexists. eexists. split; [vm_compute; reflexivity |]. split; reflexivity.
  - eexists. eexists. split; [vm_compute; reflexivity |]. repeat split; reflexivity.
Qed.

(** ** What the validation does guarantee *)

Section ComparisonFacts.

Lemma SFcompare_antisym (x y : spec_float) :
  SFcompare x y = option_map CompOpp (SFcompare y x).
Proof.
  destruct x as [sx | sx | | sx mx ex], y as [sy | sy | | sy my ey];
    try reflexivity;
    try (destruct sx; reflexivity);
    try (destruct sy; reflexivity);
    try (destruct sx, sy; reflexivity).
  cbn. destruct sx, sy; try reflexivity;
    rewrite (Z.compare_antisym ex ey), !Pos.compare_cont_spec;
    rewrite (Pos.compare_antisym mx my);
    destruct (ex ?= ey)%Z; cbn; try reflexivity;
    destruct (mx ?= my)%positive; reflexivity.
Qed.

Lemma Prim2SF_nan (x : float) : Prim2SF x = S754_nan <-> is_nan x = true.
Proof.
  unfold Prim2SF. destruct (is_nan x); [tauto |].
  split; [| discriminate].
  destruct (is_zero x); [discriminate |].
  destruct (is_infinity x); [discriminate |].
  destruct (Z.frexp x) as [r e].
  destruct (shr_fexp _ _ _ _ _) as [s e'].
  destruct (shr_m s); discriminate.
Qed.

Lemma is_nan_false (x : float) : is_nan x = false <-> Prim2SF x <> S754_nan.
Proof. rewrite Prim2SF_nan. destruct (is_nan x); split; congruence. Qed.

(** Between two numbers, "not greater" is "less or equal". *)
Lemma not_ltb_leb (a b : float) :
  is_nan a = false -> is_nan b = false -> (b <? a) = false -> (a <=? b) = true.
Proof.
  rewrite !is_nan_false, ltb_spec, leb_spec. unfold SFltb, SFleb.
  rewrite (SFcompare_antisym (Prim2SF a) (Prim2SF b)).
  intros Ha Hb.
  destruct (SFcompare (Prim2SF b) (Prim2SF a)) as [[| |] |] eqn:E; cbn;
    try congruence.
  exfalso. revert E.
  destruct (Prim2SF a), (Prim2SF b); cbn; try congruence;
    repeat match goal with s : bool |- _ => destruct s end; discriminate.
Qed.

Lemma abs_is_nan (x : float) : is_nan (abs x) = is_nan x.
Proof.
  destruct (is_nan x) eqn:E.
  - apply Prim2SF_nan. rewrite abs_spec. apply Prim2SF_nan in E. now rewrite E.
  - apply is_nan_false. apply is_nan_false in E. rewrite abs_spec.
    now destruct (Prim2SF x).
Qed.

Lemma is_zero_Prim2SF (x : float) :
  is_zero x = true -> exists s, Prim2SF x = S754_zero s.
Proof.
  unfold is_zero. rewrite eqb_spec. unfold SFeqb.
  change (Prim2SF zero) with (S754_zero false).
  destruct (Prim2SF x) as [s | s | | s m e]; cbn; try discriminate.
  - eauto.
  - destruct s; discriminate.
  - destruct s; discriminate.
Qed.

Lemma isInteger_not_nan (x : float) :
  JS.Number_isInteger x = true -> is_nan x = false.
Proof.
  intros H. apply is_nan_false. intros E.
  unfold JS.Number_isInteger in H. rewrite E in H. discriminate.
Qed.

Lemma zero_below_one (x : float) : is_zero x = true -> (x <? 1) = true.
Proof.
  intros H. destruct (is_zero_Prim2SF x H) as [s E].
  rewrite ltb_spec, E. reflexivity.
Qed.

End ComparisonFacts.

Lemma not_bad_cents (v : float) : bad_cents v = false -> cents_ok v.
Proof.
  unfold bad_cents, cents_ok, JS.gtb, JS.Math_abs.
  rewrite orb_false_iff, negb_false_iff. intros [Hint Hgt].
  split; [exact Hint |].
  apply not_ltb_leb; [| reflexivity | exact Hgt].
  rewrite abs_is_nan. now apply isInteger_not_nan.
Qed.

Lemma falsy_num_cases (x : float) :
  JS.truthy_num x = false -> is_zero x = true \/ is_nan x = true.
Proof.
  unfold JS.truthy_num. rewrite negb_false_iff, orb_true_iff. tauto.
Qed.

Lemma zero_cents_ok (x : float) : is_zero x = true -> cents_ok x.
Proof.
  intros H. destruct (is_zero_Prim2SF x H) as [s E]. split.
  - unfold JS.Number_isInteger. now rewrite E.
  - unfold JS.Math_abs. rewrite leb_spec, abs_spec, E. reflexivity.
Qed.

Lemma check_item_bounds (it : NormalizedItem) :
  check_item it = None ->
  (JS.isNaN (unit_amount_cents it) = true \/ cents_ok (unit_amount_cents it))
  /\ (JS.isNaN (quantity it) = true \/ quantity_ok (quantity it)).
Proof.
  unfold check_item.
  destruct (negb (JS.Number_isInteger (JS.num_or (unit_amount_cents it) 0))
            || JS.gtb (JS.Math_abs (unit_amount_cents it)) MAX_CENTS) eqn:Hu;
    [discriminate |].
  destruct (negb (JS.Number_isInteger (JS.num_or (quantity it) 0))
            || (quantity it <? 1) || JS.gtb (quantity it) 1000) eqn:Hq;
    [discriminate |].
  intros _.
  apply orb_false_iff in Hu. destruct Hu as [Hu1 Hu2].
  apply orb_false_iff in Hq. destruct Hq as [Hq12 Hq3].
  apply orb_false_iff in Hq12. destruct Hq12 as [Hq1 Hq2].
  apply negb_false_iff in Hu1, Hq1. unfold JS.num_or in Hu1, Hq1.
  split.
  - destruct (JS.truthy_num (unit_amount_cents it)) eqn:Ht.
    + right. apply not_bad_cents. unfold bad_cents. now rewrite Hu1, Hu2.
    + destruct (falsy_num_cases _ Ht) as [Hz | Hn];
        [right; now apply zero_cents_ok | now left].
  - destruct (JS.truthy_num (quantity it)) eqn:Ht.
    + right. pose proof (isInteger_not_nan _ Hq1) as Hnn.
      split; [exact Hq1 |]. split; apply not_ltb_leb;
        solve [reflexivity | assumption].
    + destruct (falsy_num_cases _ Ht) as [Hz | Hn]; [| now left].
      rewrite (zero_below_one _ Hz) in Hq2. discriminate.
Qed.

Lemma check_items_all (its : list NormalizedItem) :
  check_items its = None -> forall it, In it its -> check_item it = None.
Proof.
  induction its as [| x its IH]; cbn; [intros _ it [] |].
  destruct (check_item x) eqn:Hx; [discriminate |].
  intros H it [<- | Hin]; [exact Hx | now apply IH].
Qed.

Lemma validate_items_bounds (norm : NormalizedEvent) :
  validate_items norm = None ->
  (List.length (items norm) <= MAX_ITEMS)%nat
  /\ forall it, In it (items norm) -> check_item it = None.
Proof.
  unfold validate_items. destruct (items norm) as [| x its] eqn:E.
  - intros _. split; [cbn; unfold MAX_ITEMS; lia | intros it []].
  - destruct (MAX_ITEMS <? List.length (x :: its))%nat eqn:Hlen; [discriminate |].
    apply Nat.ltb_ge in Hlen. intros H. split; [exact Hlen |].
    now apply check_items_all.
Qed.

Lemma check_cents_all (h : Host) (payload : value) (keys : list string) :
  check_cents h payload keys = Ok None ->
  forall k, In k keys -> not_nullish (get payload k) = true ->
  exists v, ToNumber h (get payload k) = Ok v /\ bad_cents v = false.
Proof.
  induction keys as [| k0 keys IH]; cbn; [intros _ k [] |].
  destruct (not_nullish (get payload k0)) eqn:E0.
  - destruct (ToNumber h (get payload k0)) as [v0 | e] eqn:Ev; cbn; [| discriminate].
    destruct (bad_cents v0) eqn:Eb; [discriminate |].
    intros H k [<- | Hin] Hnn; [now exists v0 | now apply IH].
  - intros H k [<- | Hin] Hnn; [congruence | now apply IH].
Qed.

Lemma truthy_not_nullish (v : value) : truthy v = true -> not_nullish v = true.
Proof. destruct v; cbn; congruence. Qed.

(** After the basic validation, a cents field read as [Number(p[k] || 0)] is
    an integer within the cap. *)
Lemma cents_field_ok (h : Host) (payload : value) (k : string) :
  basic_validation h payload = Ok None -> In k centsKeys ->
  exists v, ToNumber h (get payload k ||| VNum 0) = Ok v /\ cents_ok v.
Proof.
  intros Hb Hk.
  assert (Hc : check_cents h payload centsKeys = Ok None).
  { rewrite basic_validation_checks in Hb. cbn [first_failure] in Hb.
    destruct (object_check payload); [discriminate |].
    destruct (items_ceiling payload); [discriminate |].
    now destruct (check_cents h payload centsKeys) as [[r |] | e]. }
  destruct (truthy (get payload k)) eqn:Ht.
  - rewrite or_else_truthy by exact Ht.
    destruct (check_cents_all h payload centsKeys Hc k Hk
                (truthy_not_nullish _ Ht)) as [v [Hv Hbad]].
    exists v. split; [exact Hv | now apply not_bad_cents].
  - rewrite or_else_falsy by exact Ht. exists 0. repeat split; reflexivity.
Qed.

(** Only [normalizeCustom] fills the three optional cents fields. *)
Lemma optional_cents_source (h : Host) (payload : value) (norm : NormalizedEvent) :
  detectAndNormalize h payload = Ok (Some norm) ->
  (subtotal_cents norm = None
   \/ exists v, ToNumber h (get payload "subtotal_cents" ||| VNum 0) = Ok v
                /\ subtotal_cents norm = Some v)
  /\ (discount_cents norm = None
      \/ exists v, ToNumber h (get payload "discount_cents" ||| VNum 0) = Ok v
                   /\ discount_cents norm = Some v)
  /\ (tax_cents norm = None
      \/ exists v, ToNumber h (get payload "tax_cents" ||| VNum 0) = Ok v
                   /\ tax_cents norm = Some v).
Proof.
  rewrite detectAndNormalize_detect.
  destruct (detect payload); cbn [normalizer]; intros H;
    try discriminate; bind_inv H ev Hev; inversion H; subst ev; clear H.
  - unfold normalizeStripeLoose in Hev.
    bind_inv Hev iso Hiso. bind_inv Hev total Htotal. bind_inv Hev cur Hcur.
    inversion Hev; subst; cbn; tauto.
  - unfold normalizePaddleLoose in Hev.
    bind_inv Hev cur Hcur. bind_inv Hev raw Hraw. bind_inv Hev eid Heid.
    inversion Hev; subst; cbn; tauto.
  - unfold normalizeLemonLoose in Hev.
    bind_inv Hev cur Hcur. bind_inv Hev total Htotal.
    inversion Hev; subst; cbn; tauto.
  - unfold normalizeShopifyLoose in Hev.
    bind_inv Hev cur Hcur. bind_inv Hev total Htotal. bind_inv Hev its Hits.
    bind_inv Hev eid Heid.
    inversion Hev; subst; cbn; tauto.
  - unfold normalizeCustom in Hev.
    bind_inv Hev cur Hcur. bind_inv Hev sub Hsub. bind_inv Hev dis Hdis.
    bind_inv Hev tax Htax. bind_inv Hev total Htotal. bind_inv Hev its Hits.
    inversion Hev; subst; cbn [subtotal_cents discount_cents tax_cents].
    repeat split; right; eauto.
Qed.

Lemma fetch_stored_inv (h : Host) (mappings : list Mapping) (payload : value)
    (conv : Conversion) (rows : list ItemRow) :
  fetch h mappings payload = stored conv rows ->
  exists norm iso,
    basic_validation h payload = Ok None
    /\ detectAndNormalize h payload = Ok (Some norm)
    /\ too_old h norm = Ok false
    /\ validate_items norm = None
    /\ validate_total norm = None
    /\ conv = conversion_of h norm iso
    /\ rows = map (row_of norm) (attributed_items norm mappings).
Proof.
  unfold fetch.
  destruct (basic_validation h payload) as [[r |] | e] eqn:Hb; [| | discriminate].
  { destruct (basic_validation_400 h _ _ Hb) as [msg ->]. discriminate. }
  destruct (detectAndNormalize h payload) as [[norm |] | e]; try discriminate.
  destruct (too_old h norm) as [[|] | e] eqn:Hold; try discriminate.
  destruct (validate_items norm) as [r |] eqn:Hi.
  { destruct (validate_items_400 _ _ Hi) as [msg ->]. discriminate. }
  destruct (validate_total norm) as [r |] eqn:Ht.
  { destruct (validate_total_400 _ _ Ht) as [msg ->]. discriminate. }
  destruct (bind _ _) as [iso | e]; [| discriminate].
  intros H. inversion H. exists norm, iso. tauto.
Qed.

Lemma attributed_items_source (norm : NormalizedEvent) (mappings : list Mapping) :
  (List.length (attributed_items norm mappings)
   <= Nat.max 1 (List.length (items norm)))%nat
  /\ forall mi, In mi (attributed_items norm mappings) ->
       (exists it, In it (items norm)
                   /\ quantity (item mi) = quantity it
                   /\ unit_amount_cents (item mi) = unit_amount_cents it)
       \/ (quantity (item mi) = 1 /\ unit_amount_cents (item mi) = total_cents norm).
Proof.
  destruct (items norm) as [| x its] eqn:E.
  - unfold attributed_items. rewrite E. cbn [mapItemsToProducts].
    destruct mappings as [| m ms]; [split; [cbn; lia | intros mi []] |].
    destruct (find is_primary (m :: ms)) as [primary |].
    + split; [cbn; lia |]. intros mi [<- | []]. right. split; reflexivity.
    + split; [cbn; lia | intros mi []].
  - rewrite attributed_items_nonempty by (rewrite E; discriminate).
    rewrite E. split; [rewrite length_map; lia |].
    intros mi Hin. apply in_map_iff in Hin. destruct Hin as [it [<- Hit]].
    left. exists it. repeat split; assumption.
Qed.

(** C6: when the normalizer supplied no item and the snapshot has a primary
    mapping, exactly one item is made for the store: quantity 1, the event's
    [total_cents] as amount, the (first) primary mapping's product.  When the
    normalizer supplied items, the items for the store are the mapped input
    items and nothing else.  These items are the ones [fetch] turns into the
    rows it stores. *)
Theorem C6_fallback_attribution (norm : NormalizedEvent) (mappings : list Mapping) :
  (items norm = [] ->
   forall m, In m mappings -> is_primary m = true ->
   exists primary synth,
     find is_primary mappings = Some primary
     /\ In primary mappings /\ is_primary primary = true
     /\ attributed_items norm mappings = [synth]
     /\ quantity (item synth) = 1
     /\ unit_amount_cents (item synth) = total_cents norm
     /\ item_product_id synth = Some (product_id primary))
  /\ (items norm <> [] ->
      attributed_items norm mappings
      = map (mapItem mappings (currency_or_USD (ev_currency norm))) (items norm)
      /\ List.length (attributed_items norm mappings) = List.length (items norm))
  /\ (forall h payload conv rows,
        detectAndNormalize h payload = Ok (Some norm) ->
        fetch h mappings payload = stored conv rows ->
        rows = map (row_of norm) (attributed_items norm mappings)).
Proof.
  split; [| split].
  - intros Hnil m Hin Hprim.
    destruct (find_exists is_primary mappings m Hin Hprim) as [primary [Hf [Hp1 Hp2]]].
    unfold attributed_items. rewrite Hnil, Hf. cbn.
    destruct mappings as [| m0 ms]; [contradiction |].
    eexists primary, _. repeat (split; [eassumption || reflexivity |]). reflexivity.
  - intros Hne. rewrite attributed_items_nonempty by assumption.
    split; [reflexivity | apply length_map].
  - intros h payload conv rows Hn Hf.
    destruct (fetch_stored_inv _ _ _ _ _ Hf) as [norm' [iso [_ [Hn' [_ [_ [_ [_ ->]]]]]]]].
    rewrite Hn in Hn'. now inversion Hn'.
Qed.

(** A stripe-like event carries no item: with the mappings "A" and primary
    "B", its total of 4900 is attributed to "B" in one item of quantity 1. *)
Lemma C6_fallback_attribution_witness :
  exists norm synth,
    detectAndNormalize Example.host NormalizerSamples.checkout_completed = Ok (Some norm)
    /\ items norm = []
    /\ attributed_items norm [Samples.product_A [1000]; Samples.primary_B] = [synth]
    /\ quantity (item synth) = 1
    /\ unit_amount_cents (item synth) = 4900
    /\ item_product_id synth = Some "B".
Proof.
  destruct (detectAndNormalize Example.host NormalizerSamples.checkout_completed)
    as [[norm |] | e] eqn:E; try (vm_compute in E; discriminate).
  assert (Hitems : items norm = [] /\ total_cents norm = 4900).
  { vm_compute in E. inversion E; subst norm. split; reflexivity. }
  destruct Hitems as [Hnil Htotal].
  destruct (C6_fallback_attribution norm [Samples.product_A [1000]; Samples.primary_B])
    as [Hfallback _].
  destruct (Hfallback Hnil Samples.primary_B (or_intror (or_introl eq_refl)) eq_refl)
    as [primary [synth [Hfind [_ [_ [Hattr [Hq [Hu Hp]]]]]]]].
  exists norm, synth. split; [reflexivity |]. split; [exact Hnil |].
  split; [exact Hattr |]. split; [exact Hq |].
  split; [now rewrite Hu |].
  cbn in Hfind. inversion Hfind; subst primary. exact Hp.
Defined.

(** Every event [fetch] hands to the store has its four cents fields integers
    of absolute value at most 100,000,000 and at most 100 item rows; each
    row's [unit_amount_cents] is such an integer or NaN, and each row's
    [quantity] is an integer between 1 and 1000 or NaN. *)
Theorem stored_events_are_bounded_up_to_NaN (h : Host) (mappings : list Mapping)
    (payload : value) (conv : Conversion) (rows : list ItemRow) :
  fetch h mappings payload = stored conv rows ->
  cents_ok (p_total_cents conv)
  /\ cents_ok (p_subtotal_cents conv)
  /\ cents_ok (p_discount_cents conv)
  /\ cents_ok (p_tax_cents conv)
  /\ (List.length rows <= 100)%nat
  /\ forall row, In row rows ->
       (JS.isNaN (row_unit_amount_cents row) = true
        \/ cents_ok (row_unit_amount_cents row))
       /\ (JS.isNaN (row_quantity row) = true \/ quantity_ok (row_quantity row)).
Proof.
  intros Hf.
  destruct (fetch_stored_inv _ _ _ _ _ Hf)
    as [norm [iso [Hb [Hn [_ [Hi [Ht [-> ->]]]]]]]].
  assert (Htotal : cents_ok (total_cents norm)).
  { apply not_bad_cents. unfold validate_total in Ht.
    now destruct (bad_cents (total_cents norm)). }
  destruct (optional_cents_source h payload norm Hn) as [Hs [Hd Hx]].
  destruct (validate_items_bounds norm Hi) as [Hlen Hall].
  destruct (attributed_items_source norm mappings) as [Hlen' Hsrc].
  cbn [conversion_of p_total_cents p_subtotal_cents p_discount_cents p_tax_cents].
  split; [exact Htotal |].
  assert (Hfield : forall k v,
             In k centsKeys -> ToNumber h (get payload k ||| VNum 0) = Ok v ->
             cents_ok v).
  { intros k v Hk Hv. destruct (cents_field_ok h payload k Hb Hk) as [v' [Hv' Hok]].
    rewrite Hv in Hv'. now inversion Hv'. }
  split.
  { destruct Hs as [-> | [v [Hv ->]]]; cbn; [split; reflexivity |].
    apply (Hfield "subtotal_cents"); [cbn; tauto | exact Hv]. }
  split.
  { destruct Hd as [-> | [v [Hv ->]]]; cbn; [split; reflexivity |].
    apply (Hfield "discount_cents"); [cbn; tauto | exact Hv]. }
  split.
  { destruct Hx as [-> | [v [Hv ->]]]; cbn; [split; reflexivity |].
    apply (Hfield "tax_cents"); [cbn; tauto | exact Hv]. }
  split.
  { rewrite length_map. unfold MAX_ITEMS in Hlen. lia. }
  intros row Hrow. apply in_map_iff in Hrow. destruct Hrow as [mi [<- Hmi]].
  cbn [row_of row_unit_amount_cents row_quantity].
  destruct (Hsrc mi Hmi) as [[it [Hit [-> ->]]] | [-> ->]].
  - apply check_item_bounds. now apply Hall.
  - split; right; [exact Htotal | repeat split; reflexivity].
Qed.

Lemma stored_events_are_bounded_witness :
  exists conv rows,
    fetch Example.host [] readme_payload = stored conv rows
    /\ cents_ok (p_total_cents conv)
    /\ (List.length rows <= 100)%nat.
Proof.
  destruct (fetch Example.host [] readme_payload) as [msg st | e | conv rows] eqn:E;
    try (vm_compute in E; discriminate).
  exists conv, rows. split; [reflexivity |].
  destruct (stored_events_are_bounded_up_to_NaN _ _ _ _ _ E) as [Ht [_ [_ [_ [Hl _]]]]].
  split; assumption.
Defined.

(** The README's test request, sent to a node with no product mapping: one
    event with [total_cents] 9900 and one item row, without a product. *)
Theorem readme_request_is_stored :
  exists conv row,
    fetch Example.host [] readme_payload = stored conv [row]
    /\ p_total_cents conv = 9900
    /\ p_provider_event_id conv = VStr "order_123"
    /\ row_quantity row = 1
    /\ row_unit_amount_cents row = 9900
    /\ row_product_id row = None.
Proof.
  eexists. eexists. split; [vm_compute; reflexivity |].
  repeat split; reflexivity.
Qed.

(** ** Random identifiers *)

Lemma byte_hex_round_trip (b : Byte.byte) :
  decode_id (padStart2 (toString16 b)) = Some [b]
  /\ String.length (padStart2 (toString16 b)) = 2%nat
  /\ forallb is_lower_hex (list_ascii_of_string (padStart2 (toString16 b))) = true.
Proof. destruct b; vm_compute; repeat split. Qed.

Lemma padded_byte_shape (b : Byte.byte) :
  exists c1 c2, padStart2 (toString16 b) = String c1 (String c2 "").
Proof.
  destruct (byte_hex_round_trip b) as [_ [Hlen _]].
  destruct (padStart2 (toString16 b)) as [| c1 [| c2 [| c3 s]]]; try discriminate.
  now exists c1, c2.
Qed.

Lemma decode_id_cons (b : Byte.byte) (s : string) :
  decode_id (padStart2 (toString16 b) ++ s)
  = match decode_id s with
    | Some bs => Some (b :: bs)
    | None => None
    end.
Proof.
  destruct (byte_hex_round_trip b) as [Hdec _].
  destruct (padded_byte_shape b) as [c1 [c2 E]]. rewrite E in *.
  cbn [decode_id append] in Hdec |- *.
  destruct (hex_value c1) as [h1 |]; [| discriminate Hdec].
  destruct (hex_value c2) as [h2 |]; [| discriminate Hdec].
  destruct (Byte.of_N (16 * h1 + h2)) as [b' |]; [| discriminate Hdec].
  inversion Hdec; subst. now destruct (decode_id s).
Qed.

Lemma concat_empty_cons (x : string) (l : list string) :
  String.concat "" (x :: l) = x ++ String.concat "" l.
Proof.
  destruct l as [| y l]; cbn.
  - induction x as [| c x IH]; cbn; [reflexivity | now rewrite <- IH].
  - reflexivity.
Qed.

Lemma cryptoRandomId_of_cons (b : Byte.byte) (arr : list Byte.byte) :
  cryptoRandomId_of (b :: arr) = padStart2 (toString16 b) ++ cryptoRandomId_of arr.
Proof. unfold cryptoRandomId_of. cbn [map]. apply concat_empty_cons. Qed.

Lemma decode_cryptoRandomId_of (arr : list Byte.byte) :
  decode_id (cryptoRandomId_of arr) = Some arr.
Proof.
  induction arr as [| b arr IH]; [reflexivity |].
  now rewrite cryptoRandomId_of_cons, decode_id_cons, IH.
Qed.

Lemma cryptoRandomId_of_length (arr : list Byte.byte) :
  String.length (cryptoRandomId_of arr) = (2 * List.length arr)%nat.
Proof.
  induction arr as [| b arr IH]; [reflexivity |].
  rewrite cryptoRandomId_of_cons.
  destruct (padded_byte_shape b) as [c1 [c2 ->]]. cbn. rewrite IH. lia.
Qed.

Lemma cryptoRandomId_of_hex (arr : list Byte.byte) :
  forallb is_lower_hex (list_ascii_of_string (cryptoRandomId_of arr)) = true.
Proof.
  induction arr as [| b arr IH]; [reflexivity |].
  rewrite cryptoRandomId_of_cons.
  destruct (byte_hex_round_trip b) as [_ [_ Hhex]].
  destruct (padded_byte_shape b) as [c1 [c2 E]]. rewrite E in *.
  cbn in Hhex |- *. rewrite IH. now rewrite !andb_true_r in *.
Qed.

(** The identifier made of the bytes [arr] has two lower-case hexadecimal
    digits a byte, so 32 for the 16 bytes drawn, and determines the bytes:
    two arrays with the same identifier are equal. *)
Theorem cryptoRandomId_is_faithful_hex (arr : list Byte.byte) :
  String.length (cryptoRandomId_of arr) = (2 * List.length arr)%nat
  /\ forallb is_lower_hex (list_ascii_of_string (cryptoRandomId_of arr)) = true
  /\ (List.length arr = 16%nat -> String.length (cryptoRandomId_of arr) = 32%nat)
  /\ forall arr', cryptoRandomId_of arr = cryptoRandomId_of arr' -> arr = arr'.
Proof.
  split; [apply cryptoRandomId_of_length |].
  split; [apply cryptoRandomId_of_hex |]. split.
  - intros H16. rewrite cryptoRandomId_of_length, H16. reflexivity.
  - intros arr' Heq.
    pose proof (decode_cryptoRandomId_of arr) as H1.
    rewrite Heq, decode_cryptoRandomId_of in H1. now inversion H1.
Qed.

(** ** The route *)

Lemma split_slash_not_nil (s : string) : split_slash s <> [].
Proof.
  induction s as [| c s IH]; cbn; [discriminate |].
  destruct (Ascii.eqb c "/"); [discriminate |].
  destruct (split_slash s); discriminate.
Qed.

Lemma split_slash_segment (a : string) :
  no_slash a = true -> split_slash a = [a].
Proof.
  induction a as [| c a IH]; cbn; [reflexivity |].
  intros H. apply andb_prop in H. destruct H as [Hc Ha].
  apply negb_true_iff in Hc. rewrite Hc, (IH Ha). reflexivity.
Qed.

Lemma split_slash_app (a r : string) :
  no_slash a = true -> split_slash (a ++ String "/" r) = a :: split_slash r.
Proof.
  induction a as [| c a IH]; cbn; [reflexivity |].
  intros H. apply andb_prop in H. destruct H as [Hc Ha].
  apply negb_true_iff in Hc. rewrite Hc, (IH Ha). reflexivity.
Qed.

Lemma split_slash_no_slash (s : string) :
  Forall (fun x => no_slash x = true) (split_slash s).
Proof.
  induction s as [| c s IH]; cbn; [repeat constructor |].
  destruct (Ascii.eqb c "/") eqn:Hc; [constructor; [reflexivity | exact IH] |].
  destruct (split_slash s) as [| x xs]; [repeat constructor; cbn; now rewrite Hc |].
  inversion IH; subst. constructor; [cbn; now rewrite Hc | assumption].
Qed.

Lemma filter_Boolean_segments (s : string) :
  Forall segment (filter_Boolean (split_slash s)).
Proof.
  unfold filter_Boolean. apply Forall_forall. intros x Hx.
  apply filter_In in Hx. destruct Hx as [Hin Hne].
  split.
  - intros ->. discriminate.
  - pose proof (split_slash_no_slash s) as H.
    rewrite Forall_forall in H. now apply H.
Qed.

Lemma filter_Boolean_trailing_slash (s : string) :
  filter_Boolean (split_slash (s ++ "/")) = filter_Boolean (split_slash s).
Proof.
  induction s as [| c s IH]; [reflexivity |].
  cbn [append split_slash].
  destruct (Ascii.eqb c "/"); [cbn; exact IH |].
  pose proof (split_slash_not_nil (s ++ "/")) as H1.
  pose proof (split_slash_not_nil s) as H2.
  destruct (split_slash (s ++ "/")) as [| x xs] eqn:E1; [contradiction |].
  destruct (split_slash s) as [| y ys] eqn:E2; [contradiction |].
  unfold filter_Boolean in *. cbn [filter String.eqb negb] in IH |- *.
  destruct s as [| c' s'].
  - cbn in E1, E2. inversion E1; inversion E2; subst. reflexivity.
  - cbn [append split_slash] in E1, E2.
    destruct (Ascii.eqb c' "/").
    + inversion E1; inversion E2; subst. cbn in IH. now rewrite IH.
    + destruct (split_slash (s' ++ "/")) as [| x' xs'] eqn:E1';
        [exfalso; now apply (split_slash_not_nil (s' ++ "/")) |].
      destruct (split_slash s') as [| y' ys'] eqn:E2';
        [exfalso; now apply (split_slash_not_nil s') |].
      inversion E1; inversion E2; subst. cbn in IH. inversion IH. reflexivity.
Qed.

Lemma segment_not_empty (s : string) : segment s -> String.eqb s "" = false.
Proof. intros [Hne _]. now apply String.eqb_neq. Qed.

(** The route is read off the pathname of the parsed URL,
    [new URL(req.url).pathname], taken here as the parser returns it (dot
    segments resolved, characters percent-encoded).  A pathname
    [/webhook/w/n/t] of three segments gives those segments; whatever
    pathname the route accepts gives three segments (not empty, without
    "/"); and a slash more at the start or the end of the pathname changes
    nothing. *)
Theorem route_of_pathname (w n t : string) :
  (segment w -> segment n -> segment t ->
   route ("/webhook/" ++ w ++ "/" ++ n ++ "/" ++ t) = Some (w, n, t))
  /\ (forall p, route p = Some (w, n, t) -> segment w /\ segment n /\ segment t)
  /\ (forall p, route (p ++ "/") = route p /\ route (String "/" p) = route p).
Proof.
  split; [| split].
  - intros Hw Hn Ht. unfold route.
    change ("/webhook/" ++ w ++ "/" ++ n ++ "/" ++ t)
      with (String "/" ("webhook" ++ String "/" (w ++ String "/" (n ++ String "/" t)))).
    cbn [split_slash Ascii.eqb Bool.eqb].
    rewrite (split_slash_app "webhook") by reflexivity.
    rewrite (split_slash_app w) by apply Hw.
    rewrite (split_slash_app n) by apply Hn.
    rewrite (split_slash_segment t) by apply Ht.
    unfold filter_Boolean. cbn [filter].
    rewrite (segment_not_empty w Hw), (segment_not_empty n Hn), (segment_not_empty t Ht).
    reflexivity.
  - intros p Hp. unfold route in Hp.
    pose proof (filter_Boolean_segments p) as Hseg.
    destruct (filter_Boolean (split_slash p)) as [| a [| b [| c [| d [| e l]]]]];
      try discriminate.
    destruct (String.eqb a "webhook"); [| discriminate].
    inversion Hp; subst.
    inversion Hseg as [| ? ? _ H1]; subst.
    inversion H1 as [| ? ? Hw H2]; subst.
    inversion H2 as [| ? ? Hn H3]; subst.
    inversion H3 as [| ? ? Ht _]; subst. tauto.
  - intros p. split.
    + unfold route. now rewrite filter_Boolean_trailing_slash.
    + reflexivity.
Qed.

(** ** The rate limiter *)

Section LimiterFacts.

Lemma Map_get_set_same (key : string) (v : Bucket) (m : Buckets) :
  Map_get key (Map_set key v m) = Some v.
Proof.
  induction m as [| [k v'] m IH]; cbn.
  - now rewrite String.eqb_refl.
  - destruct (String.eqb key k) eqn:E; cbn; rewrite E; [reflexivity | exact IH].
Qed.

Lemma Map_get_set_other (key key' : string) (v : Bucket) (m : Buckets) :
  key' <> key -> Map_get key' (Map_set key v m) = Map_get key' m.
Proof.
  intros Hne. induction m as [| [k v'] m IH]; cbn.
  - apply String.eqb_neq in Hne. now rewrite Hne.
  - destruct (String.eqb key k) eqn:E; cbn.
    + apply String.eqb_eq in E. subst k.
      apply String.eqb_neq in Hne. now rewrite Hne.
    + now rewrite IH.
Qed.

Lemma Map_set_length (key : string) (v : Bucket) (m : Buckets) :
  List.length (Map_set key v m)
  = match Map_get key m with
    | Some _ => List.length m
    | None => S (List.length m)
    end.
Proof.
  induction m as [| [k v'] m IH]; cbn; [reflexivity |].
  destruct (String.eqb key k); cbn; [reflexivity |].
  rewrite IH. now destruct (Map_get key m).
Qed.

Lemma append_length (a b : string) :
  String.length (a ++ b) = (String.length a + String.length b)%nat.
Proof. induction a as [| c a IH]; cbn; [reflexivity | now rewrite IH]. Qed.

Lemma append_cancel_r (a b s : string) : a ++ s = b ++ s -> a = b.
Proof.
  revert b. induction a as [| c a IH]; intros [| d b] H; cbn in H.
  - reflexivity.
  - apply (f_equal String.length) in H. cbn in H. rewrite append_length in H. lia.
  - apply (f_equal String.length) in H. cbn in H. rewrite append_length in H. lia.
  - inversion H. f_equal. now apply IH.
Qed.

Lemma bucket_key_inj (h : Host) (a b : string) :
  bucket_key h a = bucket_key h b -> a = b.
Proof. unfold bucket_key. apply append_cancel_r. Qed.

(** One limiter, for any ceiling: what [allowToken] and [allowIp] share. *)
Lemma allowToken_spec (h : Host) (token : string) (m : Buckets) :
  fst (allowToken h token m)
  = (count_of (bucket_key h token) m + 1 <=? MAX_EVENTS_PER_MIN)%nat
  /\ count_of (bucket_key h token) (snd (allowToken h token m))
     = (count_of (bucket_key h token) m + 1)%nat.
Proof.
  unfold allowToken, count_of, next_count; cbn [fst snd].
  rewrite Map_get_set_same. cbn [count].
  now destruct (Map_get (bucket_key h token) m).
Qed.

Lemma allowIp_spec (h : Host) (ip : string) (m : Buckets) :
  fst (allowIp h ip m)
  = (count_of (bucket_key h ip) m + 1 <=? MAX_EVENTS_PER_MIN_PER_IP)%nat
  /\ count_of (bucket_key h ip) (snd (allowIp h ip m))
     = (count_of (bucket_key h ip) m + 1)%nat.
Proof.
  unfold allowIp, count_of, next_count; cbn [fst snd].
  rewrite Map_get_set_same. cbn [count].
  now destruct (Map_get (bucket_key h ip) m).
Qed.

Lemma after_calls_count (allow : Buckets -> bool * Buckets)
    (key : string) (n : nat) (m : Buckets) :
  (forall m', count_of key (snd (allow m')) = (count_of key m' + 1)%nat) ->
  count_of key (after_calls allow n m) = (count_of key m + n)%nat.
Proof.
  intros Hstep. revert m. induction n as [| n IH]; intros m; cbn.
  - lia.
  - rewrite IH, Hstep. lia.
Qed.

End LimiterFacts.

(** Within one minute, a token that already has [c] requests on record is
    admitted on its next request exactly when [c + 1 <= 300]; every request,
    admitted or not, is recorded.  So after [n] further requests the next
    one is admitted exactly when [c + n + 1 <= 300]: from a fresh window the
    first 300 requests pass and the 301st and all later ones do not. *)
Theorem allowToken_window (h : Host) (token : string) (m : Buckets) (n : nat) :
  count_of (bucket_key h token) (after_calls (allowToken h token) n m)
  = (count_of (bucket_key h token) m + n)%nat
  /\ fst (allowToken h token (after_calls (allowToken h token) n m))
     = (count_of (bucket_key h token) m + n + 1 <=? 300)%nat
  /\ (Map_get (bucket_key h token) m = None ->
      fst (allowToken h token (after_calls (allowToken h token) n m)) = true
      <-> (n < 300)%nat).
Proof.
  assert (Hc : count_of (bucket_key h token) (after_calls (allowToken h token) n m)
               = (count_of (bucket_key h token) m + n)%nat).
  { apply after_calls_count. intros m'. apply allowToken_spec. }
  assert (Hv : fst (allowToken h token (after_calls (allowToken h token) n m))
               = (count_of (bucket_key h token) m + n + 1 <=? 300)%nat).
  { rewrite (proj1 (allowToken_spec h token _)), Hc. reflexivity. }
  split; [exact Hc |]. split; [exact Hv |].
  intros Hnone. rewrite Hv. unfold count_of. rewrite Hnone.
  rewrite Nat.leb_le. lia.
Qed.

(** The same for a client address, with the ceiling 120. *)
Theorem allowIp_window (h : Host) (ip : string) (m : Buckets) (n : nat) :
  count_of (bucket_key h ip) (after_calls (allowIp h ip) n m)
  = (count_of (bucket_key h ip) m + n)%nat
  /\ fst (allowIp h ip (after_calls (allowIp h ip) n m))
     = (count_of (bucket_key h ip) m + n + 1 <=? 120)%nat
  /\ (Map_get (bucket_key h ip) m = None ->
      fst (allowIp h ip (after_calls (allowIp h ip) n m)) = true
      <-> (n < 120)%nat).
Proof.
  assert (Hc : count_of (bucket_key h ip) (after_calls (allowIp h ip) n m)
               = (count_of (bucket_key h ip) m + n)%nat).
  { apply after_calls_count. intros m'. apply allowIp_spec. }
  assert (Hv : fst (allowIp h ip (after_calls (allowIp h ip) n m))
               = (count_of (bucket_key h ip) m + n + 1 <=? 120)%nat).
  { rewrite (proj1 (allowIp_spec h ip _)), Hc. reflexivity. }
  split; [exact Hc |]. split; [exact Hv |].
  intros Hnone. rewrite Hv. unfold count_of. rewrite Hnone.
  rewrite Nat.leb_le. lia.
Qed.

(** A request of one token leaves every other bucket as it was: the buckets
    of other tokens in the same minute, and the buckets of earlier minutes.
    No bucket is ever removed: the map keeps every key it had and grows by
    one entry when the key is new. *)
Theorem allowToken_touches_one_bucket (h : Host) (token : string) (m : Buckets) :
  (forall other, other <> token ->
     Map_get (bucket_key h other) (snd (allowToken h token m))
     = Map_get (bucket_key h other) m)
  /\ (forall key, key <> bucket_key h token ->
        Map_get key (snd (allowToken h token m)) = Map_get key m)
  /\ (forall key, Map_get key m <> None ->
        Map_get key (snd (allowToken h token m)) <> None)
  /\ List.length (snd (allowToken h token m))
     = match Map_get (bucket_key h token) m with
       | Some _ => List.length m
       | None => S (List.length m)
       end.
Proof.
  unfold allowToken; cbn [snd].
  assert (Hother : forall key, key <> bucket_key h token ->
            Map_get key (Map_set (bucket_key h token)
                           {| ts := current_minute h;
                              count := next_count (Map_get (bucket_key h token) m) |} m)
            = Map_get key m).
  { intros key Hne. now apply Map_get_set_other. }
  split; [| split; [exact Hother | split]].
  - intros other Hne. apply Hother. intros E. apply Hne. now apply bucket_key_inj in E.
  - intros key Hsome.
    destruct (String.eqb key (bucket_key h token)) eqn:E.
    + apply String.eqb_eq in E. subst key. rewrite Map_get_set_same. discriminate.
    + apply String.eqb_neq in E. now rewrite Hother.
  - apply Map_set_length.
Qed.

(** ** The whole handler *)

Lemma fetch_validated (h : Host) (mappings : list Mapping) (payload : value) :
  fetch h mappings payload
  = match validated h payload with
    | inl r => r
    | inr (norm, eventTimeISO) =>
        stored (conversion_of h norm eventTimeISO)
               (map (row_of norm) (attributed_items norm mappings))
    end.
Proof.
  unfold fetch, validated.
  destruct (basic_validation h payload) as [[r |] | e]; try reflexivity.
  destruct (detectAndNormalize h payload) as [[norm |] | e]; try reflexivity.
  destruct (too_old h norm) as [[|] | e]; try reflexivity.
  destruct (validate_items norm); [reflexivity |].
  destruct (validate_total norm); [reflexivity |].
  now destruct (bind _ _).
Qed.

Lemma validated_rejection (h : Host) (payload : value) (r : Response) :
  validated h payload = inl r ->
  (exists msg, r = json msg 400) \/ r = json "Event too old" 422
  \/ (exists e, r = uncaught e).
Proof.
  unfold validated.
  destruct (basic_validation h payload) as [[r0 |] | e] eqn:Hb.
  { intros H; inversion H; subst. left. now apply (basic_validation_400 h payload). }
  2: { intros H; inversion H. right. right. eauto. }
  destruct (detectAndNormalize h payload) as [[norm |] | e].
  - destruct (too_old h norm) as [[|] | e].
    { intros H; inversion H; tauto. }
    2: { intros H; inversion H. right. right. eauto. }
    destruct (validate_items norm) as [r0 |] eqn:Hi.
    { intros H; inversion H; subst. left. now apply (validate_items_400 norm). }
    destruct (validate_total norm) as [r0 |] eqn:Ht.
    { intros H; inversion H; subst. left. now apply (validate_total_400 norm). }
    destruct (bind _ _); [discriminate |].
    intros H; inversion H. right. right. eauto.
  - intros H; inversion H. left. eauto.
  - intros H; inversion H. right. right. eauto.
Qed.

(** The item rows wrapped for the insert under the conversion [ref]. *)
Lemma insert_rows_cases (sv : Services) (workspaceId : string) (ref : ConversionRef)
    (rows : list ItemRow) :
  let ins :=
    map (fun r => {| ins_workspace_id := workspaceId;
                     ins_conversion_id := conversion_id ref;
                     ins_conversion_event_time := conversion_event_time ref;
                     ins_item := r |}) rows in
  (snd (insert_rows sv workspaceId ref rows) = []
   /\ fst (insert_rows sv workspaceId ref rows) = ok_response)
  \/ (snd (insert_rows sv workspaceId ref rows) = [insert_items ins]
      /\ rows <> []
      /\ conversion_id ref <> "" /\ conversion_event_time ref <> ""
      /\ (fst (insert_rows sv workspaceId ref rows) = ok_response
          /\ insert_conversion_items sv ins = None
          \/ exists message,
               fst (insert_rows sv workspaceId ref rows) = json_response message 500
               /\ insert_conversion_items sv ins = Some message)).
Proof.
  intros ins. unfold insert_rows.
  destruct rows as [| r rows]; [left; split; reflexivity |].
  destruct (String.eqb (conversion_id ref) "") eqn:E1; cbn [orb].
  { left; split; reflexivity. }
  destruct (String.eqb (conversion_event_time ref) "") eqn:E2.
  { left; split; reflexivity. }
  apply String.eqb_neq in E1, E2. right. fold ins.
  destruct (insert_conversion_items sv ins) as [message |] eqn:Ei; cbn [fst snd].
  - repeat (split; [assumption || reflexivity || discriminate |]). right. eauto.
  - repeat (split; [assumption || reflexivity || discriminate |]). left. tauto.
Qed.

Lemma persist_cases (h : Host) (sv : Services) (workspaceId nodeId : string)
    (node : NodeRow) (norm : NormalizedEvent) (eventTimeISO : string) :
  let call :=
    {| p_workspace := workspaceId;
       p_funnel := node_funnel_id node;
       p_node := nodeId;
       p_conversion := conversion_of h norm eventTimeISO |} in
  let rows :=
    map (row_of norm)
      (attributed_items norm (fetchNodeProductMappings sv workspaceId nodeId)) in
  (exists message,
     persist h sv workspaceId nodeId node norm eventTimeISO
     = (json_response message 500, [upsert_conversion call])
     /\ forall ref more, rpc_upsert_conversion sv call <> data_of (ref :: more))
  \/ (exists ref,
        ((exists more, rpc_upsert_conversion sv call = data_of (ref :: more))
         \/ (rpc_upsert_conversion sv call = data_of []
             /\ select_conversion sv workspaceId (provider norm)
                  (provider_event_id norm) eventTimeISO = data_of (Some ref)))
        /\ persist h sv workspaceId nodeId node norm eventTimeISO
           = (fst (insert_rows sv workspaceId ref rows),
              upsert_conversion call :: snd (insert_rows sv workspaceId ref rows))).
Proof.
  intros call rows. unfold persist. fold call. fold rows.
  destruct (rpc_upsert_conversion sv call) as [message | [| ref more]] eqn:Hu.
  - left. exists message. split; [reflexivity | discriminate].
  - destruct (select_conversion sv workspaceId (provider norm)
                (provider_event_id norm) eventTimeISO) as [message | [ref |]] eqn:Hs.
    + left. eexists. split; [reflexivity | discriminate].
    + right. exists ref. split; [right; split; reflexivity |].
      now destruct (insert_rows sv workspaceId ref rows).
    + left. eexists. split; [reflexivity | discriminate].
  - right. exists ref. split; [left; now exists more |].
    now destruct (insert_rows sv workspaceId ref rows).
Qed.

(** Taking [handle_request] apart, one test at a time. *)
Ltac gate H :=
  match type of H with
  | (if ?b then _ else _) = _ => destruct b eqn:?
  | (match ?x with _ => _ end) = _ => destruct x eqn:?
  end.

Ltac rejected H :=
  try (inversion H; subst; clear H;
       solve [ contradiction | congruence | eauto 10 | cbn; tauto ]).

(** Every write to the store comes from an authorized request.  When
    [fetch] writes anything, the request had a JSON content type and the
    webhook route, both rate limits admitted it, the node exists, its funnel
    belongs to the workspace of the URL, the token of the URL is the node's
    non-empty token, the body is within 64 KiB and parsed, and the payload
    passed validation; the first write is the upsert of that event for that
    workspace, funnel and node. *)
Theorem writes_come_from_authorized_requests (h : Host) (sv : Services)
    (lim : Limiter) (req : Request)
    (resp : HttpResponse) (lim' : Limiter) (ws : list Write) :
  handle_request h sv lim req = (resp, lim', ws) ->
  ws <> [] ->
  exists workspaceId nodeId token node funnel payload norm eventTimeISO rest,
    method req <> "OPTIONS"
    /\ (exists ct, headers_get "content-type" (req_headers req) = Some ct
                   /\ includes "application/json" (toLowerCase ct) = true)
    /\ route (pathname req) = Some (workspaceId, nodeId, token)
    /\ fst (allowIp h (getClientIp req) (ipBuckets lim)) = true
    /\ fst (allowToken h token (tokenBuckets lim)) = true
    /\ select_node sv nodeId = data_of (Some node)
    /\ select_funnel sv (node_funnel_id node) = data_of (Some funnel)
    /\ funnel_workspace_id funnel = workspaceId
    /\ webhook_token node = Some token /\ token <> ""
    /\ (N.of_nat (String.length (body_text req)) <= MAX_BODY_BYTES)%N
    /\ JSON_parse sv (if String.eqb (body_text req) "" then "{}" else body_text req)
       = Some payload
    /\ validated h payload = inr (norm, eventTimeISO)
    /\ ws = upsert_conversion
              {| p_workspace := workspaceId;
                 p_funnel := node_funnel_id node;
                 p_node := nodeId;
                 p_conversion := conversion_of h norm eventTimeISO |} :: rest.
Proof.
  intros H Hws. unfold handle_request in H.
  gate H; rejected H.
  gate H; rejected H.
  gate H; rejected H.
  gate H; rejected H.
  destruct p as [[workspaceId nodeId] token].
  destruct (allowIp h (getClientIp req) (ipBuckets lim)) as [ip_ok ipB] eqn:Hip.
  gate H; rejected H.
  destruct (allowToken h token (tokenBuckets lim)) as [token_ok tokB] eqn:Htok.
  gate H; rejected H.
  gate H; rejected H.
  destruct a as [node |]; rejected H.
  gate H; rejected H.
  destruct a as [funnel |]; rejected H.
  gate H; rejected H.
  gate H; rejected H.
  gate H; rejected H.
  gate H; rejected H.
  rename v into payload.
  destruct (validated h payload) as [r | [norm iso]] eqn:Hv; rejected H.
  assert (Hws' : exists rest,
             snd (persist h sv workspaceId nodeId node norm iso)
             = upsert_conversion
                 {| p_workspace := workspaceId;
                    p_funnel := node_funnel_id node;
                    p_node := nodeId;
                    p_conversion := conversion_of h norm iso |} :: rest).
  { destruct (persist_cases h sv workspaceId nodeId node norm iso)
      as [[message [Hpe _]] | [ref [_ Hpe]]]; rewrite Hpe; cbn [snd]; eauto. }
  destruct Hws' as [rest Hrest].
  destruct (persist h sv workspaceId nodeId node norm iso) as [resp0 ws0] eqn:Hp.
  cbn [snd] in Hrest. inversion H; subst; clear H.
  apply negb_false_iff in Heqb0, Heqb2, Heqb3, Heqb4, Heqb5.
  destruct (headers_get "content-type" (req_headers req)) as [ct |] eqn:Hct;
    [| discriminate].
  destruct (webhook_token node) as [t |] eqn:Hwt; [| discriminate].
  apply andb_prop in Heqb5. destruct Heqb5 as [Ht1 Ht2].
  apply String.eqb_eq in Ht2. subst t.
  apply negb_true_iff, String.eqb_neq in Ht1.
  apply String.eqb_neq in Heqb. apply String.eqb_eq in Heqb4.
  apply N.ltb_ge in Heqb6.
  exists workspaceId, nodeId, token, node, funnel, payload, norm, iso, rest.
  rewrite Htok. cbn [fst].
  repeat (split; [solve [assumption | reflexivity | eauto] |]).
  reflexivity.
Qed.

(** The sample request is authorized, and writes the upsert for [w1]. *)
Lemma writes_come_from_authorized_requests_witness :
  exists resp lim' call rest,
    handle_request Example.host (ServiceSamples.services true)
      ServiceSamples.no_buckets ServiceSamples.request
    = (resp, lim', upsert_conversion call :: rest)
    /\ p_workspace call = "w1" /\ p_node call = "n1" /\ p_funnel call = "f1".
Proof.
  destruct (handle_request Example.host (ServiceSamples.services true)
              ServiceSamples.no_buckets ServiceSamples.request)
    as [[resp lim'] ws] eqn:E.
  assert (Hws : ws <> []).
  { vm_compute in E. inversion E. discriminate. }
  destruct (writes_come_from_authorized_requests _ _ _ _ _ _ _ E Hws)
    as [w [n [t [node [funnel [payload [norm [iso [rest
         [_ [_ [Hroute [_ [_ [Hnode [_ [_ [_ [_ [_ [_ [_ ->]]]]]]]]]]]]]]]]]]]]]].
  exists resp, lim'. eexists. exists rest. split; [reflexivity |].
  vm_compute in Hroute. inversion Hroute; subst.
  vm_compute in Hnode. inversion Hnode; subst.
  repeat split.
Defined.

Lemma json_response_well_formed (error : string) (st : nat) :
  In st statuses -> well_formed (json_response error st).
Proof. intros H. split; [exact H | cbn; apply incl_tl, incl_refl]. Qed.

Lemma caught_well_formed (e : exn) : well_formed (caught e).
Proof. split; [cbn; tauto | cbn; apply incl_tl, incl_refl]. Qed.

Lemma ok_response_well_formed : well_formed ok_response.
Proof. split; [cbn; tauto | apply incl_refl]. Qed.

Lemma respond_well_formed (h : Host) (payload : value) (r : Response) :
  validated h payload = inl r -> well_formed (respond r).
Proof.
  intros H.
  destruct (validated_rejection h payload r H) as [[msg ->] | [-> | [e ->]]]; cbn.
  - apply json_response_well_formed. cbn; tauto.
  - apply json_response_well_formed. cbn; tauto.
  - apply caught_well_formed.
Qed.

Lemma insert_rows_well_formed (sv : Services) (workspaceId : string)
    (ref : ConversionRef) (rows : list ItemRow) :
  well_formed (fst (insert_rows sv workspaceId ref rows)).
Proof.
  destruct (insert_rows_cases sv workspaceId ref rows)
    as [[_ ->] | [_ [_ [_ [_ [[-> _] | [message [-> _]]]]]]]].
  - apply ok_response_well_formed.
  - apply ok_response_well_formed.
  - apply json_response_well_formed. cbn; tauto.
Qed.

Lemma persist_well_formed (h : Host) (sv : Services) (workspaceId nodeId : string)
    (node : NodeRow) (norm : NormalizedEvent) (eventTimeISO : string) :
  well_formed (fst (persist h sv workspaceId nodeId node norm eventTimeISO)).
Proof.
  destruct (persist_cases h sv workspaceId nodeId node norm eventTimeISO)
    as [[message [-> _]] | [ref [_ ->]]]; cbn [fst].
  - apply json_response_well_formed. cbn; tauto.
  - apply insert_rows_well_formed.
Qed.

Ltac answered H :=
  try (inversion H; subst; clear H;
       solve [ apply json_response_well_formed; cbn; tauto
             | split; [cbn; tauto | apply incl_refl] ]).

(** Whatever the request, the store and the limiter hold, the answer of
    [fetch] has one of the statuses 200, 204, 400, 403, 404, 413, 415, 422,
    429, 500 and carries the three CORS headers. *)
Theorem every_answer_is_well_formed (h : Host) (sv : Services) (lim : Limiter)
    (req : Request) :
  In (status (fst (fst (handle_request h sv lim req)))) statuses
  /\ incl corsHeaders (resp_headers (fst (fst (handle_request h sv lim req)))).
Proof.
  change (well_formed (fst (fst (handle_request h sv lim req)))).
  destruct (handle_request h sv lim req) as [[resp lim'] ws] eqn:H.
  cbn [fst]. unfold handle_request in H.
  gate H; answered H.
  gate H; answered H.
  gate H; answered H.
  gate H; answered H.
  destruct p as [[workspaceId nodeId] token].
  destruct (allowIp h (getClientIp req) (ipBuckets lim)) as [ip_ok ipB].
  gate H; answered H.
  destruct (allowToken h token (tokenBuckets lim)) as [token_ok tokB].
  gate H; answered H.
  gate H; answered H.
  destruct a as [node |]; answered H.
  gate H; answered H.
  destruct a as [funnel |]; answered H.
  gate H; answered H.
  gate H; answered H.
  gate H; answered H.
  gate H; answered H.
  destruct (validated h v) as [r | [norm iso]] eqn:Hv.
  - inversion H; subst. now apply (respond_well_formed h v).
  - pose proof (persist_well_formed h sv workspaceId nodeId node norm iso) as Hp.
    destruct (persist h sv workspaceId nodeId node norm iso) as [resp0 ws0].
    inversion H; subst. exact Hp.
Qed.

(** The rate-limit maps after a request depend on the request alone, not on
    what happens later: a request that is no preflight, has a JSON content
    type, a declared length within the cap and the webhook route is counted
    against its address; it is counted against its token exactly when the
    address was admitted.  Any other request leaves both maps as they were.
    So a request with a wrong token, a broken body or a failing store still
    uses up the budget of the token it names. *)
Theorem routed_requests_are_counted (h : Host) (sv : Services) (lim : Limiter)
    (req : Request) :
  snd (fst (handle_request h sv lim req))
  = if entry_ok h req then
      match route (pathname req) with
      | Some (_, _, token) =>
          {| tokenBuckets :=
               if fst (allowIp h (getClientIp req) (ipBuckets lim))
               then snd (allowToken h token (tokenBuckets lim))
               else tokenBuckets lim;
             ipBuckets := snd (allowIp h (getClientIp req) (ipBuckets lim)) |}
      | None => lim
      end
    else lim.
Proof.
  unfold entry_ok.
  destruct (handle_request h sv lim req) as [[resp lim'] ws] eqn:H.
  cbn [fst snd]. unfold handle_request in H.
  gate H; [inversion H; reflexivity |]. cbn [negb andb].
  gate H; [inversion H; subst; apply negb_true_iff in Heqb0; now rewrite Heqb0 |].
  apply negb_false_iff in Heqb0. rewrite Heqb0. cbn [andb].
  gate H; [inversion H; reflexivity |]. cbn [negb].
  gate H; [| inversion H; reflexivity].
  destruct p as [[workspaceId nodeId] token].
  destruct (allowIp h (getClientIp req) (ipBuckets lim)) as [ip_ok ipB].
  cbn [fst snd].
  gate H; [inversion H; subst; apply negb_true_iff in Heqb2; now subst |].
  apply negb_false_iff in Heqb2. subst ip_ok.
  destruct (allowToken h token (tokenBuckets lim)) as [token_ok tokB].
  cbn [snd].
  repeat (gate H; try (inversion H; reflexivity)).
  all: try (destruct a; try (inversion H; reflexivity)).
  all: repeat (gate H; try (inversion H; reflexivity)).
  all: try (destruct a; try (inversion H; reflexivity)).
  all: repeat (gate H; try (inversion H; reflexivity)).
  all: try (destruct p as [norm iso];
            destruct (persist h sv workspaceId nodeId _ norm iso);
            inversion H; reflexivity).
Qed.

(** A request that a rate limit refuses is answered without any use of the
    store or of the body: the outcome is the same for every store, and
    nothing is written.  When the request passed the tests before the route,
    the answer is 429. *)
Theorem limited_requests_never_reach_the_store (h : Host) (sv : Services)
    (lim : Limiter) (req : Request) (workspaceId nodeId token : string) :
  route (pathname req) = Some (workspaceId, nodeId, token) ->
  fst (allowIp h (getClientIp req) (ipBuckets lim)) = false
  \/ fst (allowToken h token (tokenBuckets lim)) = false ->
  (forall sv', handle_request h sv' lim req = handle_request h sv lim req)
  /\ snd (handle_request h sv lim req) = []
  /\ (entry_ok h req = true ->
      status (fst (fst (handle_request h sv lim req))) = 429%nat).
Proof.
  intros Hroute Hlim.
  assert (Hany : entry_ok h req = true ->
             forall sv0,
               handle_request h sv0 lim req
               = if fst (allowIp h (getClientIp req) (ipBuckets lim))
                 then (json_response "Too many requests (token)" 429,
                       {| tokenBuckets := snd (allowToken h token (tokenBuckets lim));
                          ipBuckets := snd (allowIp h (getClientIp req) (ipBuckets lim)) |},
                       [])
                 else (json_response "Too many requests (IP)" 429,
                       {| tokenBuckets := tokenBuckets lim;
                          ipBuckets := snd (allowIp h (getClientIp req) (ipBuckets lim)) |},
                       [])).
  { intros He sv0. unfold entry_ok in He. unfold handle_request. rewrite Hroute.
    destruct (String.eqb (method req) "OPTIONS"); [discriminate |].
    cbn [negb andb] in He.
    destruct (match headers_get "content-type" (req_headers req) with
              | Some ct => includes "application/json" (toLowerCase ct)
              | None => false
              end); [| discriminate].
    cbn [negb andb] in He |- *.
    destruct (JS.gtb _ 65536); [discriminate |]. cbn [negb].
    destruct (allowIp h (getClientIp req) (ipBuckets lim)) as [ip_ok ipB].
    cbn [fst snd] in *.
    destruct ip_ok; cbn [negb]; [| reflexivity].
    destruct Hlim as [Hlim | Hlim]; [discriminate |].
    destruct (allowToken h token (tokenBuckets lim)) as [token_ok tokB].
    cbn [fst snd] in *. subst token_ok. reflexivity. }
  assert (Hpre : entry_ok h req = false ->
             exists resp, forall sv0, handle_request h sv0 lim req = (resp, lim, [])).
  { intros He. unfold entry_ok in He. unfold handle_request.
    destruct (String.eqb (method req) "OPTIONS"); [eexists; intros; reflexivity |].
    cbn [negb andb] in He.
    destruct (match headers_get "content-type" (req_headers req) with
              | Some ct => includes "application/json" (toLowerCase ct)
              | None => false
              end); [| eexists; intros; reflexivity].
    cbn [negb andb] in He |- *.
    destruct (JS.gtb _ 65536); [eexists; intros; reflexivity | discriminate]. }
  destruct (entry_ok h req) eqn:He.
  - specialize (Hany eq_refl). split; [| split].
    + intros sv'. now rewrite (Hany sv'), (Hany sv).
    + rewrite (Hany sv).
      now destruct (fst (allowIp h (getClientIp req) (ipBuckets lim))).
    + intros _. rewrite (Hany sv).
      now destruct (fst (allowIp h (getClientIp req) (ipBuckets lim))).
  - destruct (Hpre eq_refl) as [resp Hresp]. split; [| split].
    + intros sv'. now rewrite (Hresp sv'), (Hresp sv).
    + now rewrite (Hresp sv).
    + discriminate.
Qed.

(** The sample request from an address with 120 requests on record. *)
Lemma limited_requests_witness :
  snd (handle_request Example.host (ServiceSamples.services true)
         ServiceSamples.ip_exhausted ServiceSamples.request) = []
  /\ status (fst (fst (handle_request Example.host (ServiceSamples.services true)
                         ServiceSamples.ip_exhausted ServiceSamples.request))) = 429%nat.
Proof.
  destruct (limited_requests_never_reach_the_store Example.host
              (ServiceSamples.services true) ServiceSamples.ip_exhausted
              ServiceSamples.request "w1" "n1" "tok" eq_refl (or_introl eq_refl))
    as [_ [Hw Hs]].
  split; [exact Hw | exact (Hs eq_refl)].
Defined.

(** What [persist] writes: first the upsert, then at most one insert.  The
    insert is made only when the store gave a conversion with an id and a
    time and there are item rows; its rows are the event's item rows, each
    under the workspace of the URL and that conversion.  When the upsert
    fails nothing else is written and the answer is 500 with the store's
    message; the answer is 200 or 500 in every case. *)
Theorem persist_writes_upsert_then_items (h : Host) (sv : Services)
    (workspaceId nodeId : string) (node : NodeRow) (norm : NormalizedEvent)
    (eventTimeISO : string) :
  let call := upsert_call h workspaceId nodeId node norm eventTimeISO in
  let rows :=
    map (row_of norm)
      (attributed_items norm (fetchNodeProductMappings sv workspaceId nodeId)) in
  let out := persist h sv workspaceId nodeId node norm eventTimeISO in
  (snd out = [upsert_conversion call]
   \/ exists ref,
        snd out =
          [upsert_conversion call;
           insert_items
             (map (fun r => {| ins_workspace_id := workspaceId;
                               ins_conversion_id := conversion_id ref;
                               ins_conversion_event_time := conversion_event_time ref;
                               ins_item := r |}) rows)]
        /\ rows <> []
        /\ conversion_id ref <> "" /\ conversion_event_time ref <> ""
        /\ ((exists more, rpc_upsert_conversion sv call = data_of (ref :: more))
            \/ (rpc_upsert_conversion sv call = data_of []
                /\ select_conversion sv workspaceId (provider norm)
                     (provider_event_id norm) eventTimeISO = data_of (Some ref))))
  /\ (forall message,
        rpc_upsert_conversion sv call = failed message ->
        out = (json_response message 500, [upsert_conversion call]))
  /\ (status (fst out) = 200%nat \/ status (fst out) = 500%nat).
Proof.
  intros call rows out. subst out call. unfold upsert_call.
  set (call := {| p_workspace := workspaceId;
                  p_funnel := node_funnel_id node;
                  p_node := nodeId;
                  p_conversion := conversion_of h norm eventTimeISO |}).
  assert (Hf : forall message,
             rpc_upsert_conversion sv call = failed message ->
             persist h sv workspaceId nodeId node norm eventTimeISO
             = (json_response message 500, [upsert_conversion call])).
  { intros message Hfail. unfold persist. fold call. now rewrite Hfail. }
  pose proof (persist_cases h sv workspaceId nodeId node norm eventTimeISO) as Hc.
  cbv zeta in Hc. fold call in Hc. fold rows in Hc.
  split; [| split; [exact Hf |]].
  - destruct Hc as [[message [Hp Hno]] | [ref [Href Hp]]]; rewrite Hp; cbn [snd].
    + now left.
    + destruct (insert_rows_cases sv workspaceId ref rows)
        as [[Hw Hr] | [Hw [Hne [Hid [Htime Hr]]]]]; rewrite Hw.
      * now left.
      * right. exists ref. tauto.
  - destruct Hc as [[message [Hp Hno]] | [ref [Href Hp]]]; rewrite Hp; cbn [fst].
    + now right.
    + destruct (insert_rows_cases sv workspaceId ref rows)
        as [[_ ->] | [_ [_ [_ [_ [[-> _] | [message [-> _]]]]]]]];
        [now left | now left | now right].
Qed.

(** A second submission of an event inserts its items again.  If one store
    creates the conversion and answers with its reference, and another finds
    it stored (the upsert returns no row, the lookup returns that
    reference), then with the same product mappings and the same answers to
    inserts, [persist] makes the same writes and gives the same answer on
    both: the item rows are inserted under the existing conversion as they
    were under the new one. *)
Theorem resubmission_inserts_the_items_again (h : Host) (sv1 sv2 : Services)
    (workspaceId nodeId : string) (node : NodeRow) (norm : NormalizedEvent)
    (eventTimeISO : string) (ref : ConversionRef) (more : list ConversionRef) :
  rpc_upsert_conversion sv1 (upsert_call h workspaceId nodeId node norm eventTimeISO)
  = data_of (ref :: more) ->
  rpc_upsert_conversion sv2 (upsert_call h workspaceId nodeId node norm eventTimeISO)
  = data_of [] ->
  select_conversion sv2 workspaceId (provider norm) (provider_event_id norm)
    eventTimeISO = data_of (Some ref) ->
  select_node_products sv1 workspaceId nodeId
  = select_node_products sv2 workspaceId nodeId ->
  (forall rows, insert_conversion_items sv1 rows = insert_conversion_items sv2 rows) ->
  persist h sv1 workspaceId nodeId node norm eventTimeISO
  = persist h sv2 workspaceId nodeId node norm eventTimeISO.
Proof.
  intros H1 H2 H3 Hmap Hins. unfold persist, upsert_call in *.
  rewrite H1, H2, H3. unfold fetchNodeProductMappings. rewrite Hmap.
  unfold insert_rows.
  destruct (map (row_of norm) _) as [| r rows]; [reflexivity |].
  destruct (String.eqb (conversion_id ref) "" || String.eqb (conversion_event_time ref) "");
    [reflexivity |].
  now rewrite Hins.
Qed.

(** The sample request sent to the store that creates the conversion and to
    the store that already holds it: the same two writes, the second being
    the insert of the item row. *)
Lemma resubmission_witness :
  persist Example.host (ServiceSamples.services true) "w1" "n1"
    ServiceSamples.node_n1 ServiceSamples.event_9900 Example.iso_now
  = persist Example.host (ServiceSamples.services false) "w1" "n1"
      ServiceSamples.node_n1 ServiceSamples.event_9900 Example.iso_now
  /\ List.length (snd (persist Example.host (ServiceSamples.services false) "w1" "n1"
                         ServiceSamples.node_n1 ServiceSamples.event_9900
                         Example.iso_now)) = 2%nat.
Proof.
  split; [| reflexivity].
  apply (resubmission_inserts_the_items_again Example.host
           (ServiceSamples.services true) (ServiceSamples.services false)
           "w1" "n1" ServiceSamples.node_n1 ServiceSamples.event_9900
           Example.iso_now ServiceSamples.conversion_c1 []);
    reflexivity.
Defined.

(** ** More on the payload stage *)

Lemma new_Date_string (h : Host) (v : value) (s : string) :
  v = VStr s -> s <> "" ->
  new_Date h (v ||| VStr (now_iso h)) = Ok (Date_parse h s)
  /\ ToString h (v ||| VStr "") = Ok s.
Proof.
  intros -> Hne.
  assert (Ht : truthy (VStr s) = true).
  { cbn. apply negb_true_iff. now apply String.eqb_neq. }
  now rewrite !or_else_truthy by exact Ht.
Qed.

(** An event whose time is a string that does not parse is never stored:
    the staleness test lets it through, and when it passes the validation of
    items and total, building its ISO time throws the RangeError that the
    outer [catch] answers with 500. *)
Theorem unparseable_time_is_never_stored (h : Host) (mappings : list Mapping)
    (payload : value) (norm : NormalizedEvent) (s : string) :
  detectAndNormalize h payload = Ok (Some norm) ->
  event_time norm = VStr s -> s <> "" ->
  JS.isNaN (Date_parse h s) = true ->
  too_old h norm = Ok false
  /\ (forall conv rows, fetch h mappings payload <> stored conv rows)
  /\ (basic_validation h payload = Ok None ->
      validate_items norm = None -> validate_total norm = None ->
      fetch h mappings payload = uncaught RangeError).
Proof.
  intros Hn Ht Hne Hnan.
  destruct (new_Date_string h (event_time norm) s Ht Hne) as [Hnew Hparse].
  assert (Hold : too_old h norm = Ok false).
  { unfold too_old, evtMs. rewrite Hparse. cbn [bind]. now rewrite Hnan. }
  assert (Hiso : (tv <- new_Date h (event_time norm ||| VStr (now_iso h)) ;;
                  toISOString h tv) = Throw RangeError).
  { rewrite Hnew. cbn [bind]. unfold toISOString. now rewrite Hnan. }
  split; [exact Hold |]. split.
  - intros conv rows Hf.
    destruct (fetch_stored_inv _ _ _ _ _ Hf) as [norm' [iso [Hb [Hn' _]]]].
    rewrite Hn in Hn'. inversion Hn'; subst norm'.
    unfold fetch in Hf. rewrite Hb, Hn, Hold in Hf.
    destruct (validate_items norm) as [r |] eqn:Hi.
    { destruct (validate_items_400 _ _ Hi) as [msg ->]. discriminate. }
    destruct (validate_total norm) as [r |] eqn:Hv.
    { destruct (validate_total_400 _ _ Hv) as [msg ->]. discriminate. }
    rewrite Hiso in Hf. discriminate.
  - intros Hb Hi Hv. unfold fetch. now rewrite Hb, Hn, Hold, Hi, Hv, Hiso.
Qed.

(** A paddle-like payload whose [event_time] is the word "yesterday". *)
Lemma unparseable_time_witness :
  fetch Example.host [] (FetchSamples.paddle_at "yesterday") = uncaught RangeError.
Proof.
  destruct (detectAndNormalize Example.host (FetchSamples.paddle_at "yesterday"))
    as [[norm |] | e] eqn:E; try (vm_compute in E; discriminate).
  assert (Hn : event_time norm = VStr "yesterday"
               /\ validate_items norm = None /\ validate_total norm = None).
  { vm_compute in E. inversion E; subst norm. repeat split. }
  destruct Hn as [Ht [Hi Hv]].
  destruct (unparseable_time_is_never_stored Example.host []
              (FetchSamples.paddle_at "yesterday") norm "yesterday" E Ht)
    as [_ [_ Hthrow]]; [discriminate | reflexivity |].
  now apply Hthrow.
Defined.

(** ** What each shape keeps of the payload *)

Lemma detect_shape (p : value) :
  match detect p with
  | StripeLike => stripe_signal p = true
  | PaddleLike => stripe_signal p = false /\ paddle_signal p = true
  | LemonLike => stripe_signal p = false /\ paddle_signal p = false
  | ShopifyLike => stripe_signal p = false /\ paddle_signal p = false
  | CustomShape => stripe_signal p = false /\ paddle_signal p = false
  | Unsupported => stripe_signal p = false /\ paddle_signal p = false
  end.
Proof.
  unfold detect.
  destruct (stripe_signal p); [reflexivity |].
  destruct (paddle_signal p); [easy |].
  destruct (lemon_signal p); [easy |].
  destruct (shopify_signal p); [easy |].
  destruct (custom_signal p); easy.
Qed.

Lemma normalized_by_shape (h : Host) (p : value) (norm : NormalizedEvent) :
  detectAndNormalize h p = Ok (Some norm) ->
  match detect p with
  | StripeLike => normalizeStripeLoose h p = Ok norm
  | PaddleLike => normalizePaddleLoose h p = Ok norm
  | LemonLike => normalizeLemonLoose h p = Ok norm
  | ShopifyLike => normalizeShopifyLoose h p = Ok norm
  | CustomShape => normalizeCustom h p = Ok norm
  | Unsupported => False
  end.
Proof.
  rewrite detectAndNormalize_detect.
  destruct (detect p); cbn [normalizer]; intros H;
    try (apply bind_Ok_inv in H; destruct H as [a [-> H]]; now inversion H).
  discriminate.
Qed.

Ltac next_char s E1 E2 E3 :=
  destruct s as [| [b0 b1 b2 b3 b4 b5 b6 b7] s];
  [ try reflexivity; try discriminate E1; try discriminate E2; try discriminate E3
  | destruct b0; try reflexivity; destruct b1; try reflexivity;
    destruct b2; try reflexivity; destruct b3; try reflexivity;
    destruct b4; try reflexivity; destruct b5; try reflexivity;
    destruct b6; try reflexivity; destruct b7; try reflexivity ].

Lemma stripe_amount_match (ty o : value) :
  match ty with
  | VStr "checkout.session.completed" => get o "amount_total" ||| VNum 0
  | VStr "payment_intent.succeeded" => get o "amount" ||| VNum 0
  | VStr "invoice.payment_succeeded" => get o "total" ||| VNum 0
  | _ => get o "amount_total" ||| get o "amount" ||| VNum 0
  end = stripe_amount ty o.
Proof.
  unfold stripe_amount. destruct ty as [| | b | n | s | xs | fs]; try reflexivity.
  destruct (String.eqb s "checkout.session.completed") eqn:E1.
  { apply String.eqb_eq in E1. now subst s. }
  destruct (String.eqb s "payment_intent.succeeded") eqn:E2.
  { apply String.eqb_eq in E2. now subst s. }
  destruct (String.eqb s "invoice.payment_succeeded") eqn:E3.
  { apply String.eqb_eq in E3. now subst s. }
  generalize (get o "amount_total" ||| VNum 0), (get o "amount" ||| VNum 0),
    (get o "total" ||| VNum 0), (get o "amount_total" ||| get o "amount" ||| VNum 0).
  intros v1 v2 v3 v4.
  repeat next_char s E1 E2 E3.
Qed.

(** ** Payloads the normalizers accept *)

Lemma value_deep_ind (P : value -> Prop) :
  P VUndefined -> P VNull -> (forall b, P (VBool b)) -> (forall n, P (VNum n)) ->
  (forall s, P (VStr s)) ->
  (forall xs, Forall P xs -> P (VArr xs)) ->
  (forall fields, Forall (fun kv => P (snd kv)) fields -> P (VObj fields)) ->
  forall v, P v.
Proof.
  intros HU HN HB HNum HS HA HO. fix IH 1.
  intros [| | b | n | s | xs | fields].
  - exact HU.
  - exact HN.
  - apply HB.
  - apply HNum.
  - apply HS.
  - apply HA. induction xs as [| x xs IHxs]; constructor; [apply IH | exact IHxs].
  - apply HO.
    induction fields as [| [k x] fields IHf]; constructor; [apply IH | exact IHf].
Qed.

(** An object with an own property [toString] has neither a string nor a
    number nor a date. *)
Lemma own_toString_throws (h : Host) (fields : list (string * value)) (x : value) :
  assoc "toString" fields = Some x ->
  ToString h (VObj fields) = Throw TypeError
  /\ ToNumber h (VObj fields) = Throw TypeError
  /\ new_Date h (VObj fields) = Throw TypeError.
Proof.
  intros H. unfold new_Date, ToNumber. cbn [ToString]. unfold object_string.
  rewrite H. repeat split.
Qed.

Lemma plain_get (v : value) (k : string) :
  plain v = true -> plain (get v k) = true.
Proof.
  destruct v as [| | b | n | s | xs | fields]; try reflexivity.
  cbn [plain get]. intros H. apply andb_true_iff in H. destruct H as [_ H].
  induction fields as [| [k' x] fields IH]; cbn in H |- *; [reflexivity |].
  apply andb_true_iff in H. destruct H as [Hx Hrest].
  destruct (String.eqb k k'); [exact Hx | now apply IH].
Qed.

Lemma plain_or_else (a b : value) :
  plain a = true -> plain b = true -> plain (a ||| b) = true.
Proof. intros Ha Hb. unfold or_else. now destruct (truthy a). Qed.

Lemma plain_elements (xs : list value) :
  plain (VArr xs) = true -> Forall (fun x => plain x = true) xs.
Proof. cbn [plain]. intros H. apply Forall_forall. now apply forallb_forall. Qed.

Lemma mapM_ok {A B : Type} (f : A -> result B) (l : list A) :
  Forall (fun a => exists b, f a = Ok b) l -> exists l', mapM f l = Ok l'.
Proof.
  induction 1 as [| a l [b Hb] _ [l' Hl']]; cbn; [eauto |].
  rewrite Hb. cbn. rewrite Hl'. cbn. eauto.
Qed.

Lemma plain_ToString (h : Host) (v : value) :
  plain v = true -> exists s, ToString h v = Ok s.
Proof.
  induction v as [| | [|] | n | s | xs IH | fields _] using value_deep_ind;
    intros Hp; cbn [ToString]; try (eexists; reflexivity).
  - pose proof (plain_elements xs Hp) as Hxs.
    assert (Hparts : exists parts,
               mapM (fun x => match x with
                              | VUndefined | VNull => Ok ""
                              | _ => ToString h x
                              end) xs = Ok parts).
    { apply mapM_ok. apply Forall_forall. intros x Hin.
      rewrite Forall_forall in IH, Hxs.
      destruct (IH x Hin (Hxs x Hin)) as [s Hs].
      destruct x; eauto. }
    destruct Hparts as [parts ->]. cbn. eauto.
  - unfold object_string. cbn [plain] in Hp.
    destruct (assoc "toString" fields); [discriminate | eauto].
Qed.

Lemma plain_ToNumber (h : Host) (v : value) :
  plain v = true -> exists n, ToNumber h v = Ok n.
Proof.
  intros Hp. destruct v as [| | [|] | n | s | xs | fields]; cbn [ToNumber];
    try (eexists; reflexivity).
  - destruct (plain_ToString h _ Hp) as [s ->]. cbn. eauto.
  - destruct (plain_ToString h _ Hp) as [s Hs]. cbn [ToString] in Hs.
    rewrite Hs. cbn. eauto.
Qed.

Lemma plain_new_Date (h : Host) (v : value) :
  plain v = true -> exists t, new_Date h v = Ok t.
Proof.
  intros Hp. destruct v as [| | b | n | s | xs | fields]; unfold new_Date;
    try (destruct (plain_ToNumber h _ Hp) as [n' ->]; cbn; eauto; fail);
    try (destruct (plain_ToString h _ Hp) as [s' ->]; cbn; eauto; fail).
  eauto.
Qed.

Lemma upper_or_USD_ok (h : Host) (v : value) :
  string_or_falsy v -> exists s, upper_or_USD h v = Ok s.
Proof.
  unfold upper_or_USD. intros [Hf | [s ->]].
  - rewrite or_else_falsy by exact Hf. eauto.
  - unfold or_else. destruct (truthy (VStr s)); eauto.
Qed.

Lemma get_strict_ok (v : value) (k : string) :
  readable v -> get_strict v k = Ok (get v k).
Proof. intros [H1 H2]. destruct v; try reflexivity; contradiction. Qed.

Lemma string_or_falsy_or_else (a b : value) :
  string_or_falsy a -> string_or_falsy b -> string_or_falsy (a ||| b).
Proof.
  intros Ha Hb. destruct (truthy a) eqn:E.
  - rewrite or_else_truthy by exact E. destruct Ha as [Ha | Ha]; [congruence |].
    now right.
  - now rewrite or_else_falsy by exact E.
Qed.

(** The number of a field, or of a default, of a plain value. *)
Ltac number_of_plain Hp :=
  match goal with
  | |- context [bind (ToNumber ?h ?v) _] =>
      let n := fresh "n" in
      let Hn := fresh "Hn" in
      assert (Hn : exists n, ToNumber h v = Ok n)
        by (apply plain_ToNumber;
            repeat (apply plain_or_else || apply plain_get);
            solve [exact Hp | reflexivity]);
      destruct Hn as [n Hn]; rewrite Hn; cbn [bind]
  end.

Ltac string_of_plain Hp :=
  match goal with
  | |- context [bind (ToString ?h ?v) _] =>
      let s := fresh "s" in
      let Hs := fresh "Hs" in
      assert (Hs : exists s, ToString h v = Ok s)
        by (apply plain_ToString;
            repeat (apply plain_or_else || apply plain_get);
            solve [exact Hp | reflexivity]);
      destruct Hs as [s Hs]; rewrite Hs; cbn [bind]
  end.

Lemma normalizers_succeed_on_benign (h : Host) (p : value) :
  benign h p -> exists r, detectAndNormalize h p = Ok r.
Proof.
  intros [Hp [Hcur [Hobj [Hattr [Hcreated [Hlis [Harr Hitems]]]]]]].
  rewrite detectAndNormalize_detect.
  destruct (detect p); cbn [normalizer].
  - unfold normalizeStripeLoose.
    assert (Hc : exists iso,
               (if truthy (get p "created")
                then created <- ToNumber h (get p "created") ;;
                     toISOString h (JS.TimeClip (created * 1000))
                else Ok (now_iso h)) = Ok iso).
    { destruct (truthy (get p "created")) eqn:E; [| eauto].
      destruct (plain_ToNumber h (get p "created") (plain_get p _ Hp)) as [n Hn].
      rewrite Hn. cbn [bind]. unfold toISOString.
      rewrite (Hcreated eq_refl n Hn). eauto. }
    destruct Hc as [iso ->]. cbn [bind].
    match goal with
    | |- context [bind (ToNumber h ?v) _] =>
        assert (Hn : exists n, ToNumber h v = Ok n)
    end.
    { apply plain_ToNumber. rewrite stripe_amount_match.
      unfold stripe_amount.
      destruct (get p "type") as [| | b | n | s | xs | fs];
        repeat match goal with
               | |- context [if ?c then _ else _] => destruct c
               end;
        repeat (apply plain_or_else || apply plain_get);
        solve [exact Hp | reflexivity]. }
    destruct Hn as [n ->]. cbn [bind].
    destruct (upper_or_USD_ok h _ Hobj) as [c ->]. cbn. eauto.
  - unfold normalizePaddleLoose.
    destruct (upper_or_USD_ok h _ Hcur) as [c ->]. cbn [bind].
    number_of_plain Hp. string_of_plain Hp. eauto.
  - unfold normalizeLemonLoose.
    destruct (upper_or_USD_ok h _ Hattr) as [c ->]. cbn [bind].
    number_of_plain Hp. eauto.
  - unfold normalizeShopifyLoose.
    destruct (upper_or_USD_ok h _ Hcur) as [c ->]. cbn [bind].
    number_of_plain Hp.
    assert (Hm : exists its,
               match get p "line_items" with
               | VArr lis => mapM (shopify_item h c) lis
               | _ => Ok []
               end = Ok its).
    { destruct (get p "line_items") as [| | | | | lis |] eqn:E; eauto.
      apply mapM_ok. apply Forall_forall. intros li Hin.
      pose proof (Hlis lis eq_refl) as Hread. rewrite Forall_forall in Hread.
      assert (Hli : plain li = true).
      { pose proof (plain_get p "line_items" Hp) as Hl. rewrite E in Hl.
        pose proof (plain_elements lis Hl) as Hall.
        rewrite Forall_forall in Hall. now apply Hall. }
      unfold shopify_item. rewrite (get_strict_ok li "title" (Hread li Hin)).
      cbn [bind]. number_of_plain Hli. number_of_plain Hli. eauto. }
    destruct Hm as [its ->]. cbn [bind]. string_of_plain Hp. eauto.
  - unfold normalizeCustom.
    destruct (upper_or_USD_ok h _ Hcur) as [c ->]. cbn [bind].
    do 4 number_of_plain Hp.
    assert (Hm : exists its,
               match get p "items" ||| VArr [] with
               | VArr xs => mapM (custom_item h p) xs
               | _ => Throw TypeError
               end = Ok its).
    { destruct (truthy (get p "items")) eqn:E.
      - rewrite or_else_truthy by exact E. specialize (Harr eq_refl).
        destruct (get p "items") as [| | | | | xs |] eqn:Ei; try discriminate.
        apply mapM_ok. apply Forall_forall. intros i Hin.
        pose proof (Hitems xs eq_refl) as Hread. rewrite Forall_forall in Hread.
        destruct (Hread i Hin) as [Hr Hs].
        assert (Hi : plain i = true).
        { pose proof (plain_get p "items" Hp) as Hl. rewrite Ei in Hl.
          pose proof (plain_elements xs Hl) as Hall.
          rewrite Forall_forall in Hall. now apply Hall. }
        unfold custom_item. rewrite (get_strict_ok i "name" Hr). cbn [bind].
        number_of_plain Hi. number_of_plain Hi.
        destruct (upper_or_USD_ok h (get i "currency" ||| get p "currency")
                    (string_or_falsy_or_else _ _ Hs Hcur)) as [c' ->].
        cbn. eauto.
      - rewrite or_else_falsy by exact E. cbn. eauto. }
    destruct Hm as [its ->]. cbn. eauto.
  - eauto.
Qed.

Lemma check_cents_plain (h : Host) (payload : value) (keys : list string) :
  plain payload = true -> exists r, check_cents h payload keys = Ok r.
Proof.
  intros Hp. induction keys as [| k keys IH]; cbn [check_cents]; [eauto |].
  destruct (not_nullish (get payload k)); [| exact IH].
  destruct (plain_ToNumber h (get payload k) (plain_get payload k Hp)) as [v ->].
  cbn [bind]. destruct (bad_cents v); eauto.
Qed.

Lemma basic_validation_plain (h : Host) (payload : value) :
  plain payload = true -> exists r, basic_validation h payload = Ok r.
Proof.
  intros Hp. unfold basic_validation.
  destruct payload; eauto;
    repeat match goal with
           | |- context [if ?b then _ else _] => destruct b
           end;
    eauto; now apply check_cents_plain.
Qed.

Lemma event_time_plain (h : Host) (p : value) (norm : NormalizedEvent) :
  plain p = true ->
  detectAndNormalize h p = Ok (Some norm) ->
  plain (event_time norm) = true.
Proof.
  intros Hp Hn. pose proof (normalized_by_shape h p norm Hn) as H.
  destruct (detect p); [| | | | | contradiction].
  - unfold normalizeStripeLoose in H.
    bind_inv H iso Hiso. bind_inv H total Htotal. bind_inv H cur Hcur.
    inversion H; subst norm. reflexivity.
  - unfold normalizePaddleLoose in H.
    bind_inv H cur Hcur. bind_inv H raw Hraw. bind_inv H eid Heid.
    inversion H; subst norm. cbn [event_time].
    apply plain_or_else; [now apply plain_get | reflexivity].
  - unfold normalizeLemonLoose in H.
    bind_inv H cur Hcur. bind_inv H total Htotal.
    inversion H; subst norm. cbn [event_time].
    apply plain_or_else; [now repeat apply plain_get | reflexivity].
  - unfold normalizeShopifyLoose in H.
    bind_inv H cur Hcur. bind_inv H total Htotal. bind_inv H its Hits.
    bind_inv H eid Heid.
    inversion H; subst norm. cbn [event_time].
    apply plain_or_else; [now apply plain_get | reflexivity].
  - unfold normalizeCustom in H.
    bind_inv H cur Hcur. bind_inv H sub Hsub. bind_inv H dis Hdis.
    bind_inv H tax Htax. bind_inv H total Htotal. bind_inv H its Hits.
    inversion H; subst norm. cbn [event_time].
    apply plain_or_else; [now apply plain_get | reflexivity].
Qed.

(** The normalizers throw on ill-typed fields only.  On a payload in which
    no object has a property [toString], whose currencies are strings or
    falsy, whose [created] is falsy or gives a date in range, whose [items]
    is an array or falsy and whose arrays hold no [null], detection and
    normalization return without throwing, and [fetch] never answers with a
    TypeError. *)
Theorem benign_payloads_are_normalized (h : Host) (mappings : list Mapping)
    (p : value) :
  benign h p ->
  (exists r, detectAndNormalize h p = Ok r)
  /\ fetch h mappings p <> uncaught TypeError.
Proof.
  intros Hb. destruct (normalizers_succeed_on_benign h p Hb) as [r Hr].
  split; [eauto |].
  destruct Hb as [Hp _].
  unfold fetch. rewrite Hr.
  destruct (basic_validation_plain h p Hp) as [[r0 |] Hbv]; rewrite Hbv.
  { destruct (basic_validation_400 h _ _ Hbv) as [msg ->]. discriminate. }
  destruct r as [norm |]; [| discriminate].
  pose proof (event_time_plain h p norm Hp Hr) as Het.
  assert (Hold : exists b, too_old h norm = Ok b).
  { unfold too_old, evtMs.
    destruct (plain_ToString h (event_time norm ||| VStr "")) as [s ->];
      [apply plain_or_else; [exact Het | reflexivity] |].
    cbn. eauto. }
  destruct Hold as [[|] ->]; [discriminate |].
  destruct (validate_items norm) as [r0 |] eqn:Hi.
  { destruct (validate_items_400 _ _ Hi) as [msg ->]. discriminate. }
  destruct (validate_total norm) as [r0 |] eqn:Hv.
  { destruct (validate_total_400 _ _ Hv) as [msg ->]. discriminate. }
  destruct (plain_new_Date h (event_time norm ||| VStr (now_iso h))) as [tv ->];
    [apply plain_or_else; [exact Het | reflexivity] |].
  cbn [bind]. unfold toISOString. destruct (JS.isNaN tv); discriminate.
Qed.

Lemma readme_payload_is_benign (h : Host) : benign h readme_payload.
Proof.
  repeat split; try (left; reflexivity); try (right; eexists; reflexivity).
  - discriminate.
  - intros lis E. discriminate.
  - intros xs E. cbn in E. inversion E; subst.
    constructor; [| constructor].
    split; [split; discriminate | left; reflexivity].
Qed.

(** The README's payload is benign, so it is normalized. *)
Lemma benign_payloads_witness :
  exists r, detectAndNormalize Example.host readme_payload = Ok r.
Proof.
  exact (proj1 (benign_payloads_are_normalized Example.host [] readme_payload
                  (readme_payload_is_benign Example.host))).
Defined.

Lemma stripe_items (h : Host) (p : value) (norm : NormalizedEvent) :
  normalizeStripeLoose h p = Ok norm -> items norm = [].
Proof.
  unfold normalizeStripeLoose. intros H.
  bind_inv H iso Hiso. bind_inv H total Htotal. bind_inv H cur Hcur.
  now inversion H.
Qed.

Lemma paddle_items (h : Host) (p : value) (norm : NormalizedEvent) :
  normalizePaddleLoose h p = Ok norm -> items norm = [].
Proof.
  unfold normalizePaddleLoose. intros H.
  bind_inv H cur Hcur. bind_inv H raw Hraw. bind_inv H eid Heid.
  now inversion H.
Qed.

Lemma lemon_items (h : Host) (p : value) (norm : NormalizedEvent) :
  normalizeLemonLoose h p = Ok norm -> items norm = [].
Proof.
  unfold normalizeLemonLoose. intros H.
  bind_inv H cur Hcur. bind_inv H total Htotal.
  now inversion H.
Qed.

(** Only the shopify-like and the custom normalizer read items.  An event
    detected as stripe-like, paddle-like or lemon-like has none, whatever the
    payload carries, so [fetch] stores no item row for it when the node has no
    primary mapping, and otherwise exactly one row, named "Order", of quantity
    1, carrying the event's total and the primary product. *)
Theorem stripe_paddle_lemon_events_carry_no_items (h : Host)
    (mappings : list Mapping) (p : value) (norm : NormalizedEvent) :
  detectAndNormalize h p = Ok (Some norm) ->
  detect p = StripeLike \/ detect p = PaddleLike \/ detect p = LemonLike ->
  items norm = []
  /\ forall conv rows,
       fetch h mappings p = stored conv rows ->
       (find is_primary mappings = None -> rows = [])
       /\ (forall primary, find is_primary mappings = Some primary ->
           exists row,
             rows = [row]
             /\ row_name row = VStr "Order"
             /\ row_quantity row = 1
             /\ row_unit_amount_cents row = total_cents norm
             /\ row_is_bump row = false
             /\ row_product_id row
                = (if String.eqb (product_id primary) "" then None
                   else Some (product_id primary))).
Proof.
  intros Hn Hshape.
  assert (Hnil : items norm = []).
  { pose proof (normalized_by_shape h p norm Hn) as Hs.
    destruct Hshape as [E | [E | E]]; rewrite E in Hs.
    - exact (stripe_items _ _ _ Hs).
    - exact (paddle_items _ _ _ Hs).
    - exact (lemon_items _ _ _ Hs). }
  split; [exact Hnil |].
  intros conv rows Hf.
  destruct (fetch_stored_inv _ _ _ _ _ Hf) as [norm' [iso [_ [Hn' [_ [_ [_ [_ ->]]]]]]]].
  rewrite Hn in Hn'. inversion Hn'; subst norm'. clear Hn'.
  unfold attributed_items. rewrite Hnil. cbn [mapItemsToProducts].
  split.
  - intros Hnone. rewrite Hnone. now destruct mappings.
  - intros primary Hsome. rewrite Hsome.
    destruct mappings as [| m ms]; [discriminate |].
    eexists. split; [reflexivity |]. cbn. repeat split.
Qed.

(** The sample paddle-like payload has no items. *)
Lemma stripe_paddle_lemon_witness :
  exists norm,
    detectAndNormalize Example.host (FetchSamples.paddle_at Example.iso_now)
    = Ok (Some norm)
    /\ items norm = [].
Proof.
  destruct (detectAndNormalize Example.host (FetchSamples.paddle_at Example.iso_now))
    as [[norm |] | e] eqn:E; try (vm_compute in E; discriminate).
  exists norm. split; [reflexivity |].
  exact (proj1 (stripe_paddle_lemon_events_carry_no_items Example.host []
                  (FetchSamples.paddle_at Example.iso_now) norm E
                  (or_intror (or_introl eq_refl)))).
Defined.

(** One truthy [alert_id], [event_time] or [order_id] makes a payload
    paddle-like unless it is stripe-like: the custom fields it carries are then
    not read.  The event has no items and no subtotal, discount or tax, and
    its total comes from [sale_gross], [total] and [amount] alone: it is 0
    when none of them is truthy, whatever [total_cents] says. *)
Theorem paddle_fields_override_the_custom_shape (h : Host) (p : value)
    (norm : NormalizedEvent) :
  stripe_signal p = false -> PaddleSignal p ->
  detectAndNormalize h p = Ok (Some norm) ->
  provider norm = VStr "paddle"
  /\ items norm = []
  /\ subtotal_cents norm = None /\ discount_cents norm = None
  /\ tax_cents norm = None
  /\ (truthy (get p "sale_gross") = false -> truthy (get p "total") = false ->
      truthy (get p "amount") = false -> total_cents norm = 0).
Proof.
  intros Hs Hp Hn. apply paddle_signal_iff in Hp.
  pose proof (normalized_by_shape h p norm Hn) as Hshape.
  unfold detect in Hshape. rewrite Hs, Hp in Hshape.
  unfold normalizePaddleLoose in Hshape.
  bind_inv Hshape cur Hcur. bind_inv Hshape raw Hraw. bind_inv Hshape eid Heid.
  inversion Hshape; subst norm; clear Hshape.
  cbn [provider items subtotal_cents discount_cents tax_cents total_cents].
  repeat (split; [reflexivity |]).
  intros H1 H2 H3.
  rewrite (or_else_falsy _ _ H1), (or_else_falsy _ _ H2), (or_else_falsy _ _ H3)
    in Hraw.
  cbn in Hraw. inversion Hraw; subst raw. reflexivity.
Qed.

(** The README's payload with an [order_id]: stored as a paddle event of
    total 0 without items. *)
Lemma paddle_fields_override_witness :
  exists norm,
    detectAndNormalize Example.host PayloadSamples.readme_with_order_id = Ok (Some norm)
    /\ provider norm = VStr "paddle" /\ items norm = [] /\ total_cents norm = 0.
Proof.
  destruct (detectAndNormalize Example.host PayloadSamples.readme_with_order_id)
    as [[norm |] | e] eqn:E; try (vm_compute in E; discriminate).
  destruct (paddle_fields_override_the_custom_shape Example.host
              PayloadSamples.readme_with_order_id norm eq_refl
              (or_intror (or_intror eq_refl)) E)
    as [Hp [Hi [_ [_ [_ Ht]]]]].
  exists norm. repeat split; [exact Hp | exact Hi |].
  apply Ht; reflexivity.
Defined.

(** ** The time of a custom event *)

Lemma sub_diag (x : float) :
  Prim2SF (x - x) = S754_nan \/ exists s, Prim2SF (x - x) = S754_zero s.
Proof.
  rewrite sub_spec. unfold SF64sub.
  destruct (Prim2SF x) as [s | s | | s m e] eqn:E.
  - right. destruct s; cbn; eauto.
  - left. destruct s; reflexivity.
  - left. reflexivity.
  - right. unfold SFsub.
    match goal with
    | |- context [binary_normalize _ _ ?a _ _] =>
        replace a with 0%Z by (unfold Zminus; lia)
    end.
    cbn. eauto.
Qed.

Lemma age_of_now (x : float) : JS.gtb ((x - x) / 86400000) 7 = false.
Proof.
  unfold JS.gtb. rewrite ltb_spec, div_spec.
  destruct (sub_diag x) as [-> | [s ->]].
  - reflexivity.
  - destruct s; vm_compute; reflexivity.
Qed.

Lemma stamped_now_is_not_old (h : Host) (norm : NormalizedEvent) :
  event_time norm = VStr (now_iso h) ->
  Date_parse h (now_iso h) = Date_now h ->
  too_old h norm = Ok false.
Proof.
  intros Ht Hlaw. unfold too_old, evtMs, ageDays. rewrite Ht.
  assert (E : ToString h (VStr (now_iso h) ||| VStr "") = Ok (now_iso h)).
  { unfold or_else. cbn [truthy].
    destruct (String.eqb (now_iso h) "") eqn:Es; cbn; [| reflexivity].
    apply String.eqb_eq in Es. now rewrite Es. }
  rewrite E. cbn [bind]. rewrite Hlaw. unfold MAX_EVENT_AGE_DAYS.
  rewrite age_of_now. f_equal. apply andb_false_r.
Qed.

(** A custom payload cannot give the time of its event: a truthy
    [event_time] would make it paddle-like, so the custom normalizer always
    stamps the event with the time of arrival.  On a host whose [Date.parse]
    reads back what [toISOString] printed for the current time, a custom event
    is therefore never rejected as too old. *)
Theorem custom_events_are_stamped_on_arrival (h : Host) (p : value)
    (norm : NormalizedEvent) :
  detect p = CustomShape ->
  detectAndNormalize h p = Ok (Some norm) ->
  Date_parse h (now_iso h) = Date_now h ->
  event_time norm = VStr (now_iso h)
  /\ too_old h norm = Ok false
  /\ forall mappings, fetch h mappings p <> json "Event too old" 422.
Proof.
  intros Hd Hn Hlaw.
  pose proof (normalized_by_shape h p norm Hn) as Hshape.
  pose proof (detect_shape p) as Hsig.
  rewrite Hd in Hshape, Hsig. destruct Hsig as [_ Hpad].
  assert (Het : truthy (get p "event_time") = false).
  { unfold paddle_signal in Hpad. rewrite !truthy_or_else in Hpad.
    apply orb_false_iff in Hpad. destruct Hpad as [Hpad _].
    apply orb_false_iff in Hpad. tauto. }
  assert (Ht : event_time norm = VStr (now_iso h)).
  { unfold normalizeCustom in Hshape.
    bind_inv Hshape cur Hcur. bind_inv Hshape sub Hsub. bind_inv Hshape dis Hdis.
    bind_inv Hshape tax Htax. bind_inv Hshape total Htotal.
    bind_inv Hshape its Hits.
    inversion Hshape; subst norm; clear Hshape. cbn [event_time].
    now rewrite or_else_falsy by exact Het. }
  pose proof (stamped_now_is_not_old h norm Ht Hlaw) as Hold.
  split; [exact Ht |]. split; [exact Hold |].
  intros mappings. unfold fetch. rewrite Hn.
  destruct (basic_validation h p) as [[r |] | e] eqn:Hb; [| | discriminate].
  { destruct (basic_validation_400 h _ _ Hb) as [msg ->]. discriminate. }
  rewrite Hold.
  destruct (validate_items norm) as [r |] eqn:Hi.
  { destruct (validate_items_400 _ _ Hi) as [msg ->]. discriminate. }
  destruct (validate_total norm) as [r |] eqn:Hv.
  { destruct (validate_total_400 _ _ Hv) as [msg ->]. discriminate. }
  destruct (bind _ _); discriminate.
Qed.

(** The README's payload on the sample host. *)
Lemma custom_events_witness :
  exists norm,
    detectAndNormalize Example.host readme_payload = Ok (Some norm)
    /\ event_time norm = VStr Example.iso_now.
Proof.
  destruct (detectAndNormalize Example.host readme_payload)
    as [[norm |] | e] eqn:E; try (vm_compute in E; discriminate).
  exists norm. split; [reflexivity |].
  exact (proj1 (custom_events_are_stamped_on_arrival Example.host readme_payload
                  norm eq_refl E eq_refl)).
Defined.

(** ** The items of a custom event *)

Lemma mapM_length {A B : Type} (f : A -> result B) (l : list A) (l' : list B) :
  mapM f l = Ok l' -> List.length l' = List.length l.
Proof.
  revert l'. induction l as [| a l IH]; cbn; intros l' H.
  - now inversion H.
  - destruct (f a) as [b | e]; [| discriminate]. cbn in H.
    destruct (mapM f l) as [bs | e]; [| discriminate]. cbn in H.
    inversion H. cbn. f_equal. now apply IH.
Qed.

Lemma mapM_nth_error {A B : Type} (f : A -> result B) (l : list A) (l' : list B) :
  mapM f l = Ok l' ->
  forall i a, nth_error l i = Some a ->
  exists b, nth_error l' i = Some b /\ f a = Ok b.
Proof.
  revert l'. induction l as [| a0 l IH]; cbn; intros l' H i a Hi.
  - destruct i; discriminate.
  - destruct (f a0) as [b0 | e] eqn:E0; [| discriminate]. cbn in H.
    destruct (mapM f l) as [bs | e]; [| discriminate]. cbn in H.
    inversion H; subst l'. destruct i as [| i]; cbn in Hi |- *.
    + inversion Hi; subst a0. eauto.
    + now apply (IH bs eq_refl i a).
Qed.

(** The custom normalizer reads the event field for field.  The total is
    [Number(total_cents || 0)]; the items are those of the payload's [items]
    array, in its order and as many; each keeps its [name], has
    [Number(quantity || 1)] as quantity and [Number(unit_amount_cents || 0)]
    as amount, is a bump exactly when [is_bump] is truthy, and has the upper
    case of its own currency, else of the payload's, else USD. *)
Theorem custom_events_are_read_field_for_field (h : Host) (p : value)
    (norm : NormalizedEvent) :
  detect p = CustomShape ->
  detectAndNormalize h p = Ok (Some norm) ->
  ToNumber h (get p "total_cents" ||| VNum 0) = Ok (total_cents norm)
  /\ exists xs,
       (get p "items" ||| VArr []) = VArr xs
       /\ List.length (items norm) = List.length xs
       /\ forall i x, nth_error xs i = Some x ->
          exists it,
            nth_error (items norm) i = Some it
            /\ name it = get x "name"
            /\ ToNumber h (get x "quantity" ||| VNum 1) = Ok (quantity it)
            /\ ToNumber h (get x "unit_amount_cents" ||| VNum 0)
               = Ok (unit_amount_cents it)
            /\ is_bump it = Some (truthy (get x "is_bump"))
            /\ exists c,
                 currency it = Some c
                 /\ upper_or_USD h (get x "currency" ||| get p "currency") = Ok c.
Proof.
  intros Hd Hn.
  pose proof (normalized_by_shape h p norm Hn) as Hshape. rewrite Hd in Hshape.
  unfold normalizeCustom in Hshape.
  bind_inv Hshape c Hc. bind_inv Hshape sub Hsub. bind_inv Hshape dis Hdis.
  bind_inv Hshape tax Htax. bind_inv Hshape total Htotal.
  bind_inv Hshape its Hits.
  inversion Hshape; subst norm; clear Hshape. cbn [total_cents items].
  split; [exact Htotal |].
  destruct (get p "items" ||| VArr []) as [| | | | | xs |]; try discriminate.
  exists xs. split; [reflexivity |].
  split; [exact (mapM_length _ _ _ Hits) |].
  intros i x Hi.
  destruct (mapM_nth_error _ _ _ Hits i x Hi) as [it [Hnth Hit]].
  exists it. split; [exact Hnth |].
  unfold custom_item in Hit.
  bind_inv Hit nm Hnm. bind_inv Hit qty Hqty. bind_inv Hit amount Hamount.
  bind_inv Hit cur Hcur.
  inversion Hit; subst it; clear Hit.
  cbn [name quantity unit_amount_cents is_bump currency].
  split.
  { destruct x; try discriminate; cbn in Hnm; now inversion Hnm. }
  split; [exact Hqty |]. split; [exact Hamount |]. split; [reflexivity |].
  exists cur. split; [reflexivity | exact Hcur].
Qed.

(** The README's payload: one item, read as it stands. *)
Lemma custom_events_field_witness :
  exists norm,
    detectAndNormalize Example.host readme_payload = Ok (Some norm)
    /\ total_cents norm = 9900.
Proof.
  destruct (detectAndNormalize Example.host readme_payload)
    as [[norm |] | e] eqn:E; try (vm_compute in E; discriminate).
  exists norm. split; [reflexivity |].
  pose proof (proj1 (custom_events_are_read_field_for_field Example.host
                       readme_payload norm eq_refl E)) as Ht.
  cbn in Ht. now inversion Ht.
Defined.

(** ** The amount of a stripe event *)

(** The total of a stripe-like event follows the event type:
    [data.object.amount_total] for [checkout.session.completed], [amount] for
    [payment_intent.succeeded], [total] for [invoice.payment_succeeded], and
    [amount_total], then [amount], for any other type; a falsy amount counts
    as 0.  The event is stamped with the time of arrival when [created] is
    falsy, and with [created] seconds otherwise. *)
Theorem stripe_total_follows_the_event_type (h : Host) (p : value)
    (norm : NormalizedEvent) :
  detect p = StripeLike ->
  detectAndNormalize h p = Ok (Some norm) ->
  ToNumber h (stripe_amount (get p "type")
                (get (get p "data") "object" ||| VObj []))
  = Ok (total_cents norm)
  /\ provider norm = VStr "stripe"
  /\ (truthy (get p "created") = false -> event_time norm = VStr (now_iso h))
  /\ (truthy (get p "created") = true ->
      exists created,
        ToNumber h (get p "created") = Ok created
        /\ JS.isNaN (JS.TimeClip (created * 1000)) = false
        /\ event_time norm
           = VStr (Date_toISOString h (JS.TimeClip (created * 1000)))).
Proof.
  intros Hd Hn.
  pose proof (normalized_by_shape h p norm Hn) as Hshape. rewrite Hd in Hshape.
  unfold normalizeStripeLoose in Hshape.
  bind_inv Hshape iso Hiso. bind_inv Hshape total Htotal.
  bind_inv Hshape c Hc.
  inversion Hshape; subst norm; clear Hshape.
  cbn [total_cents provider event_time].
  rewrite stripe_amount_match in Htotal.
  split; [exact Htotal |]. split; [reflexivity |].
  destruct (truthy (get p "created")).
  - split; [discriminate |]. intros _.
    bind_inv Hiso created Hcreated. exists created. split; [exact Hcreated |].
    unfold toISOString in Hiso.
    destruct (JS.isNaN _); [discriminate |]. split; [reflexivity |].
    now inversion Hiso.
  - split; [| discriminate]. intros _. now inversion Hiso.
Qed.

(** The sample [checkout.session.completed] event: its total is its
    [amount_total], 4900. *)
Lemma stripe_total_witness :
  exists norm,
    detectAndNormalize Example.host NormalizerSamples.checkout_completed = Ok (Some norm)
    /\ total_cents norm = 4900.
Proof.
  destruct (detectAndNormalize Example.host NormalizerSamples.checkout_completed)
    as [[norm |] | e] eqn:E; try (vm_compute in E; discriminate).
  exists norm. split; [reflexivity |].
  pose proof (proj1 (stripe_total_follows_the_event_type Example.host
                       NormalizerSamples.checkout_completed norm eq_refl E)) as Ht.
  cbn in Ht. now inversion Ht.
Defined.

(** ** A failed lookup of the product mappings *)

Lemma unmapped_rows (norm : NormalizedEvent) :
  let rows := map (row_of norm) (attributed_items norm []) in
  List.length rows = List.length (items norm)
  /\ Forall (fun r => row_product_id r = None) rows.
Proof.
  cbv zeta. unfold attributed_items, mapItemsToProducts.
  destruct (items norm) as [| it its]; [split; [reflexivity | constructor] |].
  cbn [map]. split; [cbn [List.length]; now rewrite !length_map |].
  apply Forall_forall. intros r [<- | Hin]; [reflexivity |].
  apply in_map_iff in Hin. destruct Hin as [mi [<- Hin]].
  apply in_map_iff in Hin. destruct Hin as [it' [<- _]].
  reflexivity.
Qed.

(** [fetchNodeProductMappings] swallows the error of its lookup.  When the
    lookup fails, the request is handled exactly as for a node without
    mappings: same answer, same writes, the store's message appearing
    nowhere.  The event's items are stored, as many as the event has, each
    without a product, and an event without items gets no row. *)
Theorem failed_mapping_lookup_is_silent (h : Host) (sv : Services)
    (workspaceId nodeId : string) (node : NodeRow) (norm : NormalizedEvent)
    (eventTimeISO : string) (message : string) :
  select_node_products sv workspaceId nodeId = failed message ->
  fetchNodeProductMappings sv workspaceId nodeId = []
  /\ persist h sv workspaceId nodeId node norm eventTimeISO
     = persist h (with_node_products sv (data_of (Some []))) workspaceId nodeId
         node norm eventTimeISO
  /\ List.length (map (row_of norm)
                    (attributed_items norm
                       (fetchNodeProductMappings sv workspaceId nodeId)))
     = List.length (items norm)
  /\ Forall (fun r => row_product_id r = None)
       (map (row_of norm)
          (attributed_items norm (fetchNodeProductMappings sv workspaceId nodeId))).
Proof.
  intros Hfail.
  assert (Hm : fetchNodeProductMappings sv workspaceId nodeId = []).
  { unfold fetchNodeProductMappings. now rewrite Hfail. }
  split; [exact Hm |]. split.
  - unfold persist. rewrite Hm. reflexivity.
  - rewrite Hm. exact (unmapped_rows norm).
Qed.

(** The sample store with a failing lookup of the mappings: the sample
    event has no items, and only the upsert is written, where the store with
    its primary mapping had the fallback row inserted too. *)
Lemma failed_mapping_lookup_witness :
  fetchNodeProductMappings
    (with_node_products (ServiceSamples.services true) (failed "timeout")) "w1" "n1"
  = []
  /\ List.length
       (snd (persist Example.host
               (with_node_products (ServiceSamples.services true) (failed "timeout"))
               "w1" "n1" ServiceSamples.node_n1 ServiceSamples.event_9900
               Example.iso_now)) = 1%nat.
Proof.
  split; [| reflexivity].
  exact (proj1 (failed_mapping_lookup_is_silent Example.host
                  (with_node_products (ServiceSamples.services true) (failed "timeout"))
                  "w1" "n1" ServiceSamples.node_n1 ServiceSamples.event_9900
                  Example.iso_now "timeout" eq_refl)).
Defined.

(** The sample event is what validation makes of the sample body. *)
Lemma sample_payload_is_validated :
  validated Example.host ServiceSamples.payload_9900
  = inr (ServiceSamples.event_9900, Example.iso_now).
Proof. vm_compute. reflexivity. Qed.
